(** * Foreign transaction manager (fdwxact.c): shallow embedding and properties

    The development follows [src/backend/access/fdwxact/fdwxact.c] and
    [src/include/access/fdwxact.h].  Shared memory, the write-ahead log, the
    [pg_fdw_xact] directory and the backend-local variables are gathered in a
    record [World]; every C function that reads or writes them becomes a
    computation in a small state-and-error monad [M].  [ereport(ERROR, ...)]
    is a [Raised] outcome that keeps the state reached so far, as the
    non-local exit of the C code does. *)

From Stdlib Require Import ZArith Ascii String List Bool Lia DecimalString.
From stdpp Require Import base list sets strings.

Local Open Scope Z_scope.

(** ** Scalar types *)

Definition Oid := Z.
Definition TransactionId := Z.
Definition XLogRecPtr := Z.
Definition BackendId := Z.

Definition InvalidOid : Oid := 0.
Definition InvalidTransactionId : TransactionId := 0.
Definition InvalidXLogRecPtr : XLogRecPtr := 0.
Definition InvalidBackendId : BackendId := -1.

Definition OidIsValid (o : Oid) : bool := negb (o =? InvalidOid).
Definition XLogRecPtrIsInvalid (r : XLogRecPtr) : bool := r =? InvalidXLogRecPtr.

(** fdwxact.h *)
Definition FDW_XACT_ID_MAX_LEN : Z := 200.

Inductive FdwXactStatus :=
| FDW_XACT_INITIAL
| FDW_XACT_PREPARING
| FDW_XACT_PREPARED
| FDW_XACT_COMMITTING_PREPARED
| FDW_XACT_ABORTING_PREPARED.

Inductive DistributedAtomicCommitLevel :=
| DISTRIBUTED_ATOMIC_COMMIT_DISABLED
| DISTRIBUTED_ATOMIC_COMMIT_PREFER
| DISTRIBUTED_ATOMIC_COMMIT_REQUIRED.

#[global] Instance FdwXactStatus_eq_dec : EqDecision FdwXactStatus.
Proof. solve_decision. Defined.
#[global] Instance DistributedAtomicCommitLevel_eq_dec :
  EqDecision DistributedAtomicCommitLevel.
Proof. solve_decision. Defined.

(** A [FdwXact] is a pointer into the array of [FdwXactData] structs that
    [FdwXactShmemInit] lays out behind the control header; it is modelled by
    the index of the struct in that array. *)
Abbreviation FdwXact := nat.

Record FdwXactData := mkFdwXactData {
  fxact_next : option FdwXact;
  dbid : Oid;
  local_xid : TransactionId;
  serverid : Oid;
  userid : Oid;
  umid : Oid;
  status : FdwXactStatus;
  insert_start_lsn : XLogRecPtr;
  insert_end_lsn : XLogRecPtr;
  valid : bool;
  held_by : BackendId;
  ondisk : bool;
  inredo : bool;
  fdw_xact_id : string
}.

(** [FdwXactCtlData].  [pool] is the array of structs; [freeFdwXacts] is the
    free list threaded through [fxact_free_next], head first; [fdw_xacts] is
    the prefix [fdw_xacts[0 .. numFdwXacts-1]] of the array of pointers. *)
Record FdwXactCtlData := mkFdwXactCtlData {
  pool : list FdwXactData;
  freeFdwXacts : list FdwXact;
  fdw_xacts : list FdwXact
}.

Definition numFdwXacts (c : FdwXactCtlData) : nat := length (fdw_xacts c).

Definition blank_FdwXactData : FdwXactData :=
  mkFdwXactData None 0 0 0 0 0 FDW_XACT_INITIAL 0 0 false 0 false false EmptyString.

(** Dereference of a [FdwXact] pointer. *)
Definition deref (c : FdwXactCtlData) (p : FdwXact) : FdwXactData :=
  default blank_FdwXactData (pool c !! p).

(** Assignment through a [FdwXact] pointer. *)
Definition update (p : FdwXact) (f : FdwXactData -> FdwXactData)
    (c : FdwXactCtlData) : FdwXactCtlData :=
  mkFdwXactCtlData (alter f p (pool c)) (freeFdwXacts c) (fdw_xacts c).

(** Field setters of [FdwXactData]. *)
Definition set_status (s : FdwXactStatus) (x : FdwXactData) : FdwXactData :=
  mkFdwXactData (fxact_next x) (dbid x) (local_xid x) (serverid x) (userid x)
    (umid x) s (insert_start_lsn x) (insert_end_lsn x) (valid x) (held_by x)
    (ondisk x) (inredo x) (fdw_xact_id x).
Definition set_held_by (b : BackendId) (x : FdwXactData) : FdwXactData :=
  mkFdwXactData (fxact_next x) (dbid x) (local_xid x) (serverid x) (userid x)
    (umid x) (status x) (insert_start_lsn x) (insert_end_lsn x) (valid x) b
    (ondisk x) (inredo x) (fdw_xact_id x).
Definition set_fxact_next (n : option FdwXact) (x : FdwXactData) : FdwXactData :=
  mkFdwXactData n (dbid x) (local_xid x) (serverid x) (userid x)
    (umid x) (status x) (insert_start_lsn x) (insert_end_lsn x) (valid x)
    (held_by x) (ondisk x) (inredo x) (fdw_xact_id x).
Definition set_insert_start_lsn (l : XLogRecPtr) (x : FdwXactData) : FdwXactData :=
  mkFdwXactData (fxact_next x) (dbid x) (local_xid x) (serverid x) (userid x)
    (umid x) (status x) l (insert_end_lsn x) (valid x) (held_by x)
    (ondisk x) (inredo x) (fdw_xact_id x).
Definition set_insert_end_lsn (l : XLogRecPtr) (x : FdwXactData) : FdwXactData :=
  mkFdwXactData (fxact_next x) (dbid x) (local_xid x) (serverid x) (userid x)
    (umid x) (status x) (insert_start_lsn x) l (valid x) (held_by x)
    (ondisk x) (inredo x) (fdw_xact_id x).
Definition set_valid (b : bool) (x : FdwXactData) : FdwXactData :=
  mkFdwXactData (fxact_next x) (dbid x) (local_xid x) (serverid x) (userid x)
    (umid x) (status x) (insert_start_lsn x) (insert_end_lsn x) b (held_by x)
    (ondisk x) (inredo x) (fdw_xact_id x).
Definition set_ondisk (b : bool) (x : FdwXactData) : FdwXactData :=
  mkFdwXactData (fxact_next x) (dbid x) (local_xid x) (serverid x) (userid x)
    (umid x) (status x) (insert_start_lsn x) (insert_end_lsn x) (valid x)
    (held_by x) b (inredo x) (fdw_xact_id x).
Definition set_inredo (b : bool) (x : FdwXactData) : FdwXactData :=
  mkFdwXactData (fxact_next x) (dbid x) (local_xid x) (serverid x) (userid x)
    (umid x) (status x) (insert_start_lsn x) (insert_end_lsn x) (valid x)
    (held_by x) (ondisk x) b (fdw_xact_id x).

(** The key of an entry: (dbid, local_xid, serverid, userid). *)
Definition FdwXactKey : Type := Oid * TransactionId * Oid * Oid.

Definition key_of (x : FdwXactData) : FdwXactKey :=
  (dbid x, local_xid x, serverid x, userid x).

(** ** Errors *)

Inductive ErrCode :=
| ERRCODE_INTERNAL_ERROR          (* ereport(ERROR) without an errcode *)
| ERRCODE_FEATURE_NOT_SUPPORTED
| ERRCODE_OUT_OF_MEMORY
| ERRCODE_NAME_TOO_LONG
| ERRCODE_UNDEFINED_OBJECT
| ERRCODE_OBJECT_NOT_IN_PREREQUISITE_STATE
| ERRCODE_INSUFFICIENT_PRIVILEGE
| ERRCODE_T_R_INTEGRITY_CONSTRAINT_VIOLATION
| ERRCODE_UNDEFINED_FILE          (* errcode_for_file_access() at ENOENT *).

#[global] Instance ErrCode_eq_dec : EqDecision ErrCode.
Proof. solve_decision. Defined.

(** Message texts are those of the source, without their format arguments. *)
Record ErrorData := mkErrorData {
  sqlerrcode : ErrCode;
  message : string;
  hint : option string
}.

Inductive ErrorLevel := DEBUG2 | LOG | WARNING | ERROR.

Definition err_duplicate_entry : ErrorData :=
  mkErrorData ERRCODE_INTERNAL_ERROR
    "could not insert a foreign transaction entry" None.
Definition err_max_reached : ErrorData :=
  mkErrorData ERRCODE_OUT_OF_MEMORY
    "maximum number of foreign transactions reached"
    (Some "Increase max_prepared_foreign_transactions").
Definition err_remove_not_found : ErrorData :=
  mkErrorData ERRCODE_INTERNAL_ERROR
    "could not remove a foreign transaction entry" None.
Definition err_no_atomic_commit_support : ErrorData :=
  mkErrorData ERRCODE_FEATURE_NOT_SUPPORTED
    "cannot COMMIT a distributed transaction that has operated on foreign server that doesn't support atomic commit"
    None.
Definition err_prepared_disabled_max : ErrorData :=
  mkErrorData ERRCODE_OBJECT_NOT_IN_PREREQUISITE_STATE
    "prepread foreign transactions are disabled"
    (Some "Set max_prepared_foreign_transactions to a nonzero value.").
Definition err_prepared_disabled_resolvers : ErrorData :=
  mkErrorData ERRCODE_OBJECT_NOT_IN_PREREQUISITE_STATE
    "prepread foreign transactions are disabled"
    (Some "Set max_foreign_transaction_resolvers to a nonzero value.").
Definition err_id_not_provided : ErrorData :=
  mkErrorData ERRCODE_UNDEFINED_OBJECT
    "foreign transaction identifier is not provided" None.
Definition err_id_too_long : ErrorData :=
  mkErrorData ERRCODE_NAME_TOO_LONG
    "foreign transaction identifer is too long" None.
Definition err_could_not_prepare : ErrorData :=
  mkErrorData ERRCODE_INTERNAL_ERROR
    "could not prepare transaction on foreign server" None.
Definition err_could_not_commit : ErrorData :=
  mkErrorData ERRCODE_INTERNAL_ERROR
    "could not commit foreign transaction on server" None.
Definition err_resolve_in_progress : ErrorData :=
  mkErrorData ERRCODE_INTERNAL_ERROR
    "cannot resolve the foreign transaction associated with in-progress transaction"
    None.
Definition err_could_not_resolve (is_commit : bool) : ErrorData :=
  mkErrorData ERRCODE_INTERNAL_ERROR
    (if is_commit
     then "could not commit a prepared foreign transaction on server"
     else "could not rollback a prepared foreign transaction on server")
    None.
Definition err_invalid_log_type : ErrorData :=
  mkErrorData ERRCODE_INTERNAL_ERROR
    "invalid log type in foreign transction log record" None.
Definition err_must_be_superuser_resolve : ErrorData :=
  mkErrorData ERRCODE_INSUFFICIENT_PRIVILEGE
    "must be superuser to resolve foreign transactions" None.
Definition err_must_be_superuser_remove : ErrorData :=
  mkErrorData ERRCODE_INSUFFICIENT_PRIVILEGE
    "must be superuser to remove foreign transactions" None.
Definition err_entry_not_found : ErrorData :=
  mkErrorData ERRCODE_UNDEFINED_OBJECT
    "could not find foreign transaction entry" None.
Definition err_no_prepare_function : ErrorData :=
  mkErrorData ERRCODE_INTERNAL_ERROR
    "no function provided for preparing foreign transaction for FDW" None.
Definition err_no_commit_function : ErrorData :=
  mkErrorData ERRCODE_INTERNAL_ERROR
    "no function to commit a foreign transaction provided for FDW" None.
Definition err_no_rollback_function : ErrorData :=
  mkErrorData ERRCODE_INTERNAL_ERROR
    "no function to rollback a foreign transaction provided for FDW" None.

(** ** WAL records of the resource manager RM_FDW_XACT_ID *)

Record FdwXactOnDiskData := mkFdwXactOnDiskData {
  od_dbid : Oid;
  od_local_xid : TransactionId;
  od_serverid : Oid;
  od_userid : Oid;
  od_umid : Oid;
  od_fdw_xact_id : string
}.

Record xl_fdw_xact_remove := mk_xl_fdw_xact_remove {
  xr_xid : TransactionId;
  xr_serverid : Oid;
  xr_userid : Oid;
  xr_dbid : Oid
}.

Inductive XLogRecord :=
| XLOG_FDW_XACT_INSERT (d : FdwXactOnDiskData)
| XLOG_FDW_XACT_REMOVE (r : xl_fdw_xact_remove)
| XLOG_FDW_XACT_OTHER (info : Z).

Definition od_key (d : FdwXactOnDiskData) : FdwXactKey :=
  (od_dbid d, od_local_xid d, od_serverid d, od_userid d).

(** ** FDW interface *)

(** A [void *]: NULL, an FDW-private value, or the address of the
    [FdwXactState] the manager allocated. *)
Inductive voidp := NULLp | fdw_private (z : Z) | state_addr.

Record FdwXactState := mkFdwXactState {
  st_serverid : Oid;
  st_userid : Oid;
  st_umid : Oid;
  fdwxact_id : option string;
  fdw_state : voidp
}.

(** A transaction callback receives a pointer to the state: it returns its
    verdict together with the state it leaves behind. *)
Definition xact_callback := FdwXactState -> bool * FdwXactState.
Definition resolve_callback := FdwXactState -> bool -> bool * FdwXactState.
(** [GetPrepareId] returns the buffer (NULL as [None]) and stores the length
    it reports through its last argument. *)
Definition prepareid_callback :=
  TransactionId -> Oid -> Oid -> option string * Z.

Record FdwRoutine := mkFdwRoutine {
  PrepareForeignTransaction : option xact_callback;
  CommitForeignTransaction : option xact_callback;
  RollbackForeignTransaction : option xact_callback;
  ResolveForeignTransaction : resolve_callback;
  IsTwoPhaseCommitEnabled : option (Oid -> bool);
  GetPrepareId : option prepareid_callback
}.

Record ForeignServer := mkForeignServer {
  fs_serverid : Oid;
  servername : string
}.

Record UserMapping := mkUserMapping {
  um_umid : Oid;
  um_userid : Oid
}.

Record FdwXactParticipant := mkFdwXactParticipant {
  fdw_xact : option FdwXact;
  part_fdw_xact_id : option string;
  server : ForeignServer;
  usermapping : UserMapping;
  modified : bool;
  twophase_commit_enabled : bool;
  part_fdw_state : voidp;
  prepare_foreign_xact : xact_callback;
  commit_foreign_xact : xact_callback;
  rollback_foreign_xact : xact_callback;
  get_prepareid : option prepareid_callback;
  is_twophase_commit_enabled : Oid -> bool
}.

(** ** Observable actions

    What a run does outside shared memory, in order: WAL traffic, files of
    the [pg_fdw_xact] directory, FDW callbacks with their verdicts, and
    messages reported below ERROR. *)
Inductive Event :=
| EvXLogInsert (r : XLogRecord) (end_lsn : XLogRecPtr)
| EvXLogFlush (upto : XLogRecPtr)
| EvUnlink (k : FdwXactKey)
| EvIsTwoPhaseCommitEnabled (srv : Oid) (r : bool)
| EvPrepare (st : FdwXactState) (r : bool)
| EvCommit (st : FdwXactState) (r : bool)
| EvResolve (st : FdwXactState) (is_commit : bool) (r : bool)
| EvReport (lvl : ErrorLevel) (e : ErrorData).

(** ** External collaborators

    Functions of other modules that the manager only calls: the commit log
    (transam.h), the catalogue lookups (foreign.h), [superuser] and
    [random]; and three constants whose headers (pg_config_manual.h, xact.h)
    are not part of the sources, kept as parameters. *)
Record Env := mkEnv {
  NAMEDATALEN : Z;
  XACT_FLAGS_WROTENONTEMPREL : Z;
  XACT_FLAGS_FDWNOPREPARE : Z;
  TransactionIdDidCommit : TransactionId -> bool;
  TransactionIdDidAbort : TransactionId -> bool;
  TransactionIdIsInProgress : TransactionId -> bool;
  GetFdwRoutineByServerId : Oid -> FdwRoutine;
  GetForeignServer : Oid -> ForeignServer;
  GetUserMapping : Oid -> Oid -> UserMapping;
  superuser : bool;
  random : nat -> Z
}.

(** ** The state *)
Record World := mkWorld {
  env : Env;
  (* shared memory *)
  FdwXactCtl : FdwXactCtlData;
  (* write-ahead log: the records inserted so far and the flush pointer *)
  xlog : list XLogRecord;
  xlog_flushed : XLogRecPtr;
  ProcLastRecPtr : XLogRecPtr;
  RecoveryInProgress : bool;
  (* files present in pg_fdw_xact, named by the key of their entry *)
  fdw_xact_files : list FdwXactKey;
  (* backend-local variables *)
  MyBackendId : BackendId;
  MyDatabaseId : Oid;
  TopTransactionId : TransactionId;
  MyXactFlags : Z;
  delayChkpt : bool;
  FdwXactAtomicCommitParticipants : list FdwXactParticipant;
  FdwXactAtomicCommitReady : bool;
  random_calls : nat;
  (* GUC parameters *)
  max_prepared_foreign_xacts : Z;
  max_foreign_xact_resolvers : Z;
  distributed_atomic_commit : DistributedAtomicCommitLevel;
  (* what has been observed so far, oldest first *)
  trace : list Event
}.

Definition with_FdwXactCtl (f : FdwXactCtlData -> FdwXactCtlData) (w : World) : World :=
  mkWorld (env w) (f (FdwXactCtl w)) (xlog w) (xlog_flushed w) (ProcLastRecPtr w)
    (RecoveryInProgress w) (fdw_xact_files w) (MyBackendId w) (MyDatabaseId w)
    (TopTransactionId w) (MyXactFlags w) (delayChkpt w)
    (FdwXactAtomicCommitParticipants w) (FdwXactAtomicCommitReady w)
    (random_calls w) (max_prepared_foreign_xacts w)
    (max_foreign_xact_resolvers w) (distributed_atomic_commit w) (trace w).
Definition with_xlog (l : list XLogRecord) (last : XLogRecPtr) (w : World) : World :=
  mkWorld (env w) (FdwXactCtl w) l (xlog_flushed w) last
    (RecoveryInProgress w) (fdw_xact_files w) (MyBackendId w) (MyDatabaseId w)
    (TopTransactionId w) (MyXactFlags w) (delayChkpt w)
    (FdwXactAtomicCommitParticipants w) (FdwXactAtomicCommitReady w)
    (random_calls w) (max_prepared_foreign_xacts w)
    (max_foreign_xact_resolvers w) (distributed_atomic_commit w) (trace w).
Definition with_xlog_flushed (p : XLogRecPtr) (w : World) : World :=
  mkWorld (env w) (FdwXactCtl w) (xlog w) p (ProcLastRecPtr w)
    (RecoveryInProgress w) (fdw_xact_files w) (MyBackendId w) (MyDatabaseId w)
    (TopTransactionId w) (MyXactFlags w) (delayChkpt w)
    (FdwXactAtomicCommitParticipants w) (FdwXactAtomicCommitReady w)
    (random_calls w) (max_prepared_foreign_xacts w)
    (max_foreign_xact_resolvers w) (distributed_atomic_commit w) (trace w).
Definition with_fdw_xact_files (l : list FdwXactKey) (w : World) : World :=
  mkWorld (env w) (FdwXactCtl w) (xlog w) (xlog_flushed w) (ProcLastRecPtr w)
    (RecoveryInProgress w) l (MyBackendId w) (MyDatabaseId w)
    (TopTransactionId w) (MyXactFlags w) (delayChkpt w)
    (FdwXactAtomicCommitParticipants w) (FdwXactAtomicCommitReady w)
    (random_calls w) (max_prepared_foreign_xacts w)
    (max_foreign_xact_resolvers w) (distributed_atomic_commit w) (trace w).
Definition with_MyXactFlags (z : Z) (w : World) : World :=
  mkWorld (env w) (FdwXactCtl w) (xlog w) (xlog_flushed w) (ProcLastRecPtr w)
    (RecoveryInProgress w) (fdw_xact_files w) (MyBackendId w) (MyDatabaseId w)
    (TopTransactionId w) z (delayChkpt w)
    (FdwXactAtomicCommitParticipants w) (FdwXactAtomicCommitReady w)
    (random_calls w) (max_prepared_foreign_xacts w)
    (max_foreign_xact_resolvers w) (distributed_atomic_commit w) (trace w).
Definition with_delayChkpt (b : bool) (w : World) : World :=
  mkWorld (env w) (FdwXactCtl w) (xlog w) (xlog_flushed w) (ProcLastRecPtr w)
    (RecoveryInProgress w) (fdw_xact_files w) (MyBackendId w) (MyDatabaseId w)
    (TopTransactionId w) (MyXactFlags w) b
    (FdwXactAtomicCommitParticipants w) (FdwXactAtomicCommitReady w)
    (random_calls w) (max_prepared_foreign_xacts w)
    (max_foreign_xact_resolvers w) (distributed_atomic_commit w) (trace w).
Definition with_participants
    (f : list FdwXactParticipant -> list FdwXactParticipant) (w : World) : World :=
  mkWorld (env w) (FdwXactCtl w) (xlog w) (xlog_flushed w) (ProcLastRecPtr w)
    (RecoveryInProgress w) (fdw_xact_files w) (MyBackendId w) (MyDatabaseId w)
    (TopTransactionId w) (MyXactFlags w) (delayChkpt w)
    (f (FdwXactAtomicCommitParticipants w)) (FdwXactAtomicCommitReady w)
    (random_calls w) (max_prepared_foreign_xacts w)
    (max_foreign_xact_resolvers w) (distributed_atomic_commit w) (trace w).
Definition with_FdwXactAtomicCommitReady (b : bool) (w : World) : World :=
  mkWorld (env w) (FdwXactCtl w) (xlog w) (xlog_flushed w) (ProcLastRecPtr w)
    (RecoveryInProgress w) (fdw_xact_files w) (MyBackendId w) (MyDatabaseId w)
    (TopTransactionId w) (MyXactFlags w) (delayChkpt w)
    (FdwXactAtomicCommitParticipants w) b
    (random_calls w) (max_prepared_foreign_xacts w)
    (max_foreign_xact_resolvers w) (distributed_atomic_commit w) (trace w).
Definition with_random_calls (n : nat) (w : World) : World :=
  mkWorld (env w) (FdwXactCtl w) (xlog w) (xlog_flushed w) (ProcLastRecPtr w)
    (RecoveryInProgress w) (fdw_xact_files w) (MyBackendId w) (MyDatabaseId w)
    (TopTransactionId w) (MyXactFlags w) (delayChkpt w)
    (FdwXactAtomicCommitParticipants w) (FdwXactAtomicCommitReady w)
    n (max_prepared_foreign_xacts w)
    (max_foreign_xact_resolvers w) (distributed_atomic_commit w) (trace w).
Definition with_trace (f : list Event -> list Event) (w : World) : World :=
  mkWorld (env w) (FdwXactCtl w) (xlog w) (xlog_flushed w) (ProcLastRecPtr w)
    (RecoveryInProgress w) (fdw_xact_files w) (MyBackendId w) (MyDatabaseId w)
    (TopTransactionId w) (MyXactFlags w) (delayChkpt w)
    (FdwXactAtomicCommitParticipants w) (FdwXactAtomicCommitReady w)
    (random_calls w) (max_prepared_foreign_xacts w)
    (max_foreign_xact_resolvers w) (distributed_atomic_commit w) (f (trace w)).

(** ** The monad *)

Inductive Outcome (A : Type) :=
| Done (a : A)
| Raised (e : ErrorData).
Arguments Done {A} a.
Arguments Raised {A} e.

Definition M (A : Type) : Type := World -> Outcome A * World.

Definition ret {A} (a : A) : M A := fun w => (Done a, w).
Definition bind {A B} (m : M A) (k : A -> M B) : M B :=
  fun w => match m w with
           | (Done a, w') => k a w'
           | (Raised e, w') => (Raised e, w')
           end.

Declare Scope fxm_scope.
Delimit Scope fxm_scope with fxm.
Notation "'do' x <- m ;; k" := (bind m (fun x => k))
  (at level 10, x name, m at level 99, k at level 200) : fxm_scope.
Notation "'run' m ;; k" := (bind m (fun _ => k))
  (at level 10, m at level 99, k at level 200) : fxm_scope.
Local Open Scope fxm_scope.

Definition get : M World := fun w => (Done w, w).
Definition gets {A} (f : World -> A) : M A := fun w => (Done (f w), w).
Definition modify (f : World -> World) : M unit := fun w => (Done tt, f w).
Definition emit (ev : Event) : M unit := modify (with_trace (fun t => t ++ [ev])).

(** [ereport(elevel, ...)]: ERROR leaves the function; lower levels log and
    return. *)
Definition ereport (lvl : ErrorLevel) (e : ErrorData) : M unit :=
  match lvl with
  | ERROR => fun w => (Raised e, w)
  | _ => emit (EvReport lvl e)
  end.
Definition raise {A} (e : ErrorData) : M A := fun w => (Raised e, w).

(** [foreach] over a list, left to right, stopping at the first error. *)
Fixpoint foreach {A} (l : list A) (body : A -> M unit) : M unit :=
  match l with
  | [] => ret tt
  | x :: l' => run body x ;; foreach l' body
  end.

(** ** WAL and file primitives *)

(** Modelled from the spec: [XLogInsert] (xloginsert.c is not part of the
    sources).  The manager "only emits records": the record is appended to
    the log; record number [i] (from 0) starts at LSN [1 + i] and ends at
    [2 + i], so that no record has the invalid LSN 0.  [ProcLastRecPtr]
    receives the start of the record and the end is returned. *)
Definition XLogInsert (r : XLogRecord) : M XLogRecPtr :=
  do w <- get ;;
  let start := 1 + Z.of_nat (length (xlog w)) in
  run modify (with_xlog (xlog w ++ [r]) start) ;;
  run emit (EvXLogInsert r (start + 1)) ;;
  ret (start + 1).

(** Modelled from the spec: [XLogFlush] (xlog.c is not part of the sources),
    the synchronous flush of the log up to the given position. *)
Definition XLogFlush (upto : XLogRecPtr) : M unit :=
  run modify (fun w => with_xlog_flushed (Z.max (xlog_flushed w) upto) w) ;;
  emit (EvXLogFlush upto).

(** The record that ends at [end_lsn], if it has been inserted. *)
Definition record_ending_at (w : World) (end_lsn : XLogRecPtr) : option XLogRecord :=
  if 2 <=? end_lsn then xlog w !! Z.to_nat (end_lsn - 2) else None.

(** [RemoveFdwXactFile]: [unlink] of the file named after the key.  The
    directory of the model records which files exist, so the one failure of
    [unlink] it knows is ENOENT, for a file that is not there; the test
    [errno != ENOENT || giveWarning] then reports a WARNING exactly when
    [giveWarning] is set.  The function never raises, so the entry handling
    that follows always runs. *)
Definition warn_could_not_remove_file : ErrorData :=
  mkErrorData ERRCODE_UNDEFINED_FILE
    "could not remove foreign transaction state file" None.

Definition RemoveFdwXactFile (k : FdwXactKey) (giveWarning : bool) : M unit :=
  do w <- get ;;
  run emit (EvUnlink k) ;;
  if bool_decide (k ∈ fdw_xact_files w)
  then modify (fun w =>
         with_fdw_xact_files
           (List.filter (fun k' => negb (bool_decide (k' = k))) (fdw_xact_files w)) w)
  else if giveWarning then ereport WARNING warn_could_not_remove_file
  else ret tt.

(** ** The FXact table *)

(** [FdwXactShmemInit], postmaster branch: every struct is put on the free
    list, struct [cnt] in front of the structs before it. *)
Fixpoint init_free_list (cnt : nat) : list FdwXact :=
  match cnt with
  | O => []
  | S n => n :: init_free_list n
  end.

Definition FdwXactShmemInit : M unit :=
  modify (fun w =>
    with_FdwXactCtl (fun _ =>
      mkFdwXactCtlData
        (replicate (Z.to_nat (max_prepared_foreign_xacts w)) blank_FdwXactData)
        (init_free_list (Z.to_nat (max_prepared_foreign_xacts w)))
        []) w).

Definition key_matches (d : Oid) (xid : TransactionId) (s u : Oid)
    (x : FdwXactData) : bool :=
  (dbid x =? d) && (local_xid x =? xid) && (serverid x =? s) && (userid x =? u).

(** The assignments that [insert_fdw_xact] makes to the struct it took from
    the free list; [status] and [fxact_next] are left as they are. *)
Definition fill_entry (d : Oid) (xid : TransactionId) (s u um : Oid)
    (id : string) (x : FdwXactData) : FdwXactData :=
  mkFdwXactData (fxact_next x) d xid s u um (status x)
    InvalidXLogRecPtr InvalidXLogRecPtr false InvalidBackendId false false id.

Definition insert_fdw_xact (d : Oid) (xid : TransactionId) (s u um : Oid)
    (id : string) : M FdwXact :=
  do c <- gets FdwXactCtl ;;
  (* Check for duplicated foreign transaction entry *)
  if existsb (fun p => key_matches d xid s u (deref c p)) (fdw_xacts c)
  then raise err_duplicate_entry
  else
    (* Get a next free foreign transaction entry *)
    match freeFdwXacts c with
    | [] => raise err_max_reached
    | fxact :: rest =>
        run modify (with_FdwXactCtl (fun c =>
              mkFdwXactCtlData
                (alter (fill_entry d xid s u um id) fxact (pool c))
                rest
                (fdw_xacts c ++ [fxact]))) ;;
        ret fxact
    end.

(** The search loop of [remove_fdw_xact]: the first index holding the
    pointer, or the length of the array when there is none. *)
Fixpoint search_slot (p : FdwXact) (arr : list FdwXact) : nat :=
  match arr with
  | [] => O
  | q :: arr' => if decide (q = p) then O else S (search_slot p arr')
  end.

Definition reset_entry (x : FdwXactData) : FdwXactData :=
  set_fxact_next None (set_held_by InvalidBackendId (set_status FDW_XACT_INITIAL x)).

Definition remove_fdw_xact (fdw_xact : FdwXact) : M unit :=
  do c <- gets FdwXactCtl ;;
  let cnt := search_slot fdw_xact (fdw_xacts c) in
  if decide (numFdwXacts c <= cnt)%nat
  then raise err_remove_not_found
  else
    let n := (numFdwXacts c - 1)%nat in
    let arr := match fdw_xacts c !! n with
               | Some q => <[cnt := q]> (fdw_xacts c)
               | None => fdw_xacts c
               end in
    (* Remove the entry from active array, put it back into free list,
       reset informations *)
    run modify (with_FdwXactCtl (fun c =>
          mkFdwXactCtlData
            (alter reset_entry fdw_xact (pool c))
            (fdw_xact :: freeFdwXacts c)
            (take n arr))) ;;
    do in_recovery <- gets RecoveryInProgress ;;
    if in_recovery then ret tt
    else
      do c' <- gets FdwXactCtl ;;
      let x := deref c' fdw_xact in
      let record := mk_xl_fdw_xact_remove (local_xid x) (serverid x) (userid x) (dbid x) in
      run modify (with_delayChkpt true) ;;
      do recptr <- XLogInsert (XLOG_FDW_XACT_REMOVE record) ;;
      run XLogFlush recptr ;;
      modify (with_delayChkpt false).

(** [get_fdw_xacts]: invalid arguments are wildcards. *)
Definition fdw_xact_matches (d : Oid) (xid : TransactionId) (s u : Oid)
    (x : FdwXactData) : bool :=
  negb (negb (xid =? InvalidTransactionId) && negb (xid =? local_xid x))
  && negb (OidIsValid d && negb (dbid x =? d))
  && negb (OidIsValid s && negb (s =? serverid x))
  && negb (OidIsValid u && negb (userid x =? u)).

Definition get_fdw_xacts (d : Oid) (xid : TransactionId) (s u : Oid)
    (c : FdwXactCtlData) : list FdwXact :=
  List.filter (fun p => fdw_xact_matches d xid s u (deref c p)) (fdw_xacts c).

Definition get_one_fdw_xact (d : Oid) (xid : TransactionId) (s u : Oid)
    (c : FdwXactCtlData) : option FdwXact :=
  match get_fdw_xacts d xid s u c with
  | [] => None
  | p :: _ => Some p
  end.

Definition fdw_xact_exists (d : Oid) (xid : TransactionId) (s u : Oid)
    (c : FdwXactCtlData) : bool :=
  match get_fdw_xacts d xid s u c with
  | [] => false
  | _ :: _ => true
  end.

(** ** WAL replay *)

Definition redo_entry (start_lsn end_lsn : XLogRecPtr) (x : FdwXactData) : FdwXactData :=
  set_ondisk (XLogRecPtrIsInvalid start_lsn)
    (set_valid false
       (set_inredo true
          (set_insert_end_lsn end_lsn
             (set_insert_start_lsn start_lsn
                (set_status FDW_XACT_PREPARING x))))).

Definition FdwXactRedoAdd (buf : FdwXactOnDiskData)
    (start_lsn end_lsn : XLogRecPtr) : M unit :=
  do fxact <- insert_fdw_xact (od_dbid buf) (od_local_xid buf) (od_serverid buf)
                (od_userid buf) (od_umid buf) (od_fdw_xact_id buf) ;;
  modify (with_FdwXactCtl (update fxact (redo_entry start_lsn end_lsn))).

Definition FdwXactRedoRemove (d : Oid) (xid : TransactionId) (s u : Oid)
    (givewarning : bool) : M unit :=
  do c <- gets FdwXactCtl ;;
  match get_one_fdw_xact d xid s u c with
  | None => ret tt
  | Some fdwxact =>
      let x := deref c fdwxact in
      (* Clean up entry and any files we may have left *)
      run (if ondisk x then RemoveFdwXactFile (key_of x) givewarning else ret tt) ;;
      remove_fdw_xact fdwxact
  end.

(** [fdw_xact_redo]; [ReadRecPtr] and [EndRecPtr] are the positions the
    reader state carries for the record. *)
Definition fdw_xact_redo (rec : XLogRecord) (ReadRecPtr EndRecPtr : XLogRecPtr) : M unit :=
  match rec with
  | XLOG_FDW_XACT_INSERT d => FdwXactRedoAdd d ReadRecPtr EndRecPtr
  | XLOG_FDW_XACT_REMOVE r =>
      FdwXactRedoRemove (xr_dbid r) (xr_xid r) (xr_serverid r) (xr_userid r) false
  | XLOG_FDW_XACT_OTHER _ => raise err_invalid_log_type
  end.



(** ** Resolution *)

Definition create_fdw_xact_state : FdwXactState :=
  mkFdwXactState InvalidOid InvalidOid InvalidOid None NULLp.

(** The first part of [FdwXactResolveForeignTransaction]: determine whether
    to commit or abort the foreign transaction. *)
Definition determine_fate (fdwxact : FdwXact) : M bool :=
  do w <- get ;;
  let x := deref (FdwXactCtl w) fdwxact in
  if decide (status x = FDW_XACT_COMMITTING_PREPARED) then ret true
  else if decide (status x = FDW_XACT_ABORTING_PREPARED) then ret false
  else if TransactionIdDidCommit (env w) (local_xid x) then
    run modify (with_FdwXactCtl (update fdwxact (set_status FDW_XACT_COMMITTING_PREPARED))) ;;
    ret true
  else if TransactionIdDidAbort (env w) (local_xid x) then
    run modify (with_FdwXactCtl (update fdwxact (set_status FDW_XACT_ABORTING_PREPARED))) ;;
    ret false
  else if negb (TransactionIdIsInProgress (env w) (local_xid x)) then ret false
  else raise err_resolve_in_progress.

(** The last part of [FdwXactResolveForeignTransaction], under the lock:
    unlink the file if the entry is on disk, then free the entry. *)
Definition remove_resolved_entry (fdwxact : FdwXact) : M unit :=
  do c <- gets FdwXactCtl ;;
  let x := deref c fdwxact in
  run (if ondisk x then RemoveFdwXactFile (key_of x) true else ret tt) ;;
  remove_fdw_xact fdwxact.

(** [FdwXactResolveForeignTransaction].  The routine is the one of the
    entry's server ([GetForeignServer], [GetForeignDataWrapper],
    [GetFdwRoutine]).  The result is the verdict of the callback and the
    state the callback left. *)
Definition FdwXactResolveForeignTransaction (state : FdwXactState)
    (fdwxact : FdwXact) (elevel : ErrorLevel) : M (bool * FdwXactState) :=
  do is_commit <- determine_fate fdwxact ;;
  do w <- get ;;
  let x := deref (FdwXactCtl w) fdwxact in
  let fdw_routine := GetFdwRoutineByServerId (env w) (serverid x) in
  (* Resolve the foreign transaction *)
  let r := ResolveForeignTransaction fdw_routine state is_commit in
  run emit (EvResolve state is_commit r.1) ;;
  run (if r.1 then ret tt else ereport elevel (err_could_not_resolve is_commit)) ;;
  (* Resolution was a success, remove the entry *)
  run remove_resolved_entry fdwxact ;;
  ret r.

(** ** Built-in functions *)

Definition pg_resolve_fdw_xact (xid : TransactionId) (s u : Oid) : M bool :=
  do w <- get ;;
  if negb (superuser (env w)) then raise err_must_be_superuser_resolve
  else
    match get_one_fdw_xact (MyDatabaseId w) xid s u (FdwXactCtl w) with
    | None => ret false
    | Some fdwxact =>
        let usermapping := GetUserMapping (env w) u s in
        let state := mkFdwXactState s u (um_umid usermapping) None NULLp in
        do r <- FdwXactResolveForeignTransaction state fdwxact LOG ;;
        ret r.1
    end.

Definition pg_remove_fdw_xact (xid : TransactionId) (s u : Oid) : M unit :=
  do w <- get ;;
  if negb (superuser (env w)) then raise err_must_be_superuser_remove
  else
    match get_one_fdw_xact (MyDatabaseId w) xid s u (FdwXactCtl w) with
    | None => raise err_entry_not_found
    | Some fdwxact => remove_fdw_xact fdwxact
    end.

(** [pg_prepared_fdw_xacts] *)

Record Row := mkRow {
  r_dbid : Oid;
  r_transaction : TransactionId;
  r_serverid : Oid;
  r_userid : Oid;
  r_status : string;
  r_identifier : string
}.

(** [get_all_fdw_xacts]: copies of all the structs in the active array. *)
Definition get_all_fdw_xacts (c : FdwXactCtlData) : list FdwXactData :=
  map (deref c)
    (get_fdw_xacts InvalidOid InvalidTransactionId InvalidOid InvalidOid c).

Record WorkingStatus := mkWorkingStatus {
  ws_fdw_xacts : list FdwXactData;
  num_xacts : nat;
  cur_xact : nat
}.

Definition xact_status_text (s : FdwXactStatus) : string :=
  match s with
  | FDW_XACT_PREPARING => "prepared"
  | FDW_XACT_COMMITTING_PREPARED => "committing"
  | FDW_XACT_ABORTING_PREPARED => "aborting"
  | _ => "unknown"
  end.

Definition form_tuple (x : FdwXactData) : Row :=
  mkRow (dbid x) (local_xid x) (serverid x) (userid x)
    (xact_status_text (status x)) (fdw_xact_id x).

(** The [while] loop of one call, over the entries from [cur_xact] on:
    the next row if there is one, and the new [cur_xact]. *)
Fixpoint scan_xacts (rest : list FdwXactData) (cur : nat) : option Row * nat :=
  match rest with
  | [] => (None, cur)
  | x :: rest' =>
      if negb (valid x) then scan_xacts rest' (S cur)
      else (Some (form_tuple x), S cur)
  end.

(** One call after the first-call setup: [SRF_RETURN_NEXT] is [Some],
    [SRF_RETURN_DONE] is [None]. *)
Definition pg_prepared_fdw_xacts_percall (st : WorkingStatus) : option Row * WorkingStatus :=
  let r := scan_xacts (drop (cur_xact st) (take (num_xacts st) (ws_fdw_xacts st)))
             (cur_xact st) in
  (r.1, mkWorkingStatus (ws_fdw_xacts st) (num_xacts st) r.2).

(** The calls the executor makes until the function reports it is done. *)
Fixpoint srf_rows (calls : nat) (st : WorkingStatus) : list Row :=
  match calls with
  | O => []
  | S calls' =>
      match pg_prepared_fdw_xacts_percall st with
      | (Some row, st') => row :: srf_rows calls' st'
      | (None, _) => []
      end
  end.

(** The result set: first-call setup, then calls until done; one call more
    than there are entries is always enough. *)
Definition pg_prepared_fdw_xacts (c : FdwXactCtlData) : list Row :=
  let all := get_all_fdw_xacts c in
  srf_rows (S (length all)) (mkWorkingStatus all (length all) 0).

(** ** Participants *)

Definition set_part_fdw_xact (q : option FdwXact) (p : FdwXactParticipant) : FdwXactParticipant :=
  mkFdwXactParticipant q (part_fdw_xact_id p) (server p) (usermapping p)
    (modified p) (twophase_commit_enabled p) (part_fdw_state p)
    (prepare_foreign_xact p) (commit_foreign_xact p) (rollback_foreign_xact p)
    (get_prepareid p) (is_twophase_commit_enabled p).
Definition set_part_fdw_xact_id (id : option string) (p : FdwXactParticipant) : FdwXactParticipant :=
  mkFdwXactParticipant (fdw_xact p) id (server p) (usermapping p)
    (modified p) (twophase_commit_enabled p) (part_fdw_state p)
    (prepare_foreign_xact p) (commit_foreign_xact p) (rollback_foreign_xact p)
    (get_prepareid p) (is_twophase_commit_enabled p).
Definition set_modified (b : bool) (p : FdwXactParticipant) : FdwXactParticipant :=
  mkFdwXactParticipant (fdw_xact p) (part_fdw_xact_id p) (server p) (usermapping p)
    b (twophase_commit_enabled p) (part_fdw_state p)
    (prepare_foreign_xact p) (commit_foreign_xact p) (rollback_foreign_xact p)
    (get_prepareid p) (is_twophase_commit_enabled p).
Definition set_twophase_commit_enabled (b : bool) (p : FdwXactParticipant) : FdwXactParticipant :=
  mkFdwXactParticipant (fdw_xact p) (part_fdw_xact_id p) (server p) (usermapping p)
    (modified p) b (part_fdw_state p)
    (prepare_foreign_xact p) (commit_foreign_xact p) (rollback_foreign_xact p)
    (get_prepareid p) (is_twophase_commit_enabled p).
Definition set_part_fdw_state (v : voidp) (p : FdwXactParticipant) : FdwXactParticipant :=
  mkFdwXactParticipant (fdw_xact p) (part_fdw_xact_id p) (server p) (usermapping p)
    (modified p) (twophase_commit_enabled p) v
    (prepare_foreign_xact p) (commit_foreign_xact p) (rollback_foreign_xact p)
    (get_prepareid p) (is_twophase_commit_enabled p).

(** Assignment through a pointer to a participant; the pointer is the
    position of the participant in the list. *)
Definition update_part (i : nat) (f : FdwXactParticipant -> FdwXactParticipant) : M unit :=
  modify (with_participants (alter f i)).

Definition same_participant (s u : Oid) (fp : FdwXactParticipant) : bool :=
  (fs_serverid (server fp) =? s) && (um_userid (usermapping fp) =? u).

(** The [foreach] of [register_fdw_xact]: OR the flag into the first
    participant with the same server and user, if there is one. *)
Fixpoint merge_modified (s u : Oid) (m : bool) (l : list FdwXactParticipant)
    : option (list FdwXactParticipant) :=
  match l with
  | [] => None
  | fp :: l' =>
      if same_participant s u fp
      then Some (set_modified (modified fp || m) fp :: l')
      else option_map (cons fp) (merge_modified s u m l')
  end.

Definition register_fdw_xact (s u : Oid) (m : bool) : M unit :=
  do w <- get ;;
  let routine := GetFdwRoutineByServerId (env w) s in
  match IsTwoPhaseCommitEnabled routine with
  | None =>
      modify (with_MyXactFlags (Z.lor (MyXactFlags w) (XACT_FLAGS_FDWNOPREPARE (env w))))
  | Some is_twophase =>
      match merge_modified s u m (FdwXactAtomicCommitParticipants w) with
      | Some l => modify (with_participants (fun _ => l))
      | None =>
          let foreign_server := GetForeignServer (env w) s in
          let user_mapping := GetUserMapping (env w) u s in
          match PrepareForeignTransaction routine with
          | None => raise err_no_prepare_function
          | Some prepare =>
          match CommitForeignTransaction routine with
          | None => raise err_no_commit_function
          | Some commit =>
          match RollbackForeignTransaction routine with
          | None => raise err_no_rollback_function
          | Some rollback =>
              let fdw_part :=
                mkFdwXactParticipant None None foreign_server user_mapping m
                  true (* by default, will be changed at pre-commit phase *)
                  NULLp prepare commit rollback (GetPrepareId routine) is_twophase in
              modify (with_participants (fun l => l ++ [fdw_part]))
          end end end
      end
  end.

(** ** Commit-time orchestration *)

Definition IsAtomicCommitEnabled (w : World) : bool :=
  (0 <? max_prepared_foreign_xacts w) && (0 <? max_foreign_xact_resolvers w).

Definition level_value (l : DistributedAtomicCommitLevel) : Z :=
  match l with
  | DISTRIBUTED_ATOMIC_COMMIT_DISABLED => 0
  | DISTRIBUTED_ATOMIC_COMMIT_PREFER => 1
  | DISTRIBUTED_ATOMIC_COMMIT_REQUIRED => 2
  end.

Definition IsAtomicCommitRequested (w : World) : bool :=
  IsAtomicCommitEnabled w
  && (level_value DISTRIBUTED_ATOMIC_COMMIT_DISABLED
      <? level_value (distributed_atomic_commit w)).

Definition flag_set (flags bit : Z) : bool := negb (Z.land flags bit =? 0).

(** The [foreach] of [FdwXactAtomicCommitRequired]: [todo] cells remain,
    the current one is participant [i]; the result is [nserverswritten]. *)
Fixpoint probe_participants (todo i : nat) (nserverswritten : Z) : M Z :=
  match todo with
  | O => ret nserverswritten
  | S todo' =>
      do w <- get ;;
      match FdwXactAtomicCommitParticipants w !! i with
      | None => ret nserverswritten
      | Some fdw_part =>
          let r := is_twophase_commit_enabled fdw_part (fs_serverid (server fdw_part)) in
          run emit (EvIsTwoPhaseCommitEnabled (fs_serverid (server fdw_part)) r) ;;
          run (if r then update_part i (set_twophase_commit_enabled true)
               else if modified fdw_part then
                 modify (with_MyXactFlags
                           (Z.lor (MyXactFlags w) (XACT_FLAGS_FDWNOPREPARE (env w))))
               else ret tt) ;;
          probe_participants todo' (S i)
            (if modified fdw_part then nserverswritten + 1 else nserverswritten)
      end
  end.

Definition FdwXactAtomicCommitRequired : M bool :=
  do w <- get ;;
  if negb (IsAtomicCommitRequested w) then ret false
  else
    do n <- probe_participants (length (FdwXactAtomicCommitParticipants w)) 0 0 ;;
    do w' <- get ;;
    let n' := if flag_set (MyXactFlags w') (XACT_FLAGS_WROTENONTEMPREL (env w'))
              then n + 1 else n in
    (* Atomic commit is required if we modified data on two or more participants *)
    if n' <=? 1 then ret false
    else
      run modify (with_FdwXactAtomicCommitReady true) ;;
      ret true.

Definition FdwXactCommitForeignTransaction (i : nat) (fdw_part : FdwXactParticipant) : M unit :=
  let state := mkFdwXactState (fs_serverid (server fdw_part))
                 (um_userid (usermapping fdw_part))
                 (um_umid (usermapping fdw_part)) None NULLp in
  run update_part i (set_part_fdw_state state_addr) ;;
  let r := commit_foreign_xact fdw_part state in
  run emit (EvCommit state r.1) ;;
  if r.1 then ret tt else raise err_could_not_commit.

(** Decimal rendering for the [snprintf] of [generate_fdw_xact_identifier];
    [%u] and [%d] read 32 bits of their argument. *)
Definition dec (z : Z) : string := NilZero.string_of_int (Z.to_int z).
Definition fmt_u (z : Z) : string := dec (z mod 2 ^ 32).
Definition fmt_d (z : Z) : string :=
  let m := z mod 2 ^ 32 in dec (if m <? 2 ^ 31 then m else m - 2 ^ 32).

(** [generate_fdw_xact_identifier]: "fx_<random>_<xid>_<serverid>_<userid>",
    cut to the [FDW_XACT_ID_MAX_LEN - 1] characters the buffer holds. *)
Definition generate_fdw_xact_identifier (xid : TransactionId) (s u : Oid) : M string :=
  do w <- get ;;
  let r := random (env w) (random_calls w) in
  run modify (with_random_calls (S (random_calls w))) ;;
  ret (substring 0 (Z.to_nat (FDW_XACT_ID_MAX_LEN - 1))
         ("fx_" +:+ dec (Z.abs r) +:+ "_" +:+ fmt_u xid +:+ "_"
            +:+ fmt_d s +:+ "_" +:+ fmt_d u)).

Definition FdwXactInsertFdwXactEntry (xid : TransactionId) (i : nat)
    (fdw_part : FdwXactParticipant) (id : string) : M FdwXact :=
  do w <- get ;;
  let s := fs_serverid (server fdw_part) in
  let u := um_userid (usermapping fdw_part) in
  let um := um_umid (usermapping fdw_part) in
  (* Enter the foreign transaction in the shared memory structure. *)
  do fxact <- insert_fdw_xact (MyDatabaseId w) xid s u um id ;;
  run modify (with_FdwXactCtl
        (update fxact (fun x => set_held_by (MyBackendId w)
                                  (set_status FDW_XACT_PREPARING x)))) ;;
  run update_part i (set_part_fdw_xact (Some fxact)) ;;
  let fxact_file_data := mkFdwXactOnDiskData (MyDatabaseId w) xid s u um id in
  run modify (with_delayChkpt true) ;;
  (* Add the entry in the xlog and save LSN for checkpointer *)
  do end_lsn <- XLogInsert (XLOG_FDW_XACT_INSERT fxact_file_data) ;;
  run modify (with_FdwXactCtl (update fxact (set_insert_end_lsn end_lsn))) ;;
  run XLogFlush end_lsn ;;
  (* Store record's start location to read that later on CheckPoint *)
  do last <- gets ProcLastRecPtr ;;
  run modify (with_FdwXactCtl (update fxact (set_insert_start_lsn last))) ;;
  (* File is written completely, checkpoint can proceed with syncing *)
  run modify (with_FdwXactCtl (update fxact (set_valid true))) ;;
  run modify (with_delayChkpt false) ;;
  ret fxact.

(** The identifier step of the loop of [FdwXactPrepareForeignTransactions].
    [id[fdwxact_id_len] = 0] cuts the string the callback returned at the
    length it reported. *)
Definition choose_prepare_id (txid : TransactionId) (fdw_part : FdwXactParticipant) : M string :=
  let s := fs_serverid (server fdw_part) in
  let u := um_userid (usermapping fdw_part) in
  match get_prepareid fdw_part with
  | Some callback =>
      let r := callback txid s u in
      match r.1 with
      | None => raise err_id_not_provided
      | Some id =>
          let fdwxact_id_len := r.2 in
          do w <- get ;;
          (* Check length of foreign transaction identifier *)
          if NAMEDATALEN (env w) <? fdwxact_id_len then raise err_id_too_long
          else ret (substring 0 (Z.to_nat fdwxact_id_len) id)
      end
  | None => generate_fdw_xact_identifier txid s u
  end.

(** The body of the loop of [FdwXactPrepareForeignTransactions] for the
    participant at position [i]; [state] is the one state struct the
    function allocates and hands to every callback, and the result is that
    struct as the callback left it. *)
Definition prepare_participant (i : nat) (fdw_part : FdwXactParticipant)
    (txid : TransactionId) (state : FdwXactState) : M FdwXactState :=
  (* Generate an unique identifier *)
  do id <- choose_prepare_id txid fdw_part ;;
  run update_part i (set_part_fdw_xact_id (Some id)) ;;
  (* persist first then prepare *)
  do fdwxact <- FdwXactInsertFdwXactEntry txid i fdw_part id ;;
  do c <- gets FdwXactCtl ;;
  let state1 := mkFdwXactState (fs_serverid (server fdw_part))
                  (um_userid (usermapping fdw_part))
                  (um_umid (usermapping fdw_part))
                  (Some (fdw_xact_id (deref c fdwxact)))
                  (fdw_state state) in
  let r := prepare_foreign_xact fdw_part state1 in
  run emit (EvPrepare state1 r.1) ;;
  if negb r.1 then raise err_could_not_prepare
  else
    (* Keep fdw_state until end of transaction *)
    run update_part i (set_part_fdw_state (fdw_state r.2)) ;;
    (* Preparation is success, update its status; fdw_part->fdw_xact is the
       entry just inserted *)
    run modify (with_FdwXactCtl (update fdwxact (set_status FDW_XACT_PREPARED))) ;;
    run update_part i (set_part_fdw_xact (Some fdwxact)) ;;
    ret r.2.

(** The loop itself: [todo] cells remain, the current one is participant
    [i]. *)
Fixpoint prepare_participants (todo i : nat) (txid : TransactionId)
    (state : FdwXactState) : M unit :=
  match todo with
  | O => ret tt
  | S todo' =>
      do w <- get ;;
      match FdwXactAtomicCommitParticipants w !! i with
      | None => ret tt
      | Some fdw_part =>
          do state' <- prepare_participant i fdw_part txid state ;;
          prepare_participants todo' (S i) txid state'
      end
  end.

Definition FdwXactPrepareForeignTransactions : M unit :=
  do w <- get ;;
  match FdwXactAtomicCommitParticipants w with
  | [] => ret tt
  | _ :: _ =>
      (* Parameter check *)
      if max_prepared_foreign_xacts w =? 0 then raise err_prepared_disabled_max
      else if max_foreign_xact_resolvers w =? 0 then raise err_prepared_disabled_resolvers
      else
        prepare_participants (length (FdwXactAtomicCommitParticipants w)) 0
          (TopTransactionId w) create_fdw_xact_state
  end.

Definition can_commit (need_atomic_commit : bool)
    (level : DistributedAtomicCommitLevel) (fdw_part : FdwXactParticipant) : bool :=
  if negb need_atomic_commit || negb (modified fdw_part) then true
  else if bool_decide (level = DISTRIBUTED_ATOMIC_COMMIT_PREFER)
          && negb (twophase_commit_enabled fdw_part) then true
  else false.

(** The commit loop of [PreCommit_FdwXacts]: [todo] cells remain, the
    current one is at position [i] of the list as it is now. *)
Fixpoint commit_participants (need_atomic_commit : bool) (todo i : nat) : M unit :=
  match todo with
  | O => ret tt
  | S todo' =>
      do w <- get ;;
      match FdwXactAtomicCommitParticipants w !! i with
      | None => ret tt
      | Some fdw_part =>
          if can_commit need_atomic_commit (distributed_atomic_commit w) fdw_part
          then
            (* Commit the foreign transaction *)
            run FdwXactCommitForeignTransaction i fdw_part ;;
            (* Delete it from the participant list *)
            run modify (with_participants (delete i)) ;;
            commit_participants need_atomic_commit todo' i
          else commit_participants need_atomic_commit todo' (S i)
      end
  end.

Definition PreCommit_FdwXacts : M unit :=
  do w <- get ;;
  match FdwXactAtomicCommitParticipants w with
  | [] => ret tt
  | _ :: _ =>
      do need_atomic_commit <- FdwXactAtomicCommitRequired ;;
      do w1 <- get ;;
      if need_atomic_commit
         && bool_decide (distributed_atomic_commit w1 = DISTRIBUTED_ATOMIC_COMMIT_REQUIRED)
         && flag_set (MyXactFlags w1) (XACT_FLAGS_FDWNOPREPARE (env w1))
      then raise err_no_atomic_commit_support
      else
        run commit_participants need_atomic_commit
              (length (FdwXactAtomicCommitParticipants w1)) 0 ;;
        do w2 <- get ;;
        match FdwXactAtomicCommitParticipants w2 with
        | [fdw_part] =>
            if negb (flag_set (MyXactFlags w2) (XACT_FLAGS_WROTENONTEMPREL (env w2)))
            then FdwXactCommitForeignTransaction 0 fdw_part
            else FdwXactPrepareForeignTransactions
        | _ => FdwXactPrepareForeignTransactions
        end
  end.

(** ** The other operations on the table *)

(** The body of the loops of [FdwXactResolveDistributedTransaction] and
    [FdwXactResolveAllDanglingTransactions] for one entry: the state is
    filled from the entry and the resolution runs at level ERROR. *)
Definition resolver_resolve_entry (fdwxact : FdwXact) : M unit :=
  do c <- gets FdwXactCtl ;;
  let x := deref c fdwxact in
  let state := mkFdwXactState (serverid x) (userid x) (umid x)
                 (Some (fdw_xact_id x)) NULLp in
  run FdwXactResolveForeignTransaction state fdwxact ERROR ;;
  ret tt.

(** [ForgetAllFdwXactParticipants] (the update of the oldest unresolved
    xmin in the proc array is outside the manager's state). *)
Definition forget_entry (me : BackendId) (fdw_part : FdwXactParticipant) : M unit :=
  match fdw_xact fdw_part with
  | None => ret tt
  | Some p =>
      do c <- gets FdwXactCtl ;;
      if held_by (deref c p) =? me
      then modify (with_FdwXactCtl (update p (set_held_by InvalidBackendId)))
      else ret tt
  end.

Definition ForgetAllFdwXactParticipants : M unit :=
  do w <- get ;;
  run foreach (FdwXactAtomicCommitParticipants w) (forget_entry (MyBackendId w)) ;;
  modify (with_participants (fun _ => [])).

(** [AtPrepare_FdwXacts] *)
Definition err_cannot_prepare_disabled : ErrorData :=
  mkErrorData ERRCODE_FEATURE_NOT_SUPPORTED
    "cannot PREPARE a distributed transaction when distributed_atomic_commit is 'disabled'"
    None.
Definition err_cannot_prepare_servers : ErrorData :=
  mkErrorData ERRCODE_T_R_INTEGRITY_CONSTRAINT_VIOLATION
    "can not prepare the transaction because some foreign servers involved in transaction can not prepare the transaction"
    None.

Definition AtPrepare_FdwXacts : M unit :=
  do w <- get ;;
  match FdwXactAtomicCommitParticipants w with
  | [] => ret tt
  | _ :: _ =>
      if negb (IsAtomicCommitRequested w) then raise err_cannot_prepare_disabled
      else
        do required <- FdwXactAtomicCommitRequired ;;
        do w1 <- get ;;
        if required && flag_set (MyXactFlags w1) (XACT_FLAGS_FDWNOPREPARE (env w1))
        then raise err_cannot_prepare_servers
        else FdwXactPrepareForeignTransactions
  end.

(** [CheckPointFdwXacts].  [XlogReadFdwXactData] fails unless an INSERT
    record starts at the given position; writing the file is taken to
    succeed. *)
Definition err_xlog_read : ErrorData :=
  mkErrorData ERRCODE_INTERNAL_ERROR
    "expected foreign transaction state data is not present in xlog" None.

Definition XlogReadFdwXactData (lsn : XLogRecPtr) : M FdwXactOnDiskData :=
  do w <- get ;;
  match (if 1 <=? lsn then xlog w !! Z.to_nat (lsn - 1) else None) with
  | Some (XLOG_FDW_XACT_INSERT d) => ret d
  | _ => raise err_xlog_read
  end.

Definition RecreateFdwXactFile (k : FdwXactKey) : M unit :=
  modify (fun w => with_fdw_xact_files (k :: fdw_xact_files w) w).

Definition checkpoint_entry (redo_horizon : XLogRecPtr) (p : FdwXact) : M unit :=
  do c <- gets FdwXactCtl ;;
  let fxact := deref c p in
  if (valid fxact || inredo fxact) && negb (ondisk fxact)
     && (insert_end_lsn fxact <=? redo_horizon)
  then
    run XlogReadFdwXactData (insert_start_lsn fxact) ;;
    run RecreateFdwXactFile (key_of fxact) ;;
    modify (with_FdwXactCtl
      (update p (fun x => set_insert_end_lsn InvalidXLogRecPtr
                            (set_insert_start_lsn InvalidXLogRecPtr
                               (set_ondisk true x)))))
  else ret tt.

Definition CheckPointFdwXacts (redo_horizon : XLogRecPtr) : M unit :=
  do w <- get ;;
  if max_prepared_foreign_xacts w <=? 0 then ret tt
  else if (numFdwXacts (FdwXactCtl w) <=? 0)%nat then ret tt
  else foreach (fdw_xacts (FdwXactCtl w)) (checkpoint_entry redo_horizon).

(** ** Operations as data

    The entry points of the manager, to speak about every operation and
    about sequences of them.  [OpBackend] is a change of the running
    backend: the backend-local variables take other values, shared memory,
    the log and the files stay. *)
Record Backend := mkBackend {
  b_MyBackendId : BackendId;
  b_MyDatabaseId : Oid;
  b_TopTransactionId : TransactionId;
  b_MyXactFlags : Z;
  b_participants : list FdwXactParticipant;
  b_ready : bool
}.

Definition switch_backend (b : Backend) (w : World) : World :=
  mkWorld (env w) (FdwXactCtl w) (xlog w) (xlog_flushed w) (ProcLastRecPtr w)
    (RecoveryInProgress w) (fdw_xact_files w) (b_MyBackendId b) (b_MyDatabaseId b)
    (b_TopTransactionId b) (b_MyXactFlags b) (delayChkpt w)
    (b_participants b) (b_ready b)
    (random_calls w) (max_prepared_foreign_xacts w)
    (max_foreign_xact_resolvers w) (distributed_atomic_commit w) (trace w).

Inductive Operation :=
| OpBackend (b : Backend)
| OpRegister (s u : Oid) (m : bool)
| OpPreCommit
| OpAtPrepare
| OpForget
| OpInsertEntry (d : Oid) (xid : TransactionId) (s u um : Oid) (id : string)
| OpRemoveEntry (p : FdwXact)
| OpResolve (p : FdwXact)
| OpPgResolve (xid : TransactionId) (s u : Oid)
| OpPgRemove (xid : TransactionId) (s u : Oid)
| OpCheckPoint (redo_horizon : XLogRecPtr)
| OpRedo (rec : XLogRecord) (ReadRecPtr EndRecPtr : XLogRecPtr).

Definition run_op (op : Operation) : M unit :=
  match op with
  | OpBackend b => modify (switch_backend b)
  | OpRegister s u m => register_fdw_xact s u m
  | OpPreCommit => PreCommit_FdwXacts
  | OpAtPrepare => AtPrepare_FdwXacts
  | OpForget => ForgetAllFdwXactParticipants
  | OpInsertEntry d xid s u um id => run insert_fdw_xact d xid s u um id ;; ret tt
  | OpRemoveEntry p => remove_fdw_xact p
  | OpResolve p => resolver_resolve_entry p
  | OpPgResolve xid s u => run pg_resolve_fdw_xact xid s u ;; ret tt
  | OpPgRemove xid s u => pg_remove_fdw_xact xid s u
  | OpCheckPoint h => CheckPointFdwXacts h
  | OpRedo rec s e => fdw_xact_redo rec s e
  end.

(** The state after a sequence of operations; an operation that raises an
    error leaves the state it reached, and the next one runs from there. *)
Fixpoint run_ops (ops : list Operation) (w : World) : World :=
  match ops with
  | [] => w
  | op :: ops' => run_ops ops' (run_op op w).2
  end.

(** ** A concrete installation

    Used for the concrete statements below.  Server 2 answers that it cannot
    do two-phase commit; the resolve callback of server 3 fails; every other
    callback succeeds and no FDW supplies prepare identifiers.  Transaction
    700 is committed, 701 aborted, 702 in progress.  The header constants
    have their stock values. *)
Definition ex_callback : xact_callback := fun st => (true, st).

Definition ex_routine (s : Oid) : FdwRoutine :=
  mkFdwRoutine (Some ex_callback) (Some ex_callback) (Some ex_callback)
    (fun st _ => (negb (s =? 3), st))
    (Some (fun _ => negb (s =? 2)))
    None.

Definition ex_env : Env :=
  mkEnv 64 4 8
    (fun xid => xid =? 700) (fun xid => xid =? 701) (fun xid => xid =? 702)
    ex_routine
    (fun s => mkForeignServer s "srv")
    (fun u s => mkUserMapping (1000 + s) u)
    true
    (fun _ => 42).

(** A backend of database 5 running transaction 700, before shared memory
    is initialised. *)
Definition ex_boot (max : Z) (level : DistributedAtomicCommitLevel) : World :=
  mkWorld ex_env (mkFdwXactCtlData [] [] []) [] 0 0 false [] 1 5 700 0 false
    [] false 0 max 1 level [].

Definition ex_world (max : Z) (level : DistributedAtomicCommitLevel) : World :=
  (FdwXactShmemInit (ex_boot max level)).2.


(** Two modified participants on the two-phase capable servers 1 and 4
    under 'prefer', after pre-commit: both are prepared. *)
Definition ex_two_prepared : World :=
  run_ops [OpRegister 1 10 true; OpRegister 4 10 true; OpPreCommit]
    (ex_world 8 DISTRIBUTED_ATOMIC_COMMIT_PREFER).

(** The same with server 3, whose resolve callback fails, in place of 4. *)
Definition ex_unresolvable : World :=
  run_ops [OpRegister 1 10 true; OpRegister 3 10 true; OpPreCommit]
    (ex_world 8 DISTRIBUTED_ATOMIC_COMMIT_PREFER).

(** A participant on server 1 whose FDW supplies a prepare identifier of
    100 characters. *)
Definition ex_long_id : string :=
  "xxxxxxxxxxxxxxxxxxxxxxxxxxxxxxxxxxxxxxxxxxxxxxxxxxxxxxxxxxxxxxxxxxxxxxxxxxxxxxxxxxxxxxxxxxxxxxxxxxxx".

Definition ex_part_long_id : FdwXactParticipant :=
  mkFdwXactParticipant None None (mkForeignServer 1 "srv") (mkUserMapping 1001 10)
    true true NULLp ex_callback ex_callback ex_callback
    (Some (fun _ _ _ => (Some ex_long_id, 100)))
    (fun _ => true).






(** The participants that are marked modified; those of them whose FDW
    answers that the server cannot do two-phase commit. *)
Definition modified_count (l : list FdwXactParticipant) : Z :=
  Z.of_nat (length (List.filter modified l)).

Definition noncapable_modified (fp : FdwXactParticipant) : bool :=
  modified fp && negb (is_twophase_commit_enabled fp (fs_serverid (server fp))).

(** The number of nodes the transaction wrote on, as
    [FdwXactAtomicCommitRequired] counts them: the modified participants,
    and the local node if it wrote a non-temporary relation. *)
Definition nodes_written (w : World) : Z :=
  modified_count (FdwXactAtomicCommitParticipants w)
  + (if flag_set (MyXactFlags w) (XACT_FLAGS_WROTENONTEMPREL (env w)) then 1 else 0).

Definition is_probe (ev : Event) : Prop :=
  match ev with
  | EvIsTwoPhaseCommitEnabled _ _ => True
  | _ => False
  end.

(** A single modified participant on server 2, which cannot do two-phase
    commit, under 'required'; the local transaction wrote nothing. *)
Definition ex_required_single : World :=
  run_ops [OpRegister 2 10 true] (ex_world 8 DISTRIBUTED_ATOMIC_COMMIT_REQUIRED).

(** Two modified participants under 'required', on server 2 and on the
    two-phase capable server 1. *)
Definition ex_required_two : World :=
  run_ops [OpRegister 2 10 true; OpRegister 1 10 true]
    (ex_world 8 DISTRIBUTED_ATOMIC_COMMIT_REQUIRED).

(** Two modified participants under 'prefer', on the capable server 1 and
    on server 2; the local transaction wrote nothing. *)
Definition ex_prefer_mixed : World :=
  run_ops [OpRegister 1 10 true; OpRegister 2 10 true]
    (ex_world 8 DISTRIBUTED_ATOMIC_COMMIT_PREFER).


Definition same_shape (p p' : FdwXactParticipant) : Prop :=
  modified p' = modified p
  /\ is_twophase_commit_enabled p' = is_twophase_commit_enabled p
  /\ server p' = server p.

(** What the capability probe may change: flags are only added, the
    participants keep their shape, the trace receives probe events; the
    table, the log and the files are untouched. *)
Definition probe_frame (w w' : World) : Prop :=
  env w' = env w
  /\ FdwXactCtl w' = FdwXactCtl w
  /\ xlog w' = xlog w
  /\ xlog_flushed w' = xlog_flushed w
  /\ fdw_xact_files w' = fdw_xact_files w
  /\ distributed_atomic_commit w' = distributed_atomic_commit w
  /\ max_prepared_foreign_xacts w' = max_prepared_foreign_xacts w
  /\ max_foreign_xact_resolvers w' = max_foreign_xact_resolvers w
  /\ Forall2 same_shape (FdwXactAtomicCommitParticipants w)
       (FdwXactAtomicCommitParticipants w')
  /\ (forall b, flag_set (MyXactFlags w) b = true -> flag_set (MyXactFlags w') b = true)
  /\ exists evs, trace w' = trace w ++ evs /\ Forall is_probe evs.

(** What the steps before the insertion of an entry leave alone. *)
Definition quiet_frame (w w' : World) : Prop :=
  trace w' = trace w
  /\ FdwXactCtl w' = FdwXactCtl w
  /\ xlog w' = xlog w
  /\ xlog_flushed w' = xlog_flushed w
  /\ MyDatabaseId w' = MyDatabaseId w
  /\ MyBackendId w' = MyBackendId w
  /\ env w' = env w.

(** One turn of the prepare loop, as the trace shows it: the INSERT record
    of the participant is inserted and flushed, then the prepare callback
    is called. *)
Definition prepare_block (db : Oid) (xid : TransactionId) (evs : list Event) : Prop :=
  exists d lsn st r,
    evs = [EvXLogInsert (XLOG_FDW_XACT_INSERT d) lsn; EvXLogFlush lsn; EvPrepare st r]
    /\ od_key d = (db, xid, st_serverid st, st_userid st)
    /\ fdwxact_id st = Some (od_fdw_xact_id d).

(** A sequence of such turns. *)
Inductive prepare_blocks (db : Oid) (xid : TransactionId) : list Event -> Prop :=
| prepare_blocks_nil : prepare_blocks db xid []
| prepare_blocks_cons b evs :
    prepare_block db xid b -> prepare_blocks db xid evs ->
    prepare_blocks db xid (b ++ evs).

(** Every call of the prepare callback comes directly after the insertion
    and the flush of the INSERT record of its participant. *)
Definition persisted_before_prepare (db : Oid) (xid : TransactionId)
    (evs : list Event) : Prop :=
  forall pre st r post,
    evs = pre ++ EvPrepare st r :: post ->
    exists pre' d lsn,
      pre = pre' ++ [EvXLogInsert (XLOG_FDW_XACT_INSERT d) lsn; EvXLogFlush lsn]
      /\ od_key d = (db, xid, st_serverid st, st_userid st)
      /\ fdwxact_id st = Some (od_fdw_xact_id d).

(** The trace only grows: [t] is a prefix of the trace of the state. *)
Definition trace_from (t : list Event) (w : World) : Prop := t `prefix_of` trace w.

(** ** Invariants of the table *)

Definition active_entries (c : FdwXactCtlData) : list FdwXactData :=
  map (deref c) (fdw_xacts c).

(** No two entries of the active array have the same key. *)
Definition keys_unique (c : FdwXactCtlData) : Prop :=
  NoDup (map key_of (active_entries c)).

(** The active array and the free list together hold every struct of the
    pool exactly once. *)
Definition slots_partition (c : FdwXactCtlData) : Prop :=
  fdw_xacts c ++ freeFdwXacts c ≡ₚ seq 0 (length (pool c)).

Definition table_ok (c : FdwXactCtlData) : Prop :=
  slots_partition c /\ keys_unique c.

(** An entry with the given key is in the active array. *)
Definition has_entry (c : FdwXactCtlData) (k : FdwXactKey) : Prop :=
  exists p, p ∈ fdw_xacts c /\ key_of (deref c p) = k.

(** The INSERT record of key [k] is in the log, below the flush pointer. *)
Definition insert_flushed (w : World) (k : FdwXactKey) : Prop :=
  exists i d, xlog w !! i = Some (XLOG_FDW_XACT_INSERT d)
              /\ od_key d = k
              /\ 2 + Z.of_nat i <= xlog_flushed w.

(** The struct [p] is in the active array, holds key [k], is marked valid,
    and its INSERT record is flushed. *)
Definition durable_at (w : World) (p : FdwXact) (k : FdwXactKey) : Prop :=
  p ∈ fdw_xacts (FdwXactCtl w)
  /\ key_of (deref (FdwXactCtl w) p) = k
  /\ valid (deref (FdwXactCtl w) p) = true
  /\ insert_flushed w k.

(** The entry an operation may take out of the table, if any. *)
Definition removal_target (op : Operation) (w : World) : option FdwXact :=
  match op with
  | OpRemoveEntry p => Some p
  | OpResolve p => Some p
  | OpPgResolve xid s u | OpPgRemove xid s u =>
      get_one_fdw_xact (MyDatabaseId w) xid s u (FdwXactCtl w)
  | OpRedo (XLOG_FDW_XACT_REMOVE r) _ _ =>
      get_one_fdw_xact (xr_dbid r) (xr_xid r) (xr_serverid r) (xr_userid r) (FdwXactCtl w)
  | _ => None
  end.

(** The table invariant over a pool of [N] structs. *)
Definition tab_inv (N : nat) (w : World) : Prop :=
  table_ok (FdwXactCtl w) /\ length (pool (FdwXactCtl w)) = N.

Definition keeps (N : nat) (p : FdwXact) (k : FdwXactKey) (w : World) : Prop :=
  tab_inv N w /\ durable_at w p k.

(** A computation preserves a property of the state, whatever its outcome. *)
Definition preserves {A} (I : World -> Prop) (m : M A) : Prop :=
  forall w, I w -> I (m w).2.

(** ** Further functions of fdwxact.c *)

(** [check_distributed_atomic_commit], the check hook of the parameter
    [distributed_atomic_commit]; [newval] is the proposed level. *)
Definition check_distributed_atomic_commit (newval : DistributedAtomicCommitLevel)
    (w : World) : bool :=
  if (level_value DISTRIBUTED_ATOMIC_COMMIT_DISABLED <? level_value newval)
     && ((max_prepared_foreign_xacts w =? 0) || (max_foreign_xact_resolvers w =? 0))
  then false
  else true.

Definition FdwXactIsAtomicCommitReady : M bool := gets FdwXactAtomicCommitReady.

(** [AtEOXact_FdwXacts].  The two messages are WARNINGs given without an
    error code; their arguments (the server name, the count) are not kept.
    The one state struct is handed to every rollback callback: the server,
    the user, the mapping and the FDW state are stored into it for each
    participant, the identifier is left as it is.  The request to the
    launcher ([fdwxact_maybe_launch_resolver]) that follows the second
    warning is outside the manager's state. *)
Definition warn_could_not_abort : ErrorData :=
  mkErrorData ERRCODE_INTERNAL_ERROR "could not abort transaction on server" None.
Definition warn_left_in_doubt : ErrorData :=
  mkErrorData ERRCODE_INTERNAL_ERROR
    "might have left foreign transactions in in-doubt status" None.

(** Does the participant own an entry that is already prepared?  Such a
    participant is skipped by the rollback loop. *)
Definition entry_is_prepared (c : FdwXactCtlData) (fdw_part : FdwXactParticipant) : bool :=
  match fdw_xact fdw_part with
  | Some p => bool_decide (status (deref c p) = FDW_XACT_PREPARED)
  | None => false
  end.

(** The [foreach] of the abort case; the result is [left_fdwxacts]. *)
Fixpoint rollback_participants (l : list FdwXactParticipant) (state : FdwXactState)
    (left_fdwxacts : Z) : M Z :=
  match l with
  | [] => ret left_fdwxacts
  | fdw_part :: l' =>
      do c <- gets FdwXactCtl ;;
      let left' := match fdw_xact fdw_part with
                   | Some _ => left_fdwxacts + 1
                   | None => left_fdwxacts
                   end in
      if entry_is_prepared c fdw_part then rollback_participants l' state left'
      else
        let state1 := mkFdwXactState (fs_serverid (server fdw_part))
                        (um_userid (usermapping fdw_part))
                        (um_umid (usermapping fdw_part))
                        (fdwxact_id state)
                        (part_fdw_state fdw_part) in
        (* Rollback all current foreign transaction *)
        let r := rollback_foreign_xact fdw_part state1 in
        run (if r.1 then ret tt else ereport WARNING warn_could_not_abort) ;;
        rollback_participants l' r.2 left'
  end.

Definition AtEOXact_FdwXacts (is_commit : bool) : M unit :=
  run (if is_commit then ret tt
       else
         do l <- gets FdwXactAtomicCommitParticipants ;;
         do left_fdwxacts <- rollback_participants l create_fdw_xact_state 0 ;;
         (* If we left some FdwXact entries, ask the resolver process *)
         if 0 <? left_fdwxacts then ereport WARNING warn_left_in_doubt else ret tt) ;;
  run ForgetAllFdwXactParticipants ;;
  modify (with_FdwXactAtomicCommitReady false).

Definition TransactionIdIsValid (xid : TransactionId) : bool :=
  negb (xid =? InvalidTransactionId).

Section Collaborators.

(** Two functions of other modules (transam.c, twophase.c) that are not
    among the sources. *)
Variable TransactionIdPrecedes : TransactionId -> TransactionId -> bool.
Variable TwoPhaseExists : TransactionId -> bool.

(** One turn of the loop of [FdwXactComputeRequiredXmin]. *)
Definition xmin_step (c : FdwXactCtlData) (agg_xmin : TransactionId) (p : FdwXact)
    : TransactionId :=
  let fdwxact := deref c p in
  if negb (valid fdwxact) then agg_xmin
  else if negb (TransactionIdIsValid agg_xmin)
          || TransactionIdPrecedes (local_xid fdwxact) agg_xmin
       then local_xid fdwxact
       else agg_xmin.

(** [FdwXactComputeRequiredXmin]: the value it hands to
    [ProcArraySetFdwXactUnresolvedXmin]. *)
Definition FdwXactComputeRequiredXmin (c : FdwXactCtlData) : TransactionId :=
  fold_left (xmin_step c) (fdw_xacts c) InvalidTransactionId.

(** The test of the first loop of [FdwXactResolveAllDanglingTransactions]. *)
Definition is_dangling (d : Oid) (fxact : FdwXactData) : bool :=
  (dbid fxact =? d) && (held_by fxact =? InvalidBackendId)
  && negb (TwoPhaseExists (local_xid fxact)).

Definition msg_resolved_dangling : ErrorData :=
  mkErrorData ERRCODE_INTERNAL_ERROR "resolved dangling foreign xacts" None.

(** [FdwXactResolveAllDanglingTransactions]: the entries are collected
    first, then resolved one by one at level ERROR. *)
Definition FdwXactResolveAllDanglingTransactions (d : Oid) : M unit :=
  do c <- gets FdwXactCtl ;;
  match List.filter (fun p => is_dangling d (deref c p)) (fdw_xacts c) with
  | [] => ret tt
  | dangling_fdwxacts =>
      run foreach dangling_fdwxacts resolver_resolve_entry ;;
      ereport DEBUG2 msg_resolved_dangling
  end.

End Collaborators.

(** ** Names of the state files

    [FdwXactFilePath] prints the four parts of the key with [%08X]; the
    directory scans of [PrescanFdwXacts] and [restoreFdwXactData] recognise
    a name by its length and its characters and read it back with
    [sscanf] and [%08x]. *)
Definition FDW_XACTS_DIR : string := "pg_fdw_xact".
Definition FDW_XACT_FILE_NAME_LEN : nat := 8 + 1 + 8 + 1 + 8 + 1 + 8.

Definition hex_char (d : Z) : ascii :=
  nth (Z.to_nat d) (list_ascii_of_string "0123456789ABCDEF") "0"%char.

(** [%08X] of an unsigned 32-bit argument: it has at most eight hexadecimal
    digits, so the zero-padded field has exactly eight characters. *)
Definition fmt_08X (z : Z) : string :=
  let m := z mod 2 ^ 32 in
  string_of_list_ascii
    (map (fun k => hex_char (m / 16 ^ k mod 16)) [7; 6; 5; 4; 3; 2; 1; 0]).

Definition FdwXactFileName (k : FdwXactKey) : string :=
  fmt_08X k.1.1.1 +:+ "_" +:+ fmt_08X k.1.1.2 +:+ "_" +:+ fmt_08X k.1.2
    +:+ "_" +:+ fmt_08X k.2.

Definition FdwXactFilePath (k : FdwXactKey) : string :=
  FDW_XACTS_DIR +:+ "/" +:+ FdwXactFileName k.

Fixpoint strspn (s accept : string) : nat :=
  match s with
  | EmptyString => O
  | String a s' =>
      if existsb (Ascii.eqb a) (list_ascii_of_string accept)
      then S (strspn s' accept)
      else O
  end.

(** The test both directory scans apply to [clde->d_name]. *)
Definition is_fdw_xact_file_name (d_name : string) : bool :=
  (String.length d_name =? FDW_XACT_FILE_NAME_LEN)%nat
  && (strspn d_name "0123456789ABCDEF_" =? FDW_XACT_FILE_NAME_LEN)%nat.

(** The value of a hexadecimal digit, in either case. *)
Definition hex_value (a : ascii) : option Z :=
  let n := Z.of_N (N_of_ascii a) in
  if (48 <=? n) && (n <=? 57) then Some (n - 48)
  else if (65 <=? n) && (n <=? 70) then Some (n - 55)
  else if (97 <=? n) && (n <=? 102) then Some (n - 87)
  else None.

Fixpoint scan_hex_digits (width : nat) (s : string) (acc : Z) : Z * string :=
  match width, s with
  | S width', String a s' =>
      match hex_value a with
      | Some v => scan_hex_digits width' s' (acc * 16 + v)
      | None => (acc, s)
      end
  | _, _ => (acc, s)
  end.

(** One [%08x] conversion on a name that passed the test above (no white
    space, sign or prefix to skip): up to eight digits, at least one. *)
Definition scan_08x (s : string) : option (Z * string) :=
  match s with
  | String a _ =>
      match hex_value a with
      | Some _ => Some (scan_hex_digits 8 s 0)
      | None => None
      end
  | EmptyString => None
  end.

Definition scan_underscore (s : string) : option string :=
  match s with
  | String a s' => if Ascii.eqb a "_" then Some s' else None
  | EmptyString => None
  end.

(** [sscanf(d_name, "%08x_%08x_%08x_%08x", &dbid, &local_xid, &serverid,
    &userid)]; [None] when fewer than four conversions succeed, in which
    case the C variables are not all assigned. *)
Definition scan_fdw_xact_file_name (d_name : string) : option FdwXactKey :=
  match scan_08x d_name with
  | None => None
  | Some (d, s1) =>
  match scan_underscore s1 with
  | None => None
  | Some s2 =>
  match scan_08x s2 with
  | None => None
  | Some (xid, s3) =>
  match scan_underscore s3 with
  | None => None
  | Some s4 =>
  match scan_08x s4 with
  | None => None
  | Some (s, s5) =>
  match scan_underscore s5 with
  | None => None
  | Some s6 =>
  match scan_08x s6 with
  | None => None
  | Some (u, _) => Some (d, xid, s, u)
  end end end end end end end.

(** ** Notions used in the statements about the further functions *)

(** The pair by which [register_fdw_xact] recognises a participant. *)
Definition part_key (fp : FdwXactParticipant) : Oid * Oid :=
  (fs_serverid (server fp), um_userid (usermapping fp)).

(** The catalogue lookups answer for the server and the user asked for. *)
Definition catalog_consistent (e : Env) : Prop :=
  (forall s, fs_serverid (GetForeignServer e s) = s)
  /\ (forall u s, um_userid (GetUserMapping e u s) = u).

(** Is the struct referenced by a participant of the list? *)
Definition referenced (l : list FdwXactParticipant) (p : FdwXact) : bool :=
  existsb (fun fp => bool_decide (fdw_xact fp = Some p)) l.

(** What [ForgetAllFdwXactParticipants] does to struct [p]: the hold of
    backend [me] is given up if a participant of [l] references it. *)
Definition release (me : BackendId) (l : list FdwXactParticipant) (p : FdwXact)
    (x : FdwXactData) : FdwXactData :=
  if referenced l p && (held_by x =? me) then set_held_by InvalidBackendId x else x.

Definition is_warning (ev : Event) : Prop :=
  exists e, ev = EvReport WARNING e.

(** The transaction ids of the valid entries of the active array. *)
Definition valid_xids (c : FdwXactCtlData) : list TransactionId :=
  map local_xid (List.filter valid (active_entries c)).

(** The state with another array of structs. *)
Definition with_pool (pl : list FdwXactData) (w : World) : World :=
  with_FdwXactCtl (fun c => mkFdwXactCtlData pl (freeFdwXacts c) (fdw_xacts c)) w.

(** Does the participant own an entry of the table? *)
Definition has_fdw_xact (fp : FdwXactParticipant) : bool :=
  match fdw_xact fp with
  | Some _ => true
  | None => false
  end.

(** The test of the loop of [CheckPointFdwXacts]: the entry gets a state
    file at a checkpoint with the given redo horizon. *)
Definition needs_file (redo_horizon : XLogRecPtr) (fxact : FdwXactData) : bool :=
  (valid fxact || inredo fxact) && negb (ondisk fxact)
  && (insert_end_lsn fxact <=? redo_horizon).

(** The entry after its state file has been written. *)
Definition spilled (fxact : FdwXactData) : FdwXactData :=
  set_insert_end_lsn InvalidXLogRecPtr
    (set_insert_start_lsn InvalidXLogRecPtr (set_ondisk true fxact)).

(** An INSERT record starts at the position the entry remembers. *)
Definition insert_readable (w : World) (fxact : FdwXactData) : Prop :=
  1 <= insert_start_lsn fxact
  /\ exists d, xlog w !! Z.to_nat (insert_start_lsn fxact - 1)
               = Some (XLOG_FDW_XACT_INSERT d).

(** The two prepared entries after a checkpoint that wrote their files. *)
Definition ex_checkpointed : World :=
  run_ops [OpCheckPoint 100] ex_two_prepared.

(** ** Notions used in the statement about repeated replay *)







(** ** Notions used in the statement about the life of an entry *)

(** The entry points of the manager.  [insert_fdw_xact] and
    [remove_fdw_xact] are static functions, reached only through them. *)
Definition entry_point (op : Operation) : Prop :=
  match op with
  | OpInsertEntry _ _ _ _ _ _ | OpRemoveEntry _ => False
  | _ => True
  end.

(** The operation reports a successful resolution: a call of a resolve
    callback with verdict true is among the events it adds. *)
Definition resolved_in (op : Operation) (w : World) : Prop :=
  exists evs st c,
    trace (run_op op w).2 = trace w ++ evs /\ EvResolve st c true ∈ evs.

(** [pg_resolve_fdw_xact] is called on entry [p] and returns false: the
    resolve callback failed. *)
Definition failed_pg_resolve (op : Operation) (w : World) (p : FdwXact) : Prop :=
  match op with
  | OpPgResolve xid s u =>
      get_one_fdw_xact (MyDatabaseId w) xid s u (FdwXactCtl w) = Some p
      /\ (pg_resolve_fdw_xact xid s u w).1 = Done false
  | _ => False
  end.

(** The three ways in which an entry point takes entry [p] out of the
    table: a resolution of it that reports success, [pg_remove_fdw_xact] on
    it, and the replay of a REMOVE record for its key. *)
Definition allowed_removal (op : Operation) (w : World) (p : FdwXact) : Prop :=
  match op with
  | OpResolve q => q = p /\ resolved_in op w
  | OpPgResolve xid s u =>
      get_one_fdw_xact (MyDatabaseId w) xid s u (FdwXactCtl w) = Some p
      /\ resolved_in op w
  | OpPgRemove xid s u =>
      get_one_fdw_xact (MyDatabaseId w) xid s u (FdwXactCtl w) = Some p
  | OpRedo (XLOG_FDW_XACT_REMOVE r) _ _ =>
      get_one_fdw_xact (xr_dbid r) (xr_xid r) (xr_serverid r) (xr_userid r)
        (FdwXactCtl w) = Some p
  | _ => False
  end.

(** * Properties *)

(** ** The table operations *)

Lemma take_insert_last {A} (arr : list A) cnt q :
  (cnt < length arr)%nat ->
  arr !! (length arr - 1)%nat = Some q ->
  take (length arr - 1) (<[cnt := q]> arr) ≡ₚ delete cnt arr.
Proof.
  intros Hcnt Hq.
  destruct (decide (cnt = length arr - 1)%nat) as [->|Hne].
  - rewrite take_insert_ge by lia.
    rewrite delete_take_drop. rewrite drop_ge by lia. by rewrite app_nil_r.
  - rewrite take_insert_lt by lia.
    rewrite insert_take_drop by (rewrite length_take; lia).
    rewrite delete_take_drop.
    rewrite take_take, Nat.min_l by lia.
    apply Permutation_app_head.
    assert (Harr : arr = take (length arr - 1) arr ++ [q]).
    { rewrite <- (take_S_r _ _ _ Hq).
      replace (S (length arr - 1)) with (length arr) by lia.
      by rewrite take_ge. }
    rewrite Harr at 3.
    rewrite drop_app_le by (rewrite length_take; lia).
    apply Permutation_cons_append.
Qed.

Lemma search_slot_spec p arr :
  (search_slot p arr < length arr)%nat -> arr !! search_slot p arr = Some p.
Proof.
  induction arr as [|q arr IH]; simpl; [lia|].
  destruct (decide (q = p)) as [->|]; [done|].
  intros H. apply IH. lia.
Qed.

Lemma search_slot_found p arr :
  p ∈ arr -> (search_slot p arr < length arr)%nat.
Proof.
  induction arr as [|q arr IH]; simpl.
  - by intros ?%elem_of_nil.
  - destruct (decide (q = p)) as [->|Hne]; [lia|].
    intros [?|?]%elem_of_cons; [congruence|]. apply IH in H. lia.
Qed.

Lemma search_slot_le p arr : (search_slot p arr <= length arr)%nat.
Proof. induction arr as [|q arr IH]; simpl; [lia|]. destruct (decide _); lia. Qed.

Lemma deref_update_ne c p q f : p <> q -> deref (update p f c) q = deref c q.
Proof. intros. unfold deref, update. simpl. by rewrite list_lookup_alter_ne. Qed.

Lemma deref_update_eq c p f :
  (p < length (pool c))%nat -> deref (update p f c) p = f (deref c p).
Proof.
  intros H. unfold deref, update. simpl. rewrite list_lookup_alter_eq.
  destruct (lookup_lt_is_Some_2 (pool c) p H) as [x Hx]. rewrite Hx. reflexivity.
Qed.

Lemma key_matches_spec d xid s u x :
  key_matches d xid s u x = true <-> key_of x = (d, xid, s, u).
Proof.
  unfold key_matches, key_of. rewrite !andb_true_iff, !Z.eqb_eq.
  split; [intros [[[-> ->] ->] ->]; done | intros [= -> -> -> ->]; done].
Qed.

Lemma slots_partition_lt c p :
  slots_partition c -> p ∈ fdw_xacts c ++ freeFdwXacts c -> (p < length (pool c))%nat.
Proof.
  unfold slots_partition. intros Hp Hin. rewrite Hp in Hin.
  apply elem_of_seq in Hin. lia.
Qed.

Lemma slots_partition_NoDup c :
  slots_partition c -> NoDup (fdw_xacts c ++ freeFdwXacts c).
Proof. unfold slots_partition. intros ->. apply NoDup_seq. Qed.

Lemma insert_fdw_xact_run d xid s u um id w :
  insert_fdw_xact d xid s u um id w =
  (let c := FdwXactCtl w in
   if existsb (fun p => key_matches d xid s u (deref c p)) (fdw_xacts c)
   then (Raised err_duplicate_entry, w)
   else match freeFdwXacts c with
        | [] => (Raised err_max_reached, w)
        | fxact :: rest =>
            (Done fxact,
             with_FdwXactCtl (fun c =>
               mkFdwXactCtlData
                 (alter (fill_entry d xid s u um id) fxact (pool c))
                 rest (fdw_xacts c ++ [fxact])) w)
        end).
Proof.
  unfold insert_fdw_xact, bind, gets, raise, modify, ret. simpl.
  destruct (existsb _ _); [done|]. by destruct (freeFdwXacts _).
Qed.

Lemma insert_fdw_xact_raised d xid s u um id w e w' :
  insert_fdw_xact d xid s u um id w = (Raised e, w') -> w' = w.
Proof.
  rewrite insert_fdw_xact_run. simpl.
  destruct (existsb _ _); [congruence|].
  destruct (freeFdwXacts _); congruence.
Qed.

Lemma insert_fdw_xact_table_ok d xid s u um id w fx w' :
  table_ok (FdwXactCtl w) ->
  insert_fdw_xact d xid s u um id w = (Done fx, w') ->
  table_ok (FdwXactCtl w')
  /\ length (pool (FdwXactCtl w')) = length (pool (FdwXactCtl w))
  /\ fdw_xacts (FdwXactCtl w') = fdw_xacts (FdwXactCtl w) ++ [fx]
  /\ (fx ∉ fdw_xacts (FdwXactCtl w))
  /\ key_of (deref (FdwXactCtl w') fx) = (d, xid, s, u)
  /\ (forall p, p <> fx -> deref (FdwXactCtl w') p = deref (FdwXactCtl w) p).
Proof.
  intros [Hpart Huniq]. rewrite insert_fdw_xact_run. simpl.
  destruct (existsb _ _) eqn:Hdup; [congruence|].
  destruct (freeFdwXacts (FdwXactCtl w)) as [|fx0 rest] eqn:Hfree; [congruence|].
  intros [= <- <-]. simpl.
  set (c := FdwXactCtl w) in *.
  assert (Hnd := slots_partition_NoDup _ Hpart).
  assert (Hlt : (fx0 < length (pool c))%nat).
  { apply slots_partition_lt; [done|]. rewrite Hfree. set_solver. }
  rewrite Hfree in Hnd.
  assert (Hnotin : fx0 ∉ fdw_xacts c).
  { apply NoDup_app in Hnd as (_ & Hd & _). intros Hin. apply (Hd _ Hin). set_solver. }
  assert (Hother : forall p, p <> fx0 ->
     deref (mkFdwXactCtlData (alter (fill_entry d xid s u um id) fx0 (pool c)) rest
              (fdw_xacts c ++ [fx0])) p = deref c p).
  { intros p Hp. unfold deref. simpl. by rewrite list_lookup_alter_ne. }
  assert (Hkey : key_of (deref (mkFdwXactCtlData (alter (fill_entry d xid s u um id) fx0 (pool c)) rest
              (fdw_xacts c ++ [fx0])) fx0) = (d, xid, s, u)).
  { unfold deref. simpl. rewrite list_lookup_alter_eq.
    destruct (lookup_lt_is_Some_2 (pool c) fx0 Hlt) as [x Hx]. rewrite Hx. reflexivity. }
  split_and!; try done.
  - split.
    + unfold slots_partition in *. simpl. rewrite length_alter.
      rewrite <- Hpart, Hfree. rewrite <- app_assoc. done.
    + unfold keys_unique, active_entries in *. simpl.
      rewrite !map_app. simpl. rewrite Hkey.
      assert (Hmap : map key_of (map (deref (mkFdwXactCtlData (alter (fill_entry d xid s u um id) fx0 (pool c)) rest
              (fdw_xacts c ++ [fx0]))) (fdw_xacts c)) = map key_of (map (deref c) (fdw_xacts c))).
      { rewrite !map_map. apply map_ext_in. intros p Hp.
        rewrite Hother; [done|]. intros ->. apply Hnotin. by apply list_elem_of_In. }
      rewrite Hmap. apply NoDup_app. split_and!; [done| |apply NoDup_singleton].
      intros k Hk ->%list_elem_of_singleton.
      rewrite map_map in Hk. apply list_elem_of_In, in_map_iff in Hk as (p & Hpk & Hp).
      assert (existsb (fun p => key_matches d xid s u (deref c p)) (fdw_xacts c) = true); [|congruence].
      apply existsb_exists. exists p. split; [done|]. by apply key_matches_spec.
  - simpl. by rewrite length_alter.
Qed.

Lemma key_of_reset_entry x : key_of (reset_entry x) = key_of x.
Proof. done. Qed.

Lemma deref_alter_reset_key c p fl arr :
  let x' := deref (mkFdwXactCtlData (alter reset_entry p (pool c)) fl arr) p in
  mk_xl_fdw_xact_remove (local_xid x') (serverid x') (userid x') (dbid x')
  = (let x := deref c p in
     mk_xl_fdw_xact_remove (local_xid x) (serverid x) (userid x) (dbid x)).
Proof.
  unfold deref. simpl.
  destruct (decide (p < length (pool c))%nat).
  - rewrite list_lookup_alter_eq.
    destruct (lookup_lt_is_Some_2 (pool c) p) as [x Hx]; [done|]. by rewrite Hx.
  - rewrite !lookup_ge_None_2; [done|lia|rewrite length_alter; lia].
Qed.

Lemma remove_fdw_xact_absent p w :
  p ∉ fdw_xacts (FdwXactCtl w) ->
  remove_fdw_xact p w = (Raised err_remove_not_found, w).
Proof.
  intros Hnot. unfold remove_fdw_xact, bind, gets, raise. simpl.
  destruct (decide _) as [|Hlt]; [done|].
  exfalso. apply Hnot. eapply list_elem_of_lookup_2, search_slot_spec.
  unfold numFdwXacts in Hlt. lia.
Qed.

Lemma remove_fdw_xact_present p w :
  p ∈ fdw_xacts (FdwXactCtl w) ->
  exists w', remove_fdw_xact p w = (Done tt, w')
    /\ pool (FdwXactCtl w') = alter reset_entry p (pool (FdwXactCtl w))
    /\ freeFdwXacts (FdwXactCtl w') = p :: freeFdwXacts (FdwXactCtl w)
    /\ fdw_xacts (FdwXactCtl w') ≡ₚ delete (search_slot p (fdw_xacts (FdwXactCtl w))) (fdw_xacts (FdwXactCtl w))
    /\ fdw_xacts (FdwXactCtl w') ⊆ fdw_xacts (FdwXactCtl w)
    /\ env w' = env w
    /\ fdw_xact_files w' = fdw_xact_files w
    /\ FdwXactAtomicCommitParticipants w' = FdwXactAtomicCommitParticipants w
    /\ RecoveryInProgress w' = RecoveryInProgress w
    /\ (if RecoveryInProgress w then xlog w' = xlog w /\ trace w' = trace w /\ xlog_flushed w' = xlog_flushed w
        else exists lsn,
          xlog w' = xlog w ++ [XLOG_FDW_XACT_REMOVE
                     (let x := deref (FdwXactCtl w) p in
                      mk_xl_fdw_xact_remove (local_xid x) (serverid x) (userid x) (dbid x))]
          /\ trace w' = trace w ++ [EvXLogInsert (XLOG_FDW_XACT_REMOVE
                     (let x := deref (FdwXactCtl w) p in
                      mk_xl_fdw_xact_remove (local_xid x) (serverid x) (userid x) (dbid x))) lsn;
                      EvXLogFlush lsn]
          /\ xlog_flushed w' = Z.max (xlog_flushed w) lsn).
Proof.
  intros Hin. pose proof (search_slot_found _ _ Hin) as Hlt.
  pose proof (search_slot_spec _ _ Hlt) as Hcnt.
  unfold remove_fdw_xact, bind, gets, raise. simpl.
  destruct (decide _) as [Hge|_]; [unfold numFdwXacts in Hge; lia|].
  unfold numFdwXacts.
  destruct (lookup_lt_is_Some_2 (fdw_xacts (FdwXactCtl w)) (length (fdw_xacts (FdwXactCtl w)) - 1)) as [q Hq]; [lia|].
  rewrite Hq.
  pose proof (take_insert_last _ _ _ Hlt Hq) as Hperm.
  assert (Hsub : take (length (fdw_xacts (FdwXactCtl w)) - 1)
            (<[search_slot p (fdw_xacts (FdwXactCtl w)) := q]> (fdw_xacts (FdwXactCtl w)))
            ⊆ fdw_xacts (FdwXactCtl w)).
  { intros y Hy. rewrite Hperm in Hy. by eapply list_elem_of_delete_inv. }
  destruct (RecoveryInProgress w) eqn:Hrec.
  - eexists. split; [reflexivity|]. simpl. rewrite Hrec. split_and!; done.
  - eexists. split; [reflexivity|]. simpl. rewrite Hrec. split_and!; try done.
    eexists. rewrite <- !app_assoc. simpl.
    rewrite !deref_alter_reset_key. split_and!; reflexivity.
Qed.

Lemma remove_fdw_xact_raised p w e w' :
  remove_fdw_xact p w = (Raised e, w') -> w' = w /\ e = err_remove_not_found.
Proof.
  destruct (decide (p ∈ fdw_xacts (FdwXactCtl w))) as [Hin|Hnot].
  - destruct (remove_fdw_xact_present _ _ Hin) as (w'' & -> & _). congruence.
  - rewrite remove_fdw_xact_absent by done. by intros [= <- <-].
Qed.

Lemma remove_fdw_xact_table_ok p w w' :
  table_ok (FdwXactCtl w) ->
  remove_fdw_xact p w = (Done tt, w') ->
  table_ok (FdwXactCtl w')
  /\ length (pool (FdwXactCtl w')) = length (pool (FdwXactCtl w))
  /\ p ∈ fdw_xacts (FdwXactCtl w)
  /\ (p ∉ fdw_xacts (FdwXactCtl w'))
  /\ (forall q, q ∈ fdw_xacts (FdwXactCtl w) -> q <> p -> q ∈ fdw_xacts (FdwXactCtl w'))
  /\ (forall q, q <> p -> deref (FdwXactCtl w') q = deref (FdwXactCtl w) q).
Proof.
  intros [Hpart Huniq] Hrun.
  destruct (decide (p ∈ fdw_xacts (FdwXactCtl w))) as [Hin|Hnot];
    [|rewrite remove_fdw_xact_absent in Hrun by done; congruence].
  destruct (remove_fdw_xact_present _ _ Hin)
    as (w'' & Hrun' & Hpool & Hfree & Hperm & Hsub & _).
  rewrite Hrun in Hrun'. injection Hrun' as <-.
  pose proof (search_slot_found _ _ Hin) as Hlt.
  pose proof (search_slot_spec _ _ Hlt) as Hcnt.
  pose proof (delete_Permutation _ _ _ Hcnt) as Hdel.
  assert (Hnd : NoDup (fdw_xacts (FdwXactCtl w))).
  { apply slots_partition_NoDup in Hpart. by apply NoDup_app in Hpart as (? & _). }
  assert (Hnotin : p ∉ fdw_xacts (FdwXactCtl w')).
  { rewrite Hperm. rewrite Hdel in Hnd. by apply NoDup_cons in Hnd as [? _]. }
  assert (Hother : forall q, q <> p -> deref (FdwXactCtl w') q = deref (FdwXactCtl w) q).
  { intros q Hq. unfold deref. rewrite Hpool. by rewrite list_lookup_alter_ne. }
  split_and!; try done.
  - split.
    + unfold slots_partition in *. rewrite Hpool, Hfree, length_alter, <- Hpart.
      rewrite Hperm. rewrite <- Permutation_middle. rewrite app_comm_cons.
      apply Permutation_app_tail. by symmetry.
    + unfold keys_unique, active_entries in *.
      assert (Hmap : map key_of (map (deref (FdwXactCtl w')) (fdw_xacts (FdwXactCtl w')))
               = map (fun q => key_of (deref (FdwXactCtl w) q)) (fdw_xacts (FdwXactCtl w'))).
      { rewrite map_map. apply map_ext_in. intros q Hq. rewrite Hother; [done|].
        intros ->. by apply Hnotin, list_elem_of_In. }
      rewrite Hmap, Hperm. rewrite map_map in Huniq. rewrite Hdel in Huniq.
      simpl in Huniq. by apply NoDup_cons in Huniq as [_ ?].
  - by rewrite Hpool, length_alter.
  - intros q Hq Hne. rewrite Hperm. rewrite Hdel in Hq.
    apply elem_of_cons in Hq as [->|]; done.
Qed.

Lemma init_free_list_perm n : init_free_list n ≡ₚ seq 0 n.
Proof.
  induction n as [|n IH]; [done|].
  simpl init_free_list. rewrite seq_S. simpl.
  rewrite IH. apply Permutation_cons_append.
Qed.

Lemma FdwXactShmemInit_table_ok w :
  let c := FdwXactCtl (FdwXactShmemInit w).2 in
  table_ok c
  /\ numFdwXacts c = O
  /\ length (pool c) = Z.to_nat (max_prepared_foreign_xacts w).
Proof.
  unfold table_ok, slots_partition, keys_unique, FdwXactShmemInit. simpl.
  rewrite length_replicate. split_and!; try done.
  - apply init_free_list_perm.
  - apply NoDup_nil_2.
Qed.

Lemma slots_partition_count c :
  slots_partition c ->
  (numFdwXacts c + length (freeFdwXacts c) = length (pool c))%nat.
Proof.
  unfold slots_partition, numFdwXacts. intros H.
  apply Permutation_length in H. rewrite length_app, length_seq in H. done.
Qed.

(** ** Invariant preservation, compositionally *)

Section Preserves.
Context (I : World -> Prop).

Lemma preserves_ret {A} (a : A) : preserves I (ret a).
Proof. by intros w. Qed.

Lemma preserves_raise {A} e : preserves I (@raise A e).
Proof. by intros w. Qed.

Lemma preserves_get : preserves I get.
Proof. by intros w. Qed.

Lemma preserves_gets {A} (f : World -> A) : preserves I (gets f).
Proof. by intros w. Qed.

Lemma preserves_modify f : (forall w, I w -> I (f w)) -> preserves I (modify f).
Proof. intros H w Hw. by apply H. Qed.

Lemma preserves_bind {A B} (m : M A) (k : A -> M B) :
  preserves I m -> (forall a, preserves I (k a)) -> preserves I (bind m k).
Proof.
  intros Hm Hk w Hw. unfold bind. specialize (Hm w Hw).
  destruct (m w) as [[a|e] w1]; simpl in *; [by apply Hk | done].
Qed.

(** The continuation only has to preserve the invariant from the states
    the first computation can reach with its result. *)
Lemma preserves_bind_get {B} (k : World -> M B) :
  (forall w, I w -> I (k w w).2) -> preserves I (bind get k).
Proof. intros Hk w Hw. unfold bind, get. by apply Hk. Qed.

Lemma preserves_bind_gets {A B} (f : World -> A) (k : A -> M B) :
  (forall w, I w -> I (k (f w) w).2) -> preserves I (bind (gets f) k).
Proof. intros Hk w Hw. unfold bind, gets. by apply Hk. Qed.

Lemma preserves_foreach {A} (l : list A) (body : A -> M unit) :
  (forall x, preserves I (body x)) -> preserves I (foreach l body).
Proof.
  intros Hb. induction l as [|x l IH]; simpl; [apply preserves_ret|].
  apply preserves_bind; [apply Hb | intros _; apply IH].
Qed.
End Preserves.

Lemma table_ok_update p f c :
  (forall x, key_of (f x) = key_of x) ->
  table_ok c -> table_ok (update p f c).
Proof.
  intros Hf [Hpart Huniq]. split.
  - unfold slots_partition, update in *. simpl. by rewrite length_alter.
  - unfold keys_unique, active_entries, update in *. simpl.
    rewrite map_map in *.
    erewrite map_ext; [exact Huniq|]. intros q. simpl. unfold deref. simpl.
    destruct (decide (p = q)) as [->|Hne].
    + rewrite list_lookup_alter_eq. destruct (pool c !! q); simpl; [apply Hf | done].
    + by rewrite list_lookup_alter_ne.
Qed.

Lemma tab_inv_update N p f w :
  (forall x, key_of (f x) = key_of x) ->
  tab_inv N w -> tab_inv N (with_FdwXactCtl (update p f) w).
Proof.
  intros Hf [Hok Hlen]. split; simpl.
  - by apply table_ok_update.
  - unfold update. simpl. by rewrite length_alter.
Qed.

(** A tactic for the routine cases.  It splits binds, cases on tests,
    unfolds the function at the head, uses the lemmas of the hint database
    [pres] (and the induction hypothesis of a loop), and hands every state
    change to [close]. *)
Create HintDb pres discriminated.

Ltac head_of t := lazymatch t with ?f _ => head_of f | _ => t end.

Ltac pres_step close :=
  match goal with
  | |- preserves _ _ => solve [auto with pres]
  | |- preserves _ (bind get _) => apply preserves_bind_get; intros ? ?
  | |- preserves _ (bind (gets _) _) => apply preserves_bind_gets; intros ? ?
  | |- preserves _ (bind _ _) => apply preserves_bind; [|intros ?]
  | |- preserves _ (ret _) => apply preserves_ret
  | |- preserves _ (raise _) => apply preserves_raise
  | |- preserves _ get => apply preserves_get
  | |- preserves _ (gets _) => apply preserves_gets
  | |- preserves _ (ereport ?l _) => destruct l; unfold ereport
  | |- preserves _ (foreach _ _) => apply preserves_foreach; intros ?
  | |- preserves _ (modify _) => apply preserves_modify; intros ? ?; close
  | |- preserves _ (fun w => (Raised _, w)) => intros ? ?; assumption
  | |- preserves _ (if ?b then _ else _) => destruct b
  | |- preserves _ (match ?x with _ => _ end) => destruct x
  | |- preserves _ (let _ := _ in _) => cbv zeta
  | |- ?I (?m ?w).2 =>
      let H := fresh in assert (H : preserves I m); [|apply H; assumption]
  | |- preserves _ ?m => let h := head_of m in progress unfold h
  end.

Ltac close_tab :=
  first [ assumption
        | apply tab_inv_update; [intros ?; reflexivity | assumption] ].
Ltac pres := repeat pres_step close_tab.

Lemma preserves_insert_fdw_xact N d xid s u um id :
  preserves (tab_inv N) (insert_fdw_xact d xid s u um id).
Proof.
  intros w [Hok Hlen].
  destruct (insert_fdw_xact d xid s u um id w) as [[fx|e] w'] eqn:Hrun; simpl.
  - destruct (insert_fdw_xact_table_ok _ _ _ _ _ _ _ _ _ Hok Hrun) as (? & Hl & _).
    split; [done | congruence].
  - apply insert_fdw_xact_raised in Hrun as ->. by split.
Qed.

Lemma preserves_remove_fdw_xact N p :
  preserves (tab_inv N) (remove_fdw_xact p).
Proof.
  intros w [Hok Hlen].
  destruct (remove_fdw_xact p w) as [[[]|e] w'] eqn:Hrun; simpl.
  - destruct (remove_fdw_xact_table_ok _ _ _ Hok Hrun) as (? & Hl & _).
    split; [done | congruence].
  - apply remove_fdw_xact_raised in Hrun as [-> _]. by split.
Qed.

#[local] Hint Resolve preserves_insert_fdw_xact preserves_remove_fdw_xact : pres.

Lemma preserves_probe_participants N todo : forall i n,
  preserves (tab_inv N) (probe_participants todo i n).
Proof. induction todo as [|todo IH]; intros i n; simpl; pres. Qed.

Lemma preserves_commit_participants N need todo : forall i,
  preserves (tab_inv N) (commit_participants need todo i).
Proof. induction todo as [|todo IH]; intros i; simpl; pres. Qed.

Lemma preserves_prepare_participants N txid todo : forall i st,
  preserves (tab_inv N) (prepare_participants todo i txid st).
Proof. induction todo as [|todo IH]; intros i st; simpl; pres. Qed.

#[local] Hint Resolve preserves_probe_participants preserves_commit_participants
  preserves_prepare_participants : pres.

Lemma preserves_run_op N op : preserves (tab_inv N) (run_op op).
Proof. destruct op; simpl; pres. Qed.

Lemma tab_inv_run_ops N ops : forall w, tab_inv N w -> tab_inv N (run_ops ops w).
Proof.
  induction ops as [|op ops IH]; intros w Hw; simpl; [done|].
  apply IH. by apply preserves_run_op.
Qed.

Lemma tab_inv_reachable w0 ops :
  tab_inv (Z.to_nat (max_prepared_foreign_xacts w0))
    (run_ops ops (FdwXactShmemInit w0).2).
Proof.
  apply tab_inv_run_ops.
  destruct (FdwXactShmemInit_table_ok w0) as (? & _ & ?). by split.
Qed.

Lemma keys_unique_distinct c i j p q :
  keys_unique c ->
  fdw_xacts c !! i = Some p -> fdw_xacts c !! j = Some q -> i <> j ->
  key_of (deref c p) <> key_of (deref c q).
Proof.
  unfold keys_unique, active_entries. rewrite map_map. intros Hnd Hi Hj Hne Heq.
  apply Hne. eapply NoDup_lookup; [exact Hnd| |].
  - change (map ?f ?l) with (f <$> l). rewrite list_lookup_fmap, Hi. reflexivity.
  - change (map ?f ?l) with (f <$> l). rewrite list_lookup_fmap, Hj. simpl. by rewrite Heq.
Qed.

Lemma insert_fdw_xact_duplicate d xid s u um id w :
  has_entry (FdwXactCtl w) (d, xid, s, u) ->
  insert_fdw_xact d xid s u um id w = (Raised err_duplicate_entry, w).
Proof.
  intros (p & Hp & Hk). rewrite insert_fdw_xact_run. simpl.
  assert (H : existsb (fun p => key_matches d xid s u (deref (FdwXactCtl w) p))
            (fdw_xacts (FdwXactCtl w)) = true); [|by rewrite H].
  apply existsb_exists. exists p. split; [by apply list_elem_of_In|].
  by apply key_matches_spec.
Qed.

Lemma insert_fdw_xact_full d xid s u um id w :
  ~ has_entry (FdwXactCtl w) (d, xid, s, u) ->
  freeFdwXacts (FdwXactCtl w) = [] ->
  insert_fdw_xact d xid s u um id w = (Raised err_max_reached, w).
Proof.
  intros Hno Hfree. rewrite insert_fdw_xact_run. simpl.
  destruct (existsb _ _) eqn:Hex; [|by rewrite Hfree].
  exfalso. apply Hno. apply existsb_exists in Hex as (p & Hp & Hk).
  exists p. split; [by apply list_elem_of_In | by apply key_matches_spec].
Qed.

(** C6. The table never holds two entries with the same key: in every state
    reached from the initialised shared memory by any sequence of
    operations the keys of the active array are pairwise distinct, and
    [insert_fdw_xact] of a key that is present raises the duplicate-entry
    error and leaves the state as it was. *)
Theorem C6_key_uniqueness (w0 : World) (ops : list Operation)
    (d : Oid) (xid : TransactionId) (s u um : Oid) (id : string) :
  let w := run_ops ops (FdwXactShmemInit w0).2 in
  keys_unique (FdwXactCtl w)
  /\ (forall i j p q,
        fdw_xacts (FdwXactCtl w) !! i = Some p ->
        fdw_xacts (FdwXactCtl w) !! j = Some q ->
        i <> j ->
        key_of (deref (FdwXactCtl w) p) <> key_of (deref (FdwXactCtl w) q))
  /\ (forall op, keys_unique (FdwXactCtl (run_op op w).2))
  /\ (has_entry (FdwXactCtl w) (d, xid, s, u) ->
      insert_fdw_xact d xid s u um id w = (Raised err_duplicate_entry, w)).
Proof.
  intros w. pose proof (tab_inv_reachable w0 ops) as [[_ Hu] _]. fold w in Hu.
  split_and!.
  - exact Hu.
  - intros i j p q. by apply keys_unique_distinct.
  - intros op. pose proof (tab_inv_reachable w0 (ops ++ [op])) as [[_ Hu'] _].
    revert Hu'. unfold w. clear. generalize (FdwXactShmemInit w0).2.
    induction ops as [|o ops IH]; intros w1; simpl; [done | apply IH].
  - apply insert_fdw_xact_duplicate.
Qed.

Lemma C6_witness :
  insert_fdw_xact 5 700 1 10 1001 "b"
    (run_ops [OpInsertEntry 5 700 1 10 1001 "a"]
       (FdwXactShmemInit (ex_boot 2 DISTRIBUTED_ATOMIC_COMMIT_PREFER)).2)
  = (Raised err_duplicate_entry,
     run_ops [OpInsertEntry 5 700 1 10 1001 "a"]
       (FdwXactShmemInit (ex_boot 2 DISTRIBUTED_ATOMIC_COMMIT_PREFER)).2).
Proof.
  apply (C6_key_uniqueness (ex_boot 2 DISTRIBUTED_ATOMIC_COMMIT_PREFER)
           [OpInsertEntry 5 700 1 10 1001 "a"] 5 700 1 10 1001 "b").
  exists 1%nat. split; [apply list_elem_of_In; vm_compute; auto | reflexivity].
Defined.

(** C7, as stated, fails: with every slot in use, an insert whose key is
    already in the table raises the duplicate-entry error, which carries no
    hint; the check for duplicates comes before the look at the free list. *)
Lemma C7_counterexample :
  let w := run_ops [OpInsertEntry 5 700 1 10 1001 "a"]
             (ex_world 1 DISTRIBUTED_ATOMIC_COMMIT_PREFER) in
  Z.of_nat (numFdwXacts (FdwXactCtl w)) = max_prepared_foreign_xacts w
  /\ freeFdwXacts (FdwXactCtl w) = []
  /\ (insert_fdw_xact 5 700 1 10 1001 "a" w).1 = Raised err_duplicate_entry
  /\ hint err_duplicate_entry = None
  /\ (insert_fdw_xact 5 700 1 10 1001 "a" w).1 <> Raised err_max_reached.
Proof. vm_compute. split_and!; try reflexivity. discriminate. Qed.

(** C7, amended.  In every state reached from the initialised shared memory
    the active array and the free list partition the pool, whose size is the
    configured capacity, so the number of active entries never exceeds it;
    every operation keeps this.  When all slots are in use, an insert fails
    and leaves the state as it was: with the error that hints at
    [max_prepared_foreign_transactions] when the key is new, with the
    duplicate-entry error when the key is already present. *)
Theorem C7_capacity_bound (w0 : World) (ops : list Operation)
    (d : Oid) (xid : TransactionId) (s u um : Oid) (id : string) :
  let capacity := Z.to_nat (max_prepared_foreign_xacts w0) in
  let w := run_ops ops (FdwXactShmemInit w0).2 in
  (numFdwXacts (FdwXactCtl w) <= capacity)%nat
  /\ slots_partition (FdwXactCtl w)
  /\ length (pool (FdwXactCtl w)) = capacity
  /\ (forall op, (numFdwXacts (FdwXactCtl (run_op op w).2) <= capacity)%nat
                 /\ slots_partition (FdwXactCtl (run_op op w).2))
  /\ (numFdwXacts (FdwXactCtl w) = capacity ->
      freeFdwXacts (FdwXactCtl w) = []
      /\ (~ has_entry (FdwXactCtl w) (d, xid, s, u) ->
          insert_fdw_xact d xid s u um id w = (Raised err_max_reached, w)
          /\ sqlerrcode err_max_reached = ERRCODE_OUT_OF_MEMORY
          /\ hint err_max_reached
             = Some "Increase max_prepared_foreign_transactions"%string)
      /\ (has_entry (FdwXactCtl w) (d, xid, s, u) ->
          insert_fdw_xact d xid s u um id w = (Raised err_duplicate_entry, w))).
Proof.
  intros capacity w.
  pose proof (tab_inv_reachable w0 ops) as [[Hpart _] Hlen]. fold w capacity in Hpart, Hlen.
  pose proof (slots_partition_count _ Hpart) as Hcount.
  split_and!; try done; [lia| |].
  - intros op.
    destruct (preserves_run_op capacity op w) as [[Hpart' _] Hlen'].
    { apply tab_inv_reachable. }
    split; [|done]. apply slots_partition_count in Hpart'. lia.
  - intros Hfull.
    assert (Hfree : freeFdwXacts (FdwXactCtl w) = []).
    { apply length_zero_iff_nil. lia. }
    split_and!; try done.
    + intros Hno. split_and!; try done. by apply insert_fdw_xact_full.
    + apply insert_fdw_xact_duplicate.
Qed.

Lemma C7_witness :
  let w := run_ops [OpInsertEntry 5 700 1 10 1001 "a"]
             (FdwXactShmemInit (ex_boot 1 DISTRIBUTED_ATOMIC_COMMIT_PREFER)).2 in
  insert_fdw_xact 5 701 1 10 1001 "b" w = (Raised err_max_reached, w).
Proof.
  refine (proj1 (proj1 (proj2 (proj2 (proj2 (proj2 (proj2
    (C7_capacity_bound (ex_boot 1 DISTRIBUTED_ATOMIC_COMMIT_PREFER)
       [OpInsertEntry 5 700 1 10 1001 "a"] 5 701 1 10 1001 "b")))) _)) _)).
  - reflexivity.
  - intros (p & Hp & Hk). vm_compute in Hp.
    apply list_elem_of_In in Hp. destruct Hp as [<-|[]]. vm_compute in Hk. discriminate.
Defined.

(** ** The listing function *)

Lemma scan_xacts_spec rest : forall cur,
  match scan_xacts rest cur with
  | (None, _) => List.filter valid rest = []
  | (Some row, cur') =>
      exists k x, cur' = (cur + S k)%nat /\ (k < length rest)%nat
        /\ row = form_tuple x
        /\ List.filter valid rest = x :: List.filter valid (drop (S k) rest)
  end.
Proof.
  induction rest as [|x rest IH]; intros cur; simpl; [done|].
  destruct (valid x) eqn:Hv; simpl.
  - exists O, x. rewrite drop_0. split_and!; try done; lia.
  - specialize (IH (S cur)). destruct (scan_xacts rest (S cur)) as [[row|] cur']; [|done].
    destruct IH as (k & y & -> & Hk & -> & Hf).
    exists (S k), y. split_and!; try done; lia.
Qed.

Lemma srf_rows_spec arr num : forall calls cur,
  (length (drop cur (take num arr)) < calls)%nat ->
  srf_rows calls (mkWorkingStatus arr num cur)
  = map form_tuple (List.filter valid (drop cur (take num arr))).
Proof.
  induction calls as [|calls IH]; intros cur Hlen; [lia|].
  simpl. unfold pg_prepared_fdw_xacts_percall. simpl.
  pose proof (scan_xacts_spec (drop cur (take num arr)) cur) as Hs.
  destruct (scan_xacts (drop cur (take num arr)) cur) as [[row|] cur']; simpl.
  - destruct Hs as (k & x & -> & Hk & -> & Hf).
    rewrite Hf. simpl. f_equal. rewrite IH.
    + by rewrite drop_drop.
    + rewrite <- drop_drop, length_drop. lia.
  - by rewrite Hs.
Qed.

Lemma get_all_fdw_xacts_all c : get_all_fdw_xacts c = active_entries c.
Proof.
  unfold get_all_fdw_xacts, get_fdw_xacts, active_entries. f_equal.
  apply forallb_filter_id. apply forallb_forall. intros p _. reflexivity.
Qed.

Lemma pg_prepared_fdw_xacts_spec c :
  pg_prepared_fdw_xacts c = map form_tuple (List.filter valid (active_entries c)).
Proof.
  unfold pg_prepared_fdw_xacts. rewrite srf_rows_spec.
  - by rewrite drop_0, take_ge, get_all_fdw_xacts_all.
  - rewrite drop_0, length_take. lia.
Qed.

(** C10. The rows of [pg_prepared_fdw_xacts] are exactly the tuples formed
    from the entries of the snapshot whose [valid] flag is set, in the order
    of the active array: every row comes from a valid entry, and since keys
    are unique an entry that is not valid has no row. *)
Theorem C10_only_valid_rows (c : FdwXactCtlData) :
  pg_prepared_fdw_xacts c = map form_tuple (List.filter valid (active_entries c))
  /\ (forall row, In row (pg_prepared_fdw_xacts c) ->
        exists x, In x (active_entries c) /\ valid x = true /\ row = form_tuple x)
  /\ (keys_unique c ->
      forall x, In x (active_entries c) -> valid x = false ->
        ~ In (form_tuple x) (pg_prepared_fdw_xacts c)).
Proof.
  rewrite pg_prepared_fdw_xacts_spec. split_and!; [done| |].
  - intros row (x & <- & Hx)%in_map_iff. apply filter_In in Hx as [? ?]. eauto.
  - intros Hu x Hx Hv (y & Hy & Hin)%in_map_iff. apply filter_In in Hin as [Hin Hvy].
    assert (key_of y = key_of x) as Hk.
    { unfold key_of. by injection Hy as -> -> -> -> _ _. }
    assert (y = x); [|congruence].
    unfold keys_unique in Hu.
    apply list_elem_of_In, list_elem_of_lookup in Hx as [i Hi].
    apply list_elem_of_In, list_elem_of_lookup in Hin as [j Hj].
    assert (i = j); [|congruence].
    eapply NoDup_lookup; [exact Hu| |];
      change (map ?f ?l) with (f <$> l); rewrite list_lookup_fmap.
    + rewrite Hi. reflexivity.
    + rewrite Hj. simpl. by rewrite Hk.
Qed.

Lemma C10_witness :
  let c := FdwXactCtl (run_ops [OpInsertEntry 5 700 1 10 1001 "a"]
                         (ex_world 2 DISTRIBUTED_ATOMIC_COMMIT_PREFER)) in
  ~ In (form_tuple (deref c 1%nat)) (pg_prepared_fdw_xacts c).
Proof.
  intros c.
  refine (proj2 (proj2 (C10_only_valid_rows c)) _ (deref c 1%nat) _ _).
  - vm_compute. repeat constructor. set_solver.
  - vm_compute. auto.
  - reflexivity.
Defined.

(** ** Resolution *)

Ltac close_trace :=
  first [ assumption
        | unfold trace_from in *; simpl; etrans; [eassumption | apply prefix_app_r; reflexivity] ].
Ltac pres_trace := repeat pres_step close_trace.

Lemma trace_from_probe_participants t todo : forall i n,
  preserves (trace_from t) (probe_participants todo i n).
Proof. induction todo as [|todo IH]; intros i n; simpl; pres_trace. Qed.

Lemma trace_from_commit_participants t need todo : forall i,
  preserves (trace_from t) (commit_participants need todo i).
Proof. induction todo as [|todo IH]; intros i; simpl; pres_trace. Qed.

Lemma trace_from_prepare_participants t txid todo : forall i st,
  preserves (trace_from t) (prepare_participants todo i txid st).
Proof. induction todo as [|todo IH]; intros i st; simpl; pres_trace. Qed.

#[local] Hint Resolve trace_from_probe_participants trace_from_commit_participants
  trace_from_prepare_participants : pres.

Lemma trace_from_run_op t op : preserves (trace_from t) (run_op op).
Proof. destruct op; simpl; pres_trace. Qed.

Lemma trace_from_remove t p : preserves (trace_from t) (remove_fdw_xact p).
Proof. pres_trace. Qed.

Lemma trace_from_RemoveFdwXactFile t k b : preserves (trace_from t) (RemoveFdwXactFile k b).
Proof. pres_trace. Qed.

Lemma RemoveFdwXactFile_run k b w :
  exists w', RemoveFdwXactFile k b w = (Done tt, w')
    /\ FdwXactCtl w' = FdwXactCtl w /\ env w' = env w
    /\ RecoveryInProgress w' = RecoveryInProgress w
    /\ xlog w' = xlog w /\ xlog_flushed w' = xlog_flushed w
    /\ (forall k', k' ∈ fdw_xact_files w' <-> k' ∈ fdw_xact_files w /\ k' <> k)
    /\ exists evs, trace w' = trace w ++ EvUnlink k :: evs
         /\ (evs = [] \/ evs = [EvReport WARNING warn_could_not_remove_file]).
Proof.
  unfold RemoveFdwXactFile, bind, get, emit, modify. cbn [fst snd].
  destruct (bool_decide (k ∈ fdw_xact_files w)) eqn:Hin.
  - eexists. split; [reflexivity|]. simpl. split_and!; try done.
    + intros k'. rewrite list_elem_of_In, filter_In, <- list_elem_of_In.
      rewrite negb_true_iff, bool_decide_eq_false. done.
    + exists []. split; [done | by left].
  - apply bool_decide_eq_false in Hin.
    assert (Hfiles : forall k', k' ∈ fdw_xact_files w <-> k' ∈ fdw_xact_files w /\ k' <> k).
    { intros k'. split; [|by intros [? _]]. intros Hk'. split; [done|]. by intros ->. }
    destruct b; unfold ereport, emit, modify, ret.
    + eexists. split; [reflexivity|]. simpl. split_and!; try done.
      exists [EvReport WARNING warn_could_not_remove_file].
      split; [by rewrite <- app_assoc | by right].
    + eexists. split; [reflexivity|]. simpl. split_and!; try done.
      exists []. split; [done | by left].
Qed.

Lemma maybe_unlink_run (c : bool) k b w :
  exists w', (if c then RemoveFdwXactFile k b else ret tt) w = (Done tt, w')
    /\ FdwXactCtl w' = FdwXactCtl w /\ env w' = env w
    /\ RecoveryInProgress w' = RecoveryInProgress w
    /\ xlog w' = xlog w /\ xlog_flushed w' = xlog_flushed w
    /\ (c = true -> k ∉ fdw_xact_files w')
    /\ (forall k', k' ∈ fdw_xact_files w' -> k' ∈ fdw_xact_files w)
    /\ (c = false -> w' = w).
Proof.
  destruct c.
  - destruct (RemoveFdwXactFile_run k b w) as (w' & Hr & H1 & H2 & H3 & H4 & H5 & H6 & _).
    exists w'. split_and!; try done.
    + intros _ Hk. apply H6 in Hk as [_ Hk]. done.
    + intros k' Hk'. by apply H6 in Hk' as [? _].
  - exists w. split_and!; done.
Qed.





(** ** Persistence of an entry *)

Lemma deref_update c q f p :
  deref (update q f c) p
  = if decide (q = p) then
      match pool c !! p with Some x => f x | None => blank_FdwXactData end
    else deref c p.
Proof.
  unfold deref, update. simpl. destruct (decide (q = p)) as [->|Hne].
  - rewrite list_lookup_alter_eq. by destruct (pool c !! p).
  - by rewrite list_lookup_alter_ne.
Qed.

Lemma durable_at_update w q f p k :
  (forall x, key_of (f x) = key_of x) ->
  (forall x, valid x = true -> valid (f x) = true) ->
  durable_at w p k -> durable_at (with_FdwXactCtl (update q f) w) p k.
Proof.
  intros Hk Hv (Hin & Hkey & Hval & Hfl). unfold durable_at. simpl.
  rewrite deref_update. unfold deref in *.
  destruct (decide (q = p)) as [->|Hne]; [|done].
  destruct (pool (FdwXactCtl w) !! p) as [x|]; simpl in *; [|done].
  split_and!; try done; [by rewrite Hk | by apply Hv].
Qed.

Lemma durable_at_update_ne w q f p k :
  q <> p ->
  durable_at w p k -> durable_at (with_FdwXactCtl (update q f) w) p k.
Proof.
  intros Hne (Hin & Hkey & Hval & Hfl). unfold durable_at. simpl.
  rewrite deref_update. by destruct (decide (q = p)).
Qed.

Lemma keeps_update N w q f p k :
  (forall x, key_of (f x) = key_of x) ->
  (forall x, valid x = true -> valid (f x) = true) ->
  keeps N p k w -> keeps N p k (with_FdwXactCtl (update q f) w).
Proof.
  intros Hk Hv [Ht Hd]. split; [by apply tab_inv_update | by apply durable_at_update].
Qed.

Lemma keeps_XLogInsert N p k r : preserves (keeps N p k) (XLogInsert r).
Proof.
  intros w [Ht (Hin & Hkey & Hval & (i & d & Hi & Hd & Hf))].
  split; [exact Ht|]. split_and!; try done.
  exists i, d. split_and!; try done. simpl. by apply lookup_app_l_Some.
Qed.

Lemma keeps_XLogFlush N p k l : preserves (keeps N p k) (XLogFlush l).
Proof.
  intros w [Ht (Hin & Hkey & Hval & (i & d & Hi & Hd & Hf))].
  split; [exact Ht|]. split_and!; try done.
  exists i, d. split_and!; try done. simpl. lia.
Qed.

Lemma keeps_insert_fdw_xact N p k d xid s u um id w :
  keeps N p k w ->
  keeps N p k (insert_fdw_xact d xid s u um id w).2
  /\ forall fx, (insert_fdw_xact d xid s u um id w).1 = Done fx -> fx <> p.
Proof.
  intros [[Hok Hlen] (Hin & Hkey & Hval & Hfl)].
  destruct (insert_fdw_xact d xid s u um id w) as [[fx|e] w'] eqn:Hrun; simpl.
  - destruct (insert_fdw_xact_table_ok _ _ _ _ _ _ _ _ _ Hok Hrun)
      as (Hok' & Hl & Harr & Hnotin & Hk & Hother).
    assert (fx <> p) by (intros ->; done).
    split; [|by intros ? [= <-]].
    split; [split; [done|congruence]|].
    unfold durable_at. rewrite Harr, Hother by done. split_and!; try done.
    + set_solver.
    + destruct Hfl as (i & d0 & Hi & Hd & Hf). exists i, d0.
      rewrite insert_fdw_xact_run in Hrun. simpl in Hrun.
      destruct (existsb _ _); [congruence|].
      destruct (freeFdwXacts _); [congruence|]. by injection Hrun as _ <-.
  - apply insert_fdw_xact_raised in Hrun as ->. split; [|done]. by split.
Qed.

Lemma preserves_keeps_insert N p k d xid s u um id :
  preserves (keeps N p k) (insert_fdw_xact d xid s u um id).
Proof. intros w Hw. by apply keeps_insert_fdw_xact. Qed.

Lemma keeps_remove_fdw_xact N p k q w :
  q <> p -> keeps N p k w -> keeps N p k (remove_fdw_xact q w).2.
Proof.
  intros Hne [[Hok Hlen] (Hin & Hkey & Hval & Hfl)].
  destruct (remove_fdw_xact q w) as [[[]|e] w'] eqn:Hrun; simpl.
  - destruct (remove_fdw_xact_table_ok _ _ _ Hok Hrun)
      as (Hok' & Hl & Hq & Hnotin & Hstay & Hother).
    split; [split; [done|congruence]|].
    unfold durable_at. rewrite Hother by done. split_and!; try done.
    + by apply Hstay.
    + destruct (remove_fdw_xact_present _ _ Hq)
        as (w'' & Hrun' & _ & _ & _ & _ & _ & _ & _ & _ & Hwal).
      rewrite Hrun in Hrun'. injection Hrun' as <-.
      destruct Hfl as (i & d0 & Hi & Hd & Hf). exists i, d0.
      destruct (RecoveryInProgress w).
      * destruct Hwal as (-> & _ & ->). done.
      * destruct Hwal as (lsn & -> & _ & ->). split_and!; try done; [|lia].
        by apply lookup_app_l_Some.
  - apply remove_fdw_xact_raised in Hrun as [-> _]. by split.
Qed.

Ltac close_keeps :=
  first [ assumption
        | apply keeps_update;
          [intros ?; reflexivity | intros ? ?; simpl; first [assumption | reflexivity] | assumption]
        | match goal with
          | H : keeps _ _ _ ?w |- keeps _ _ _ _ =>
              destruct H as [? (? & ? & ? & ?)]; split; [assumption|];
              split_and!; assumption
          end ].
Ltac pres_keeps := repeat pres_step close_keeps.

#[local] Hint Resolve keeps_XLogInsert keeps_XLogFlush preserves_keeps_insert : pres.

Lemma keeps_FdwXactInsertFdwXactEntry N p k xid i part id :
  preserves (keeps N p k) (FdwXactInsertFdwXactEntry xid i part id).
Proof. pres_keeps. Qed.

#[local] Hint Resolve keeps_FdwXactInsertFdwXactEntry : pres.

Lemma keeps_probe_participants N p k todo : forall i n,
  preserves (keeps N p k) (probe_participants todo i n).
Proof. induction todo as [|todo IH]; intros i n; simpl; pres_keeps. Qed.

Lemma keeps_commit_participants N p k need todo : forall i,
  preserves (keeps N p k) (commit_participants need todo i).
Proof. induction todo as [|todo IH]; intros i; simpl; pres_keeps. Qed.

Lemma keeps_prepare_participants N p k txid todo : forall i st,
  preserves (keeps N p k) (prepare_participants todo i txid st).
Proof. induction todo as [|todo IH]; intros i st; simpl; pres_keeps. Qed.

#[local] Hint Resolve keeps_probe_participants keeps_commit_participants
  keeps_prepare_participants : pres.

Lemma keeps_PreCommit_FdwXacts N p k : preserves (keeps N p k) PreCommit_FdwXacts.
Proof. pres_keeps. Qed.

Lemma keeps_AtPrepare_FdwXacts N p k : preserves (keeps N p k) AtPrepare_FdwXacts.
Proof. pres_keeps. Qed.

Lemma keeps_register_fdw_xact N p k s u m : preserves (keeps N p k) (register_fdw_xact s u m).
Proof. pres_keeps. Qed.

Lemma keeps_ForgetAllFdwXactParticipants N p k :
  preserves (keeps N p k) ForgetAllFdwXactParticipants.
Proof. pres_keeps. Qed.

Lemma keeps_CheckPointFdwXacts N p k h : preserves (keeps N p k) (CheckPointFdwXacts h).
Proof. pres_keeps. Qed.

Lemma keeps_FdwXactRedoAdd N p k d s e : preserves (keeps N p k) (FdwXactRedoAdd d s e).
Proof.
  intros w Hw. unfold FdwXactRedoAdd, bind.
  destruct (keeps_insert_fdw_xact N p k (od_dbid d) (od_local_xid d) (od_serverid d)
              (od_userid d) (od_umid d) (od_fdw_xact_id d) w Hw) as [Hk Hne].
  destruct (insert_fdw_xact _ _ _ _ _ _ w) as [[fx|err] w']; simpl in *; [|done].
  destruct Hk as [Ht Hd]. split.
  - apply tab_inv_update; [by intros ?|done].
  - apply durable_at_update_ne; [by apply Hne|done].
Qed.

(** How [FdwXactResolveForeignTransaction] runs, by the outcome of the
    first part, the verdict of the callback and the level. *)
Lemma resolve_run st p lvl w :
  FdwXactResolveForeignTransaction st p lvl w =
  match determine_fate p w with
  | (Raised e, w1) => (Raised e, w1)
  | (Done c, w1) =>
      let r := ResolveForeignTransaction
                 (GetFdwRoutineByServerId (env w1) (serverid (deref (FdwXactCtl w1) p)))
                 st c in
      let w2 := with_trace (fun t => t ++ [EvResolve st c r.1]) w1 in
      if r.1 then (run remove_resolved_entry p ;; ret r) w2
      else match lvl with
           | ERROR => (Raised (err_could_not_resolve c), w2)
           | _ => (run remove_resolved_entry p ;; ret r)
                    (with_trace (fun t => t ++ [EvReport lvl (err_could_not_resolve c)]) w2)
           end
  end.
Proof.
  unfold FdwXactResolveForeignTransaction. unfold bind at 1.
  destruct (determine_fate p w) as [[c|e] w1]; [|done].
  unfold bind at 1, get at 1. cbv zeta. unfold bind at 1, emit at 1, modify at 1.
  destruct (ResolveForeignTransaction _ st c).1 eqn:Hr.
  - reflexivity.
  - destruct lvl; reflexivity.
Qed.

Lemma keeps_determine_fate N p k q : preserves (keeps N p k) (determine_fate q).
Proof. pres_keeps. Qed.

Lemma keeps_remove_resolved_entry_ne N p k q :
  q <> p -> preserves (keeps N p k) (remove_resolved_entry q).
Proof.
  intros Hne.
  assert (Hrm : preserves (keeps N p k) (remove_fdw_xact q)).
  { intros w Hw. by apply keeps_remove_fdw_xact. }
  pres_keeps.
Qed.

Lemma keeps_trace N p k f w : keeps N p k w -> keeps N p k (with_trace f w).
Proof. done. Qed.

(** Resolution of another entry leaves the entry alone. *)
Lemma keeps_resolve_other N p k st q lvl :
  q <> p -> preserves (keeps N p k) (FdwXactResolveForeignTransaction st q lvl).
Proof.
  intros Hne w Hw. rewrite resolve_run.
  pose proof (keeps_determine_fate N p k q w Hw) as H1.
  destruct (determine_fate q w) as [[c|e] w1]; simpl in *; [|done].
  pose proof (keeps_remove_resolved_entry_ne N p k q Hne) as Hrm.
  assert (Htail : forall r : bool * FdwXactState,
            preserves (keeps N p k) (run remove_resolved_entry q ;; ret r)).
  { intros r. pres_keeps. }
  destruct (ResolveForeignTransaction _ st c).1.
  - apply Htail. exact H1.
  - destruct lvl; try done; apply Htail; exact H1.
Qed.

Lemma remove_resolved_entry_done p w :
  p ∈ fdw_xacts (FdwXactCtl w) ->
  exists w', remove_resolved_entry p w = (Done tt, w').
Proof.
  intros Hin. unfold remove_resolved_entry, bind, gets. cbn [fst snd].
  destruct (maybe_unlink_run (ondisk (deref (FdwXactCtl w) p))
              (key_of (deref (FdwXactCtl w) p)) true w) as (w0 & -> & Hc & _).
  destruct (remove_fdw_xact_present p w0) as (w4 & -> & _); [by rewrite Hc|]. eauto.
Qed.

(** A resolution at level ERROR that ends in an error leaves the entry. *)
Lemma keeps_resolve_raised N p k st q w e w' :
  keeps N p k w ->
  FdwXactResolveForeignTransaction st q ERROR w = (Raised e, w') ->
  keeps N p k w'.
Proof.
  intros Hw. rewrite resolve_run.
  pose proof (keeps_determine_fate N p k q w Hw) as H1.
  destruct (determine_fate q w) as [[c|e1] w1]; simpl in *; [|by intros [= _ <-]].
  destruct (ResolveForeignTransaction _ st c).1.
  - unfold bind.
    destruct (decide (q = p)) as [->|Hne].
    + destruct H1 as [Ht (Hin & _)].
      match goal with |- context [remove_resolved_entry p ?w0] =>
        destruct (remove_resolved_entry_done p w0 Hin) as [w4 ->] end.
      done.
    + pose proof (keeps_remove_resolved_entry_ne N p k q Hne) as Hrm.
      match goal with |- context [remove_resolved_entry q ?w0] =>
        specialize (Hrm w0 H1);
        destruct (remove_resolved_entry q w0) as [[[]|?] ?]; simpl in *; [done|] end.
      by intros [= _ <-].
  - by intros [= _ <-].
Qed.

(** A resolution at level ERROR returns only when the callback reported
    success. *)
Lemma resolve_done_success st q w r w' :
  FdwXactResolveForeignTransaction st q ERROR w = (Done r, w') ->
  r.1 = true /\ exists c, EvResolve st c true ∈ trace w'.
Proof.
  rewrite resolve_run.
  destruct (determine_fate q w) as [[c|e1] w1]; simpl in *; [|done].
  destruct (ResolveForeignTransaction _ st c) as [b st'] eqn:Hr. simpl.
  destruct b; [|done].
  unfold bind.
  set (w2 := with_trace _ w1).
  assert (Hpre : trace_from (trace w2) (remove_resolved_entry q w2).2).
  { assert (Hm : preserves (trace_from (trace w2)) (remove_resolved_entry q)) by pres_trace.
    apply Hm. by unfold trace_from. }
  destruct (remove_resolved_entry q w2) as [[[]|?] w3]; simpl in *; [|done].
  intros [= <- <-]. split; [done|]. exists c.
  destruct Hpre as [rest ->]. subst w2. simpl. set_solver.
Qed.

Lemma bind_ret_snd {A B} (m : M A) (b : B) w :
  (bind m (fun _ => ret b) w).2 = (m w).2.
Proof. unfold bind, ret. by destruct (m w) as [[?|?] ?]. Qed.

Lemma keeps_run_op N p k op w :
  keeps N p k w ->
  removal_target op w <> Some p ->
  keeps N p k (run_op op w).2.
Proof.
  intros Hw Htarget. destruct op; simpl in *.
  - exact Hw.
  - by apply keeps_register_fdw_xact.
  - by apply keeps_PreCommit_FdwXacts.
  - by apply keeps_AtPrepare_FdwXacts.
  - by apply keeps_ForgetAllFdwXactParticipants.
  - assert (Hm : preserves (keeps N p k) (run insert_fdw_xact d xid s u um id ;; ret tt))
      by pres_keeps. by apply Hm.
  - apply keeps_remove_fdw_xact; [congruence | done].
  - assert (Hne : p0 <> p) by congruence.
    pose proof (keeps_resolve_other N p k) as Hres.
    assert (Hm : preserves (keeps N p k) (resolver_resolve_entry p0)) by pres_keeps.
    by apply Hm.
  - rewrite bind_ret_snd. unfold pg_resolve_fdw_xact, bind at 1, get at 1.
    destruct (negb (superuser (env w))); [done|].
    destruct (get_one_fdw_xact _ _ _ _ _) as [q|]; [|done].
    assert (Hne : q <> p) by congruence.
    pose proof (keeps_resolve_other N p k) as Hres.
    match goal with |- keeps _ _ _ (?m w).2 =>
      assert (Hm : preserves (keeps N p k) m) by pres_keeps; by apply Hm end.
  - unfold pg_remove_fdw_xact, bind at 1, get at 1.
    destruct (negb (superuser (env w))); [done|].
    destruct (get_one_fdw_xact _ _ _ _ _) as [q|]; [|done].
    apply keeps_remove_fdw_xact; [congruence | done].
  - by apply keeps_CheckPointFdwXacts.
  - destruct rec; simpl.
    + by apply keeps_FdwXactRedoAdd.
    + unfold FdwXactRedoRemove, bind at 1, gets at 1.
      destruct (get_one_fdw_xact _ _ _ _ _) as [q|]; [|done].
      assert (Hne : q <> p) by congruence.
      assert (Hrm : preserves (keeps N p k) (remove_fdw_xact q)).
      { intros w0 Hw0. by apply keeps_remove_fdw_xact. }
      match goal with |- keeps _ _ _ (?m w).2 =>
        assert (Hm : preserves (keeps N p k) m) by pres_keeps; by apply Hm end.
    + done.
Qed.

(** The Resolver working on the entry itself: the entry goes only when the
    resolve callback reported success. *)
Lemma keeps_resolver_same N p k w :
  keeps N p k w ->
  match resolver_resolve_entry p w with
  | (Raised _, w') => keeps N p k w'
  | (Done _, w') => exists st c, EvResolve st c true ∈ trace w'
  end.
Proof.
  intros Hw. unfold resolver_resolve_entry, bind at 1, gets at 1. cbv zeta.
  unfold bind.
  set (st := mkFdwXactState _ _ _ _ _).
  destruct (FdwXactResolveForeignTransaction st p ERROR w) as [[r|e] w'] eqn:Hrun.
  - apply resolve_done_success in Hrun as [_ [c Hc]]. simpl. eauto.
  - by eapply keeps_resolve_raised.
Qed.

(** ** The length check on prepare identifiers *)

(** C5, as stated, fails: an identifier of 100 bytes, well below the 200
    of the claim, is refused when NAMEDATALEN has its stock value 64. *)
Lemma C5_counterexample :
  Z.of_nat (String.length ex_long_id) = 100
  /\ 100 <= FDW_XACT_ID_MAX_LEN
  /\ NAMEDATALEN (env (ex_world 8 DISTRIBUTED_ATOMIC_COMMIT_PREFER)) = 64
  /\ prepare_participant 0 ex_part_long_id 700 create_fdw_xact_state
       (ex_world 8 DISTRIBUTED_ATOMIC_COMMIT_PREFER)
     = (Raised err_id_too_long, ex_world 8 DISTRIBUTED_ATOMIC_COMMIT_PREFER).
Proof.
  split_and!; [reflexivity | vm_compute; discriminate | reflexivity |
               vm_compute; reflexivity].
Qed.

Lemma FdwXactInsertFdwXactEntry_raised xid i part id w e w' :
  FdwXactInsertFdwXactEntry xid i part id w = (Raised e, w') ->
  e = err_duplicate_entry \/ e = err_max_reached.
Proof.
  unfold FdwXactInsertFdwXactEntry, bind at 1, get at 1. unfold bind at 1.
  destruct (insert_fdw_xact _ _ _ _ _ _ w) as [[fx|e0] w0] eqn:Hins.
  - unfold XLogInsert, XLogFlush, update_part, emit, bind, modify, get, gets, ret.
    simpl. discriminate.
  - intros [= <- _]. rewrite insert_fdw_xact_run in Hins. cbv zeta in Hins.
    destruct (existsb _ _); [left; congruence|].
    destruct (freeFdwXacts _); [right; congruence | discriminate].
Qed.

(** C5, amended.  The length that [get_prepareid] reports is compared with
    NAMEDATALEN.  An identifier reported longer than NAMEDATALEN makes the
    preparation of the participant fail with ERRCODE_NAME_TOO_LONG, before
    anything is inserted or logged; one reported no longer than NAMEDATALEN
    is accepted: it is used, cut at the reported length, and the
    preparation never fails with that error. *)
Theorem C5_length_checked_against_NAMEDATALEN (w : World) (i : nat)
    (fdw_part : FdwXactParticipant) (txid : TransactionId) (state : FdwXactState)
    (callback : prepareid_callback) (id : string) (len : Z) :
  get_prepareid fdw_part = Some callback ->
  callback txid (fs_serverid (server fdw_part)) (um_userid (usermapping fdw_part))
    = (Some id, len) ->
  (NAMEDATALEN (env w) < len ->
   prepare_participant i fdw_part txid state w = (Raised err_id_too_long, w)
   /\ sqlerrcode err_id_too_long = ERRCODE_NAME_TOO_LONG)
  /\ (len <= NAMEDATALEN (env w) ->
      choose_prepare_id txid fdw_part w
      = (Done (substring 0 (Z.to_nat len) id), w)
      /\ forall e w', prepare_participant i fdw_part txid state w = (Raised e, w') ->
           e <> err_id_too_long).
Proof.
  intros Hcb Hcall.
  assert (Hchoose : choose_prepare_id txid fdw_part w
            = if NAMEDATALEN (env w) <? len then (Raised err_id_too_long, w)
              else (Done (substring 0 (Z.to_nat len) id), w)).
  { unfold choose_prepare_id. rewrite Hcb. cbv zeta. rewrite Hcall. simpl.
    unfold bind, get. by destruct (NAMEDATALEN (env w) <? len). }
  split.
  - intros Hlong. split; [|done].
    unfold prepare_participant, bind at 1. rewrite Hchoose.
    apply Z.ltb_lt in Hlong. by rewrite Hlong.
  - intros Hshort. apply Z.ltb_ge in Hshort. rewrite Hshort in Hchoose.
    split; [exact Hchoose|].
    intros e w'. unfold prepare_participant, bind at 1. rewrite Hchoose.
    unfold bind at 1. unfold update_part at 1, modify at 1. unfold bind at 1.
    destruct (FdwXactInsertFdwXactEntry _ _ _ _ _) as [[fx|e0] w0] eqn:Hins.
    + unfold bind at 1, gets at 1. cbv zeta. unfold bind at 1, emit at 1, modify at 1.
      destruct (negb _); [by intros [= <- _]|].
      unfold update_part, bind, modify, ret. discriminate.
    + intros [= <- _].
      by apply FdwXactInsertFdwXactEntry_raised in Hins as [->| ->].
Qed.

Lemma C5_witness :
  prepare_participant 0 ex_part_long_id 700 create_fdw_xact_state
    (ex_world 8 DISTRIBUTED_ATOMIC_COMMIT_PREFER)
  = (Raised err_id_too_long, ex_world 8 DISTRIBUTED_ATOMIC_COMMIT_PREFER)
  /\ sqlerrcode err_id_too_long = ERRCODE_NAME_TOO_LONG.
Proof.
  refine (proj1 (C5_length_checked_against_NAMEDATALEN
    (ex_world 8 DISTRIBUTED_ATOMIC_COMMIT_PREFER) 0 ex_part_long_id 700
    create_fdw_xact_state (fun _ _ _ => (Some ex_long_id, 100)) ex_long_id 100 _ _) _).
  - reflexivity.
  - reflexivity.
  - vm_compute. reflexivity.
Defined.

(** ** Replay *)

Lemma fdw_xact_matches_valid d xid s u x :
  d <> InvalidOid -> xid <> InvalidTransactionId -> s <> InvalidOid -> u <> InvalidOid ->
  fdw_xact_matches d xid s u x = true <-> key_of x = (d, xid, s, u).
Proof.
  intros Hd Hx Hs Hu. unfold fdw_xact_matches, OidIsValid, key_of.
  apply Z.eqb_neq in Hd, Hx, Hs, Hu. rewrite Hd, Hx, Hs, Hu. simpl.
  rewrite !andb_true_iff, !negb_true_iff, !negb_false_iff, !Z.eqb_eq.
  split; [intros [[[-> ->] ->] ->]; done | intros [= -> -> -> ->]; done].
Qed.

Lemma get_one_fdw_xact_spec d xid s u c :
  d <> InvalidOid -> xid <> InvalidTransactionId -> s <> InvalidOid -> u <> InvalidOid ->
  match get_one_fdw_xact d xid s u c with
  | Some q => q ∈ fdw_xacts c /\ key_of (deref c q) = (d, xid, s, u)
  | None => ~ has_entry c (d, xid, s, u)
  end.
Proof.
  intros Hd Hx Hs Hu. unfold get_one_fdw_xact, get_fdw_xacts.
  destruct (List.filter _ _) as [|q l] eqn:Hf.
  - intros (p & Hp & Hk).
    assert (In p (List.filter (fun p => fdw_xact_matches d xid s u (deref c p)) (fdw_xacts c))) as Hin.
    { apply filter_In. split; [by apply list_elem_of_In|]. by apply fdw_xact_matches_valid. }
    rewrite Hf in Hin. done.
  - assert (In q (List.filter (fun p => fdw_xact_matches d xid s u (deref c p)) (fdw_xacts c))) as Hin
      by (rewrite Hf; left; done).
    apply filter_In in Hin as [Hin Hm]. split; [by apply list_elem_of_In|].
    by apply fdw_xact_matches_valid in Hm.
Qed.




















(** ** Removal after a failed resolution *)

Lemma remove_resolved_entry_gone N p w :
  tab_inv N w -> p ∈ fdw_xacts (FdwXactCtl w) ->
  exists w', remove_resolved_entry p w = (Done tt, w')
    /\ tab_inv N w'
    /\ (p ∉ fdw_xacts (FdwXactCtl w'))
    /\ p ∈ freeFdwXacts (FdwXactCtl w').
Proof.
  intros Ht Hin.
  assert (Hgo : forall w0, tab_inv N w0 -> p ∈ fdw_xacts (FdwXactCtl w0) ->
            exists w', remove_fdw_xact p w0 = (Done tt, w') /\ tab_inv N w'
              /\ (p ∉ fdw_xacts (FdwXactCtl w')) /\ p ∈ freeFdwXacts (FdwXactCtl w')).
  { intros w0 [Hok Hlen] Hin0.
    destruct (remove_fdw_xact_present p w0 Hin0) as (w' & Hrun & _ & Hfree & _).
    destruct (remove_fdw_xact_table_ok _ _ _ Hok Hrun) as (Hok' & Hl & _ & Hnotin & _).
    exists w'. split_and!; try done; [split; [done|congruence] | rewrite Hfree; set_solver]. }
  unfold remove_resolved_entry, bind, gets. cbn [fst snd].
  destruct (maybe_unlink_run (ondisk (deref (FdwXactCtl w) p))
              (key_of (deref (FdwXactCtl w) p)) true w) as (w0 & -> & Hc & _).
  destruct (Hgo w0) as (w' & -> & ?); [|by rewrite Hc|eauto].
  destruct Ht as [? ?]. split; by rewrite Hc.
Qed.

Lemma determine_fate_frame N p w c w1 :
  tab_inv N w -> determine_fate p w = (Done c, w1) ->
  tab_inv N w1 /\ fdw_xacts (FdwXactCtl w1) = fdw_xacts (FdwXactCtl w).
Proof.
  intros Ht. assert (Hpd : preserves (tab_inv N) (determine_fate p)) by pres.
  pose proof (Hpd w Ht) as Hp.
  unfold determine_fate, bind, get in *. cbv zeta in *.
  repeat match goal with
  | |- context [if ?b then _ else _] => destruct b; simpl in *
  end; intros [= <- <-]; done.
Qed.

(** C8 fails on the code where the level is below ERROR: when the resolve
    callback reports failure the function logs the message, goes on, frees
    the entry and returns false.  [pg_resolve_fdw_xact] calls it at level
    LOG. *)
Theorem C8_failed_resolution_below_ERROR_frees_entry (N : nat) (w : World)
    (state : FdwXactState) (fdwxact : FdwXact) (elevel : ErrorLevel)
    (is_commit : bool) (w1 : World) :
  tab_inv N w ->
  fdwxact ∈ fdw_xacts (FdwXactCtl w) ->
  elevel <> ERROR ->
  determine_fate fdwxact w = (Done is_commit, w1) ->
  (ResolveForeignTransaction
     (GetFdwRoutineByServerId (env w1) (serverid (deref (FdwXactCtl w1) fdwxact)))
     state is_commit).1 = false ->
  exists r w',
    FdwXactResolveForeignTransaction state fdwxact elevel w = (Done r, w')
    /\ r.1 = false
    /\ (fdwxact ∉ fdw_xacts (FdwXactCtl w'))
    /\ fdwxact ∈ freeFdwXacts (FdwXactCtl w').
Proof.
  intros Ht Hin Hlvl Hfate Hfail.
  destruct (determine_fate_frame N _ _ _ _ Ht Hfate) as [Ht1 Harr].
  rewrite resolve_run, Hfate. cbv zeta. rewrite Hfail.
  set (r := ResolveForeignTransaction _ state is_commit).
  assert (Htail : forall w2, tab_inv N w2 -> fdwxact ∈ fdw_xacts (FdwXactCtl w2) ->
     exists w', (run remove_resolved_entry fdwxact ;; ret r) w2 = (Done r, w')
       /\ (fdwxact ∉ fdw_xacts (FdwXactCtl w')) /\ fdwxact ∈ freeFdwXacts (FdwXactCtl w')).
  { intros w2 Ht2 Hin2. unfold bind.
    destruct (remove_resolved_entry_gone N fdwxact w2 Ht2 Hin2) as (w' & -> & _ & ? & ?).
    eauto. }
  destruct elevel; [| | |done];
    match goal with |- context [(run remove_resolved_entry fdwxact ;; ret r) ?w2] =>
      destruct (Htail w2) as (w' & -> & ? & ?); [exact Ht1 | simpl; by rewrite Harr |];
      exists r, w'; split_and!; done end.
Qed.

Lemma C8_witness :
  exists r w',
    FdwXactResolveForeignTransaction (mkFdwXactState 3 10 1003 None NULLp) 6%nat LOG
      ex_unresolvable = (Done r, w')
    /\ r.1 = false
    /\ (6%nat ∉ fdw_xacts (FdwXactCtl w'))
    /\ 6%nat ∈ freeFdwXacts (FdwXactCtl w').
Proof.
  apply (C8_failed_resolution_below_ERROR_frees_entry 8 ex_unresolvable
           (mkFdwXactState 3 10 1003 None NULLp) 6%nat LOG true
           (with_FdwXactCtl (update 6%nat (set_status FDW_XACT_COMMITTING_PREPARED))
              ex_unresolvable)).
  - exact (tab_inv_reachable (ex_boot 8 DISTRIBUTED_ATOMIC_COMMIT_PREFER)
             [OpRegister 1 10 true; OpRegister 3 10 true; OpPreCommit]).
  - vm_compute. set_solver.
  - discriminate.
  - reflexivity.
  - reflexivity.
Defined.

(** The same at the entry point: the operator's [pg_resolve_fdw_xact] on an
    entry whose foreign server refuses to resolve returns false and the
    entry is gone, with a REMOVE record in the log. *)
Example pg_resolve_fdw_xact_forgets_unresolved :
  let r := pg_resolve_fdw_xact 700 3 10 ex_unresolvable in
  r.1 = Done false
  /\ has_entry (FdwXactCtl ex_unresolvable) (5, 700, 3, 10)
  /\ ~ has_entry (FdwXactCtl r.2) (5, 700, 3, 10)
  /\ EvResolve (mkFdwXactState 3 10 1003 None NULLp) true false ∈ trace r.2
  /\ last (xlog r.2) = Some (XLOG_FDW_XACT_REMOVE (mk_xl_fdw_xact_remove 700 3 10 5)).
Proof.
  split_and!.
  - reflexivity.
  - exists 6%nat. split; [vm_compute; set_solver | reflexivity].
  - intros (p & Hp & Hk). vm_compute in Hp.
    apply list_elem_of_In in Hp. destruct Hp as [<-|[]]. vm_compute in Hk. discriminate.
  - vm_compute. set_solver.
  - reflexivity.
Qed.
(** ** The capability probe and the 'required' policy *)

Lemma flag_set_lor_mono f x b : flag_set f b = true -> flag_set (Z.lor f x) b = true.
Proof.
  unfold flag_set. rewrite !negb_true_iff, !Z.eqb_neq.
  rewrite Z.land_lor_distr_l, Z.lor_eq_0_iff. tauto.
Qed.

Lemma flag_set_lor_own f b : b <> 0 -> flag_set (Z.lor f b) b = true.
Proof.
  intros Hb. unfold flag_set. rewrite negb_true_iff, Z.eqb_neq.
  rewrite Z.land_lor_distr_l, Z.land_diag, Z.lor_eq_0_iff. tauto.
Qed.

Lemma same_shape_refl p : same_shape p p.
Proof. done. Qed.

Lemma Forall2_same_shape_refl l : Forall2 same_shape l l.
Proof. induction l; constructor; [apply same_shape_refl | done]. Qed.

Lemma probe_frame_refl w : probe_frame w w.
Proof.
  unfold probe_frame. split_and!; try done; [apply Forall2_same_shape_refl|].
  exists []. by rewrite app_nil_r.
Qed.

Lemma probe_frame_trans w1 w2 w3 :
  probe_frame w1 w2 -> probe_frame w2 w3 -> probe_frame w1 w3.
Proof.
  intros (? & ? & ? & ? & ? & ? & ? & ? & Hp1 & Hf1 & evs1 & Ht1 & He1)
         (? & ? & ? & ? & ? & ? & ? & ? & Hp2 & Hf2 & evs2 & Ht2 & He2).
  unfold probe_frame. split_and!; try congruence.
  - clear -Hp1 Hp2. revert Hp2. generalize (FdwXactAtomicCommitParticipants w3).
    induction Hp1 as [|a b l l' Hab Hl IH]; intros l3 H3; inversion H3; subst; constructor.
    + destruct Hab as (? & ? & ?). match goal with H : same_shape b _ |- _ => destruct H as (? & ? & ?) end.
      split_and!; congruence.
    + by apply IH.
  - intros b Hb. by apply Hf2, Hf1.
  - exists (evs1 ++ evs2). rewrite Ht2, Ht1, app_assoc. split; [done|].
    apply Forall_app. done.
Qed.

Lemma modified_count_shape l l' :
  Forall2 same_shape l l' -> modified_count l' = modified_count l.
Proof.
  unfold modified_count. intros H. f_equal.
  induction H as [|a b l l' (Hm & _) Hl IH]; [done|]. simpl. rewrite Hm.
  destruct (modified a); simpl; by rewrite IH.
Qed.

Lemma noncapable_shape l l' :
  Forall2 same_shape l l' ->
  existsb noncapable_modified l' = existsb noncapable_modified l.
Proof.
  intros H. induction H as [|a b l l' (Hm & Hc & Hs) Hl IH]; [done|]. simpl.
  rewrite IH. f_equal. unfold noncapable_modified. by rewrite Hm, Hc, Hs.
Qed.

Lemma Forall2_same_shape_drop_take n i l l' :
  Forall2 same_shape l l' ->
  Forall2 same_shape (take n (drop i l)) (take n (drop i l')).
Proof. intros H. by apply Forall2_take, Forall2_drop. Qed.

Lemma probe_participants_spec todo : forall i n w,
  exists w',
    probe_participants todo i n w
    = (Done (n + modified_count (take todo (drop i (FdwXactAtomicCommitParticipants w)))), w')
    /\ probe_frame w w'
    /\ (XACT_FLAGS_FDWNOPREPARE (env w) <> 0 ->
        existsb noncapable_modified
          (take todo (drop i (FdwXactAtomicCommitParticipants w))) = true ->
        flag_set (MyXactFlags w') (XACT_FLAGS_FDWNOPREPARE (env w)) = true).
Proof.
  induction todo as [|todo IH]; intros i n w.
  - exists w. simpl. unfold modified_count. simpl. rewrite Z.add_0_r.
    split_and!; [done | apply probe_frame_refl | done].
  - simpl. unfold bind at 1, get at 1.
    destruct (FdwXactAtomicCommitParticipants w !! i) as [fdw_part|] eqn:Hi.
    + rewrite (drop_S _ _ _ Hi). simpl.
      set (r := is_twophase_commit_enabled fdw_part (fs_serverid (server fdw_part))).
      unfold bind at 1, emit at 1, modify at 1.
      set (w1 := with_trace _ w).
      unfold bind at 1.
      set (step := (if r then update_part i (set_twophase_commit_enabled true)
                    else if modified fdw_part
                         then modify (with_MyXactFlags
                                (Z.lor (MyXactFlags w) (XACT_FLAGS_FDWNOPREPARE (env w))))
                         else ret tt) w1).
      assert (Hstep : step.1 = Done tt /\ probe_frame w step.2
                /\ (XACT_FLAGS_FDWNOPREPARE (env w) <> 0 ->
                    noncapable_modified fdw_part = true ->
                    flag_set (MyXactFlags step.2) (XACT_FLAGS_FDWNOPREPARE (env w)) = true)).
      { subst step. unfold noncapable_modified. fold r. destruct r.
        - split_and!; [done| |by rewrite andb_false_r].
          unfold probe_frame. simpl. split_and!; try done.
          + clear -Hi. revert i Hi. induction (FdwXactAtomicCommitParticipants w) as [|a l IHl];
              intros [|i] Hi; simpl in *; try done.
            * injection Hi as ->. constructor; [done | apply Forall2_same_shape_refl].
            * constructor; [done | by apply IHl].
          + eexists. split; [done|]. by repeat constructor.
        - destruct (modified fdw_part); simpl.
          + split_and!; [done| |by intros Hb _; apply flag_set_lor_own].
            unfold probe_frame. simpl. split_and!; try done.
            * apply Forall2_same_shape_refl.
            * intros b. apply flag_set_lor_mono.
            * eexists. split; [done|]. by repeat constructor.
          + split_and!; [done| |done].
            unfold probe_frame. simpl. split_and!; try done.
            * apply Forall2_same_shape_refl.
            * eexists. split; [done|]. by repeat constructor. }
      destruct step as [o w2]. destruct Hstep as (Ho & Hfr & Hflag). simpl in *. subst o.
      destruct (IH (S i) (if modified fdw_part then n + 1 else n) w2)
        as (w' & Hrun & Hfr' & Hflag').
      exists w'. rewrite Hrun.
      pose proof Hfr as (Henv & _ & _ & _ & _ & _ & _ & _ & Hshape & _).
      pose proof Hfr' as (_ & _ & _ & _ & _ & _ & _ & _ & _ & Hmono' & _).
      pose proof (Forall2_same_shape_drop_take todo (S i) _ _ Hshape) as Hsh.
      split_and!.
      * f_equal. f_equal. rewrite (modified_count_shape _ _ Hsh).
        unfold modified_count. simpl. destruct (modified fdw_part); simpl; lia.
      * by eapply probe_frame_trans.
      * intros Hb Hex. apply orb_true_iff in Hex as [Hex|Hex].
        -- apply Hmono'. by apply Hflag.
        -- rewrite <- Henv. apply Hflag'; [by rewrite Henv|]. by rewrite (noncapable_shape _ _ Hsh).
    + rewrite (drop_ge _ i) by (by apply lookup_ge_None). rewrite take_nil.
      exists w. unfold modified_count. simpl. rewrite Z.add_0_r.
      split_and!; [done | apply probe_frame_refl | done].
Qed.

Lemma FdwXactAtomicCommitRequired_spec w :
  IsAtomicCommitRequested w = true ->
  exists w1,
    probe_participants (length (FdwXactAtomicCommitParticipants w)) 0 0 w
    = (Done (modified_count (FdwXactAtomicCommitParticipants w)), w1)
    /\ probe_frame w w1
    /\ (XACT_FLAGS_FDWNOPREPARE (env w) <> 0 ->
        existsb noncapable_modified (FdwXactAtomicCommitParticipants w) = true ->
        flag_set (MyXactFlags w1) (XACT_FLAGS_FDWNOPREPARE (env w)) = true)
    /\ (2 <= nodes_written w ->
        FdwXactAtomicCommitRequired w
        = (Done true, with_FdwXactAtomicCommitReady true w1)).
Proof.
  intros Hreq.
  destruct (probe_participants_spec (length (FdwXactAtomicCommitParticipants w)) 0 0 w)
    as (w1 & Hrun & Hfr & Hflag).
  rewrite drop_0, take_ge in Hrun, Hflag by lia. rewrite Z.add_0_l in Hrun.
  exists w1. split_and!; try done.
  intros Hn. unfold FdwXactAtomicCommitRequired, bind at 1, get at 1.
  rewrite Hreq. simpl. unfold bind at 1. rewrite Hrun. unfold bind at 1, get at 1.
  destruct Hfr as (Henv & _ & _ & _ & _ & _ & _ & _ & _ & Hmono & _).
  unfold nodes_written in Hn. rewrite Henv.
  pose proof (Hmono (XACT_FLAGS_WROTENONTEMPREL (env w))) as Hm.
  destruct (flag_set (MyXactFlags w) (XACT_FLAGS_WROTENONTEMPREL (env w)));
    [rewrite (Hm eq_refl)
    | destruct (flag_set (MyXactFlags w1) (XACT_FLAGS_WROTENONTEMPREL (env w)))];
    (destruct (_ <=? 1) eqn:Hle; [apply Z.leb_le in Hle; lia | done]).
Qed.

(** C3, as stated, fails: under 'required', a transaction whose only write
    is on one participant that cannot do two-phase commit is not rejected;
    atomic commit is not needed for a single writer and the participant is
    committed in one phase. *)
Lemma C3_counterexample :
  distributed_atomic_commit ex_required_single = DISTRIBUTED_ATOMIC_COMMIT_REQUIRED
  /\ existsb noncapable_modified (FdwXactAtomicCommitParticipants ex_required_single) = true
  /\ (PreCommit_FdwXacts ex_required_single).1 = Done tt
  /\ trace (PreCommit_FdwXacts ex_required_single).2
     = [EvIsTwoPhaseCommitEnabled 2 false;
        EvCommit (mkFdwXactState 2 10 1002 None NULLp) true].
Proof. vm_compute. done. Qed.

(** C3, amended.  Under 'required', with atomic commit enabled, when the
    transaction wrote on two or more nodes (modified participants, plus the
    local node if it wrote a non-temporary relation) and some modified
    participant cannot do two-phase commit, pre-commit fails with the
    feature-not-supported error; up to then only the capability probes have
    run: no record is in the log, the table and the files are as before. *)
Theorem C3_required_rejects (w : World) :
  distributed_atomic_commit w = DISTRIBUTED_ATOMIC_COMMIT_REQUIRED ->
  0 < max_prepared_foreign_xacts w ->
  0 < max_foreign_xact_resolvers w ->
  XACT_FLAGS_FDWNOPREPARE (env w) <> 0 ->
  existsb noncapable_modified (FdwXactAtomicCommitParticipants w) = true ->
  2 <= nodes_written w ->
  exists w',
    PreCommit_FdwXacts w = (Raised err_no_atomic_commit_support, w')
    /\ sqlerrcode err_no_atomic_commit_support = ERRCODE_FEATURE_NOT_SUPPORTED
    /\ xlog w' = xlog w
    /\ xlog_flushed w' = xlog_flushed w
    /\ FdwXactCtl w' = FdwXactCtl w
    /\ fdw_xact_files w' = fdw_xact_files w
    /\ exists evs, trace w' = trace w ++ evs /\ Forall is_probe evs.
Proof.
  intros Hlvl Hmax Hres Hbit Hnc Hn.
  assert (Hreq : IsAtomicCommitRequested w = true).
  { unfold IsAtomicCommitRequested, IsAtomicCommitEnabled. rewrite Hlvl. simpl.
    apply Z.ltb_lt in Hmax, Hres. by rewrite Hmax, Hres. }
  destruct (FdwXactAtomicCommitRequired_spec w Hreq) as (w1 & _ & Hfr & Hflag & Hrun).
  specialize (Hflag Hbit Hnc). specialize (Hrun Hn).
  destruct Hfr as (Henv & Hctl & Hxlog & Hfl & Hfiles & Hdac & _ & _ & _ & _ & Htr).
  exists (with_FdwXactAtomicCommitReady true w1).
  split_and!; try done.
  unfold PreCommit_FdwXacts, bind at 1, get at 1.
  destruct (FdwXactAtomicCommitParticipants w) as [|p0 l] eqn:Hparts; [done|].
  unfold bind at 1. rewrite Hrun. unfold bind at 1, get at 1. simpl.
  rewrite Hdac, Hlvl, Henv, Hflag. done.
Qed.

Lemma C3_witness :
  exists w',
    PreCommit_FdwXacts ex_required_two = (Raised err_no_atomic_commit_support, w')
    /\ sqlerrcode err_no_atomic_commit_support = ERRCODE_FEATURE_NOT_SUPPORTED
    /\ xlog w' = xlog ex_required_two
    /\ xlog_flushed w' = xlog_flushed ex_required_two
    /\ FdwXactCtl w' = FdwXactCtl ex_required_two
    /\ fdw_xact_files w' = fdw_xact_files ex_required_two
    /\ exists evs, trace w' = trace ex_required_two ++ evs /\ Forall is_probe evs.
Proof.
  apply (C3_required_rejects ex_required_two).
  - reflexivity.
  - reflexivity.
  - reflexivity.
  - vm_compute. discriminate.
  - reflexivity.
  - vm_compute. discriminate.
Defined.

(** ** The 'prefer' policy *)

(** C4 fails on the code: [register_fdw_xact] creates every participant
    with [twophase_commit_enabled] set and the capability probe only ever
    sets it, so the test for a participant that cannot do two-phase commit
    is never met.  Here the participant on server 2, whose FDW answers that
    the server cannot do two-phase commit, is prepared in two phases next
    to the one on server 1: no participant is committed in one phase, two
    entries and two INSERT records are made. *)
Theorem C4_noncapable_participant_is_prepared :
  let r := PreCommit_FdwXacts ex_prefer_mixed in
  distributed_atomic_commit ex_prefer_mixed = DISTRIBUTED_ATOMIC_COMMIT_PREFER
  /\ flag_set (MyXactFlags ex_prefer_mixed)
       (XACT_FLAGS_WROTENONTEMPREL (env ex_prefer_mixed)) = false
  /\ map (fun fp => (fs_serverid (server fp), modified fp,
                     is_twophase_commit_enabled fp (fs_serverid (server fp)),
                     twophase_commit_enabled fp))
       (FdwXactAtomicCommitParticipants ex_prefer_mixed)
     = [(1, true, true, true); (2, true, false, true)]
  /\ r.1 = Done tt
  /\ trace r.2
     = [EvIsTwoPhaseCommitEnabled 1 true;
        EvIsTwoPhaseCommitEnabled 2 false;
        EvXLogInsert (XLOG_FDW_XACT_INSERT
                        (mkFdwXactOnDiskData 5 700 1 10 1001 "fx_42_700_1_10")) 2;
        EvXLogFlush 2;
        EvPrepare (mkFdwXactState 1 10 1001 (Some "fx_42_700_1_10"%string) NULLp) true;
        EvXLogInsert (XLOG_FDW_XACT_INSERT
                        (mkFdwXactOnDiskData 5 700 2 10 1002 "fx_42_700_2_10")) 3;
        EvXLogFlush 3;
        EvPrepare (mkFdwXactState 2 10 1002 (Some "fx_42_700_2_10"%string) NULLp) true]
  /\ map key_of (active_entries (FdwXactCtl r.2)) = [(5, 700, 1, 10); (5, 700, 2, 10)]
  /\ length (xlog r.2) = 2%nat.
Proof. vm_compute. done. Qed.

(** ** Persist first, then prepare *)

Lemma quiet_frame_refl w : quiet_frame w w.
Proof. by unfold quiet_frame. Qed.

Ltac close_quiet := first [ assumption | exact I ].
Ltac pres_quiet := repeat pres_step close_quiet.

Lemma quiet_choose_prepare_id w0 txid part :
  preserves (quiet_frame w0) (choose_prepare_id txid part).
Proof. pres_quiet. Qed.

Lemma blocks_persisted db xid evs :
  prepare_blocks db xid evs -> persisted_before_prepare db xid evs.
Proof.
  induction 1 as [|b evs (d & lsn & st0 & r0 & -> & Hk & Hid) _ IH];
    intros pre st r post Heq.
  - by destruct pre.
  - destruct pre as [|e1 [|e2 [|e3 pre]]]; simpl in Heq.
    + discriminate.
    + discriminate.
    + injection Heq as <- <- <- <- <-. exists [], d, lsn. done.
    + injection Heq as <- <- <- Heq.
      destruct (IH _ _ _ _ Heq) as (pre' & d' & lsn' & -> & Hk' & Hid').
      exists (EvXLogInsert (XLOG_FDW_XACT_INSERT d) lsn :: EvXLogFlush lsn
                :: EvPrepare st0 r0 :: pre'), d', lsn'. done.
Qed.

(** Reduction of the projections of the state only. *)
Ltac wsimpl :=
  cbn [env FdwXactCtl xlog xlog_flushed ProcLastRecPtr RecoveryInProgress
       fdw_xact_files MyBackendId MyDatabaseId TopTransactionId MyXactFlags
       delayChkpt FdwXactAtomicCommitParticipants FdwXactAtomicCommitReady
       random_calls max_prepared_foreign_xacts max_foreign_xact_resolvers
       distributed_atomic_commit trace
       with_FdwXactCtl with_xlog with_xlog_flushed with_fdw_xact_files
       with_MyXactFlags with_delayChkpt with_participants
       with_FdwXactAtomicCommitReady with_random_calls with_trace fst snd].

Lemma length_pool_update p f c : length (pool (update p f c)) = length (pool c).
Proof. unfold update. simpl. apply length_alter. Qed.

Lemma fdw_xacts_update p f c : fdw_xacts (update p f c) = fdw_xacts c.
Proof. done. Qed.

(** What [FdwXactInsertFdwXactEntry] leaves when the insertion into the
    table succeeds. *)
Lemma FdwXactInsertFdwXactEntry_done N xid i part id w :
  tab_inv N w ->
  let k := (MyDatabaseId w, xid, fs_serverid (server part),
            um_userid (usermapping part)) in
  let d := mkFdwXactOnDiskData (MyDatabaseId w) xid (fs_serverid (server part))
             (um_userid (usermapping part)) (um_umid (usermapping part)) id in
  let lsn := 1 + Z.of_nat (length (xlog w)) + 1 in
  match FdwXactInsertFdwXactEntry xid i part id w with
  | (Raised _, w') => w' = w
  | (Done fx, w') =>
      trace w' = trace w ++ [EvXLogInsert (XLOG_FDW_XACT_INSERT d) lsn; EvXLogFlush lsn]
      /\ MyDatabaseId w' = MyDatabaseId w
      /\ keeps N fx k w'
      /\ fdw_xact_id (deref (FdwXactCtl w') fx) = id
  end.
Proof.
  intros Ht k d lsn. unfold FdwXactInsertFdwXactEntry, bind at 1, get at 1. cbv zeta.
  unfold bind at 1.
  destruct (insert_fdw_xact _ _ _ _ _ _ w) as [[fx|e] w1] eqn:Hins;
    [|by apply insert_fdw_xact_raised in Hins].
  destruct Ht as [Hok Hlen].
  destruct (insert_fdw_xact_table_ok _ _ _ _ _ _ _ _ _ Hok Hins)
    as (Hok1 & Hl1 & Harr & Hnotin & Hk & Hother).
  assert (Hlt : (fx < length (pool (FdwXactCtl w1)))%nat).
  { destruct Hok1 as [Hpart _]. apply slots_partition_lt; [done|]. rewrite Harr. set_solver. }
  assert (Hid : fdw_xact_id (deref (FdwXactCtl w1) fx) = id).
  { rewrite insert_fdw_xact_run in Hins. simpl in Hins.
    destruct (existsb _ _); [done|]. destruct (freeFdwXacts _) as [|f0 rest]; [done|].
    injection Hins as -> <-. unfold deref in *. simpl in *.
    rewrite list_lookup_alter_eq.
    rewrite length_alter in Hlt.
    destruct (lookup_lt_is_Some_2 _ _ Hlt) as [x Hx]. by rewrite Hx. }
  assert (Hframe : trace w1 = trace w /\ xlog w1 = xlog w /\ xlog_flushed w1 = xlog_flushed w
                   /\ MyDatabaseId w1 = MyDatabaseId w).
  { rewrite insert_fdw_xact_run in Hins. simpl in Hins.
    destruct (existsb _ _); [done|]. destruct (freeFdwXacts _); [done|].
    by injection Hins as _ <-. }
  destruct Hframe as (Htr & Hxl & Hfl & Hdb).
  unfold bind at 1, modify at 1. unfold bind at 1, update_part at 1, modify at 1.
  unfold bind at 1, modify at 1. unfold bind at 1. unfold XLogInsert at 1.
  unfold bind at 1, get at 1. cbv zeta. unfold bind at 1, modify at 1.
  unfold bind at 1, emit at 1, modify at 1. unfold ret at 1.
  unfold bind at 1, modify at 1. unfold bind at 1. unfold XLogFlush at 1.
  unfold bind at 1, modify at 1. unfold emit at 1, modify at 1.
  unfold bind at 1, gets at 1. unfold bind at 1, modify at 1.
  unfold bind at 1, modify at 1. unfold bind at 1, modify at 1. unfold ret.
  wsimpl. rewrite Htr, Hxl, Hfl, Hdb. fold lsn d.
  split_and!.
  - by rewrite <- app_assoc.
  - done.
  - split.
    + split; wsimpl; [|by rewrite !length_pool_update, Hl1].
      repeat (apply table_ok_update; [by intros ?|]). exact Hok1.
    + unfold durable_at. wsimpl.
      rewrite !deref_update_eq by (by rewrite ?length_pool_update). simpl.
      split_and!.
      * rewrite Harr. set_solver.
      * exact Hk.
      * done.
      * exists (length (xlog w)), d. wsimpl. rewrite ?Hxl, ?Hfl. split_and!.
        -- by rewrite lookup_app_r, Nat.sub_diag.
        -- done.
        -- lia.
  - rewrite !deref_update_eq by (by rewrite ?length_pool_update). simpl. exact Hid.
Qed.

Lemma tab_inv_quiet N w w' : quiet_frame w w' -> tab_inv N w -> tab_inv N w'.
Proof. intros (_ & Hc & _) [? ?]. split; by rewrite Hc. Qed.

Lemma prepare_participant_spec N i part txid st w :
  tab_inv N w ->
  let db := MyDatabaseId w in
  let s := fs_serverid (server part) in
  let u := um_userid (usermapping part) in
  let out := prepare_participant i part txid st w in
  tab_inv N out.2
  /\ MyDatabaseId out.2 = db
  /\ ((trace out.2 = trace w /\ exists e, out.1 = Raised e)
      \/ exists d lsn st1 r fx,
           trace out.2
           = trace w ++ [EvXLogInsert (XLOG_FDW_XACT_INSERT d) lsn; EvXLogFlush lsn;
                         EvPrepare st1 r]
           /\ od_key d = (db, txid, s, u)
           /\ st_serverid st1 = s /\ st_userid st1 = u
           /\ fdwxact_id st1 = Some (od_fdw_xact_id d)
           /\ keeps N fx (db, txid, s, u) out.2
           /\ (r = false -> exists e, out.1 = Raised e)).
Proof.
  intros Ht db s u out.
  assert (Hout : out = prepare_participant i part txid st w) by done. clearbody out.
  unfold prepare_participant in Hout. unfold bind at 1 in Hout.
  pose proof (quiet_choose_prepare_id w txid part w (quiet_frame_refl w)) as Hq.
  destruct (choose_prepare_id txid part w) as [[id|e] wa]; simpl in Hq.
  2:{ pose proof (tab_inv_quiet N _ _ Hq Ht).
      destruct Hq as (Htr & _ & _ & _ & Hdb & _). subst out. simpl. split_and!;
        [done | exact Hdb | left; eauto]. }
  unfold bind at 1, update_part at 1, modify at 1 in Hout.
  set (wb := with_participants _ wa) in Hout.
  assert (Hqb : quiet_frame w wb) by exact Hq.
  pose proof (tab_inv_quiet N _ _ Hqb Ht) as Htb.
  destruct Hqb as (Htr & _ & _ & _ & Hdb & _).
  unfold bind at 1 in Hout.
  pose proof (FdwXactInsertFdwXactEntry_done N txid i part id wb Htb) as Hins.
  cbv zeta in Hins.
  destruct (FdwXactInsertFdwXactEntry txid i part id wb) as [[fx|e] wc].
  2:{ subst wc out. simpl. split_and!; [done | exact Hdb | left; eauto]. }
  destruct Hins as (Htrc & Hdbc & Hkeep & Hid).
  rewrite Hdb in Hkeep, Hdbc. fold db in Hkeep. rewrite Htr in Htrc.
  unfold bind at 1, gets at 1 in Hout. cbv zeta in Hout.
  set (st1 := mkFdwXactState _ _ _ _ _) in Hout.
  unfold bind at 1, emit at 1, modify at 1 in Hout.
  destruct (prepare_foreign_xact part st1) as [r st2] eqn:Hcall.
  cbn [fst snd] in Hout.
  destruct r; [change (negb true) with false in Hout | change (negb false) with true in Hout];
    cbv iota in Hout.
  - unfold bind at 1, update_part at 1, modify at 1 in Hout.
    unfold bind at 1, modify at 1 in Hout.
    unfold bind at 1, update_part at 1, modify at 1 in Hout.
    unfold ret in Hout. subst out. cbn [fst snd].
    assert (Hk2 : keeps N fx (db, txid, s, u)
              (with_FdwXactCtl (update fx (set_status FDW_XACT_PREPARED)) wc)).
    { apply keeps_update; [by intros ?|by intros ? ?|done]. }
    split_and!.
    + exact (proj1 Hk2).
    + exact Hdbc.
    + right. exists (mkFdwXactOnDiskData (MyDatabaseId wb) txid s u
                       (um_umid (usermapping part)) id),
        (1 + Z.of_nat (length (xlog wb)) + 1), st1, true, fx.
      split_and!; try done.
      * wsimpl. rewrite Htrc, <- app_assoc. reflexivity.
      * unfold od_key. cbn [od_dbid od_local_xid od_serverid od_userid]. by rewrite Hdb.
      * simpl. by rewrite Hid.
  - unfold raise in Hout. subst out. cbn [fst snd].
    split_and!.
    + exact (proj1 Hkeep).
    + exact Hdbc.
    + right. exists (mkFdwXactOnDiskData (MyDatabaseId wb) txid s u
                       (um_umid (usermapping part)) id),
        (1 + Z.of_nat (length (xlog wb)) + 1), st1, false, fx.
      split_and!; try done.
      * wsimpl. rewrite Htrc, <- app_assoc. reflexivity.
      * unfold od_key. cbn [od_dbid od_local_xid od_serverid od_userid]. by rewrite Hdb.
      * simpl. by rewrite Hid.
      * eauto.
Qed.

Lemma prepare_block_intro db xid d lsn st r :
  od_key d = (db, xid, st_serverid st, st_userid st) ->
  fdwxact_id st = Some (od_fdw_xact_id d) ->
  prepare_block db xid
    [EvXLogInsert (XLOG_FDW_XACT_INSERT d) lsn; EvXLogFlush lsn; EvPrepare st r].
Proof. intros. exists d, lsn, st, r. done. Qed.

Lemma prepare_participants_spec N txid todo : forall i st w,
  tab_inv N w ->
  let db := MyDatabaseId w in
  let out := prepare_participants todo i txid st w in
  tab_inv N out.2
  /\ exists evs,
       trace out.2 = trace w ++ evs
       /\ prepare_blocks db txid evs
       /\ forall stx r, EvPrepare stx r ∈ evs ->
            exists p, durable_at out.2 p (db, txid, st_serverid stx, st_userid stx).
Proof.
  induction todo as [|todo IH]; intros i st w Ht db out.
  - subst out. simpl. split; [done|]. exists []. rewrite app_nil_r.
    split_and!; [done | constructor | by intros ? ? ?%elem_of_nil].
  - assert (Hout : out = prepare_participants (S todo) i txid st w) by done. clearbody out.
    simpl in Hout. unfold bind at 1, get at 1 in Hout.
    destruct (FdwXactAtomicCommitParticipants w !! i) as [part|].
    2:{ subst out. simpl. split; [done|]. exists []. rewrite app_nil_r.
        split_and!; [done | constructor | by intros ? ? ?%elem_of_nil]. }
    unfold bind at 1 in Hout.
    pose proof (prepare_participant_spec N i part txid st w Ht) as Hone.
    cbv zeta in Hone. fold db in Hone.
    destruct (prepare_participant i part txid st w) as [[st'|e] w1];
      cbn [fst snd] in Hone; destruct Hone as (Ht1 & Hdb1 & Hcases).
    + (* the participant is prepared; the loop goes on *)
      specialize (IH (S i) st' w1 Ht1). cbv zeta in IH. rewrite Hdb1 in IH.
      rewrite <- Hout in IH. destruct IH as (Hto & evs2 & Htr2 & Hbl2 & Hdur2).
      split; [done|].
      destruct Hcases as [[_ [e He]]|(d & lsn & st1 & r & fx & Htr1 & Hk & Hs & Hu & Hid & Hkeep & Hr)];
        [done|].
      exists ([EvXLogInsert (XLOG_FDW_XACT_INSERT d) lsn; EvXLogFlush lsn; EvPrepare st1 r]
                ++ evs2).
      split_and!.
      * rewrite Htr2, Htr1, <- app_assoc. done.
      * apply (prepare_blocks_cons _ _ [_; _; _] evs2); [|done].
        apply prepare_block_intro; [by rewrite Hs, Hu | done].
      * intros stx rx Hin. apply elem_of_app in Hin as [Hin|Hin]; [|exact (Hdur2 _ _ Hin)].
        assert (stx = st1) as ->.
        { apply elem_of_cons in Hin as [?|Hin]; [done|].
          apply elem_of_cons in Hin as [?|Hin]; [done|].
          apply list_elem_of_singleton in Hin. congruence. }
        rewrite Hs, Hu. exists fx.
        pose proof (keeps_prepare_participants N fx _ txid todo (S i) st' w1 Hkeep) as Hk2.
        rewrite <- Hout in Hk2. exact (proj2 Hk2).
    + (* the turn ended with an error; the loop stops *)
      subst out. cbn [fst snd]. split; [done|].
      destruct Hcases as [[Htr _]|(d & lsn & st1 & r & fx & Htr1 & Hk & Hs & Hu & Hid & Hkeep & Hr)].
      * exists []. rewrite app_nil_r.
        split_and!; [done | constructor | by intros ? ? ?%elem_of_nil].
      * exists [EvXLogInsert (XLOG_FDW_XACT_INSERT d) lsn; EvXLogFlush lsn; EvPrepare st1 r].
        split_and!; [done| |].
        -- rewrite <- (app_nil_r [_; _; _]).
           apply (prepare_blocks_cons _ _ [_; _; _] []); [|constructor].
           apply prepare_block_intro; [by rewrite Hs, Hu | done].
        -- intros stx rx Hin.
           assert (stx = st1) as ->.
           { apply elem_of_cons in Hin as [?|Hin]; [done|].
             apply elem_of_cons in Hin as [?|Hin]; [done|].
             apply list_elem_of_singleton in Hin. congruence. }
           rewrite Hs, Hu. exists fx. exact (proj2 Hkeep).
Qed.

Lemma FdwXactPrepareForeignTransactions_spec N w :
  tab_inv N w ->
  let db := MyDatabaseId w in
  let xid := TopTransactionId w in
  let out := FdwXactPrepareForeignTransactions w in
  tab_inv N out.2
  /\ exists evs,
       trace out.2 = trace w ++ evs
       /\ prepare_blocks db xid evs
       /\ forall stx r, EvPrepare stx r ∈ evs ->
            exists p, durable_at out.2 p (db, xid, st_serverid stx, st_userid stx).
Proof.
  intros Ht db xid out.
  assert (Hnone : tab_inv N w /\ exists evs, trace w = trace w ++ evs
            /\ prepare_blocks db xid evs
            /\ forall stx r, EvPrepare stx r ∈ evs ->
                 exists p, durable_at w p (db, xid, st_serverid stx, st_userid stx)).
  { split; [done|]. exists []. rewrite app_nil_r.
    split_and!; [done | constructor | by intros ? ? ?%elem_of_nil]. }
  subst out. unfold FdwXactPrepareForeignTransactions, bind, get.
  destruct (FdwXactAtomicCommitParticipants w) as [|p0 l] eqn:Hparts; [exact Hnone|].
  destruct (max_prepared_foreign_xacts w =? 0); [exact Hnone|].
  destruct (max_foreign_xact_resolvers w =? 0); [exact Hnone|].
  apply (prepare_participants_spec N xid _ 0%nat create_fdw_xact_state w Ht).
Qed.

Lemma determine_fate_trace p w : trace (determine_fate p w).2 = trace w.
Proof.
  unfold determine_fate, bind, get, modify, ret, raise. cbv zeta.
  repeat match goal with
  | |- context [if ?b then _ else _] => destruct b
  end; reflexivity.
Qed.

Lemma resolve_done_trace st q lvl w r w' :
  FdwXactResolveForeignTransaction st q lvl w = (Done r, w') ->
  exists c rest, trace w' = trace w ++ EvResolve st c r.1 :: rest.
Proof.
  rewrite resolve_run.
  pose proof (determine_fate_trace q w) as Htr.
  destruct (determine_fate q w) as [[c|e1] w1]; cbn [fst snd] in *; [|done].
  cbv zeta.
  assert (Htail : forall w2 evs, trace w2 = trace w ++ EvResolve st c
                      (ResolveForeignTransaction
                         (GetFdwRoutineByServerId (env w1)
                            (serverid (deref (FdwXactCtl w1) q))) st c).1 :: evs ->
            (run remove_resolved_entry q ;;
             ret (ResolveForeignTransaction
                    (GetFdwRoutineByServerId (env w1)
                       (serverid (deref (FdwXactCtl w1) q))) st c)) w2 = (Done r, w') ->
            exists c0 rest, trace w' = trace w ++ EvResolve st c0 r.1 :: rest).
  { intros w2 evs Hw2. unfold bind.
    assert (Hpre : trace_from (trace w2) (remove_resolved_entry q w2).2).
    { assert (Hm : preserves (trace_from (trace w2)) (remove_resolved_entry q))
        by pres_trace.
      apply Hm. by unfold trace_from. }
    destruct (remove_resolved_entry q w2) as [[[]|?] w3]; cbn [fst snd] in *; [|done].
    intros [= <- <-]. destruct Hpre as [rest' ->]. rewrite Hw2.
    exists c, (evs ++ rest'). by rewrite <- !app_assoc. }
  destruct (ResolveForeignTransaction _ st c).1 eqn:Hcb.
  - apply (Htail _ []). simpl. by rewrite Htr.
  - destruct lvl; try done.
    + apply (Htail _ [EvReport DEBUG2 (err_could_not_resolve c)]). simpl.
      by rewrite Htr, <- app_assoc.
    + apply (Htail _ [EvReport LOG (err_could_not_resolve c)]). simpl.
      by rewrite Htr, <- app_assoc.
    + apply (Htail _ [EvReport WARNING (err_could_not_resolve c)]). simpl.
      by rewrite Htr, <- app_assoc.
Qed.

Lemma keeps_resolve_raised_any N p k st q lvl w e w' :
  keeps N p k w ->
  FdwXactResolveForeignTransaction st q lvl w = (Raised e, w') ->
  keeps N p k w'.
Proof.
  intros Hw. rewrite resolve_run.
  pose proof (keeps_determine_fate N p k q w Hw) as H1.
  destruct (determine_fate q w) as [[c|e1] w1]; cbn [fst snd] in *; [|by intros [= _ <-]].
  cbv zeta.
  assert (Htail : forall w2 (r0 : bool * FdwXactState), keeps N p k w2 ->
            (run remove_resolved_entry q ;; ret r0) w2 = (Raised e, w') -> keeps N p k w').
  { intros w2 r0 H2. unfold bind.
    destruct (decide (q = p)) as [->|Hne].
    - destruct H2 as [Ht (Hin & _)].
      destruct (remove_resolved_entry_done p w2 Hin) as [w4 ->]. done.
    - pose proof (keeps_remove_resolved_entry_ne N p k q Hne w2 H2) as Hrm.
      destruct (remove_resolved_entry q w2) as [[[]|?] ?]; cbn [fst snd] in *; [done|].
      by intros [= _ <-]. }
  destruct (ResolveForeignTransaction _ st c).1.
  - apply Htail. by apply keeps_trace.
  - destruct lvl.
    + apply Htail. by apply keeps_trace, keeps_trace.
    + apply Htail. by apply keeps_trace, keeps_trace.
    + apply Htail. by apply keeps_trace, keeps_trace.
    + intros [= _ <-]. by apply keeps_trace.
Qed.

Lemma keeps_or_allowed_removal N p k op w :
  keeps N p k w ->
  entry_point op ->
  ~ failed_pg_resolve op w p ->
  keeps N p k (run_op op w).2 \/ allowed_removal op w p.
Proof.
  intros Hw Hentry Hnot.
  destruct (decide (removal_target op w = Some p)) as [Htarget|Htarget];
    [|left; by apply keeps_run_op].
  destruct op; simpl in Htarget; try discriminate Htarget; try done.
  - (* the Resolver on the entry *)
    injection Htarget as ->.
    unfold allowed_removal, resolved_in, run_op.
    set (st := mkFdwXactState (serverid (deref (FdwXactCtl w) p))
                 (userid (deref (FdwXactCtl w) p)) (umid (deref (FdwXactCtl w) p))
                 (Some (fdw_xact_id (deref (FdwXactCtl w) p))) NULLp).
    assert (Heq : resolver_resolve_entry p w
                  = match FdwXactResolveForeignTransaction st p ERROR w with
                    | (Done _, w') => (Done tt, w')
                    | (Raised e, w') => (Raised e, w')
                    end).
    { unfold resolver_resolve_entry, bind, gets. cbn [fst snd]. fold st.
      by destruct (FdwXactResolveForeignTransaction st p ERROR w) as [[?|?] ?]. }
    rewrite Heq. clear Heq.
    destruct (FdwXactResolveForeignTransaction st p ERROR w) as [[r|e] w'] eqn:Hrun;
      cbn [fst snd].
    + right. split; [done|].
      destruct (resolve_done_success _ _ _ _ _ Hrun) as [Hr _].
      destruct (resolve_done_trace _ _ _ _ _ _ Hrun) as (c & rest & Htr).
      rewrite Hr in Htr. exists (EvResolve st c true :: rest), st, c.
      split; [exact Htr | by left].
    + left. by eapply keeps_resolve_raised.
  - (* pg_resolve_fdw_xact on the entry *)
    unfold allowed_removal, resolved_in, failed_pg_resolve in *.
    unfold run_op. rewrite !bind_ret_snd.
    destruct (superuser (env w)) eqn:Hsu.
    2:{ left.
        assert (Hraise : pg_resolve_fdw_xact xid s u w
                         = (Raised err_must_be_superuser_resolve, w)).
        { unfold pg_resolve_fdw_xact, bind, get. cbn [fst snd]. by rewrite Hsu. }
        by rewrite Hraise. }
    set (st := mkFdwXactState s u (um_umid (GetUserMapping (env w) u s)) None NULLp).
    assert (Heq : pg_resolve_fdw_xact xid s u w
                  = match FdwXactResolveForeignTransaction st p LOG w with
                    | (Done r, w') => (Done r.1, w')
                    | (Raised e, w') => (Raised e, w')
                    end).
    { unfold pg_resolve_fdw_xact, bind, get. cbn [fst snd].
      rewrite Hsu, Htarget. cbn [negb]. fold st.
      by destruct (FdwXactResolveForeignTransaction st p LOG w) as [[?|?] ?]. }
    rewrite Heq in Hnot |- *. clear Heq.
    destruct (FdwXactResolveForeignTransaction st p LOG w) as [[r|e] w'] eqn:Hrun;
      cbn [fst snd] in *.
    + right. split; [done|].
      destruct (resolve_done_trace _ _ _ _ _ _ Hrun) as (c & rest & Htr).
      destruct r.1 eqn:Hr.
      * exists (EvResolve st c true :: rest), st, c. split; [exact Htr | by left].
      * exfalso. apply Hnot. done.
    + left. by eapply keeps_resolve_raised_any.
  - (* pg_remove_fdw_xact on the entry *)
    right. exact Htarget.
  - (* replay of a REMOVE record for the entry *)
    destruct rec; try discriminate Htarget. right. exact Htarget.
Qed.

(** C1, as stated, fails: the entry does not stay until the Resolver records
    a successful resolution, because an operator may forget it before.
    After both participants are prepared, [pg_remove_fdw_xact] takes the
    entry of server 1 out of the table; no resolve callback has run. *)
Lemma C1_counterexample :
  let w := ex_two_prepared in
  let out := pg_remove_fdw_xact 700 1 10 w in
  EvPrepare (mkFdwXactState 1 10 1001 (Some "fx_42_700_1_10"%string) NULLp) true ∈ trace w
  /\ durable_at w 7%nat (5, 700, 1, 10)
  /\ out.1 = Done tt
  /\ ~ has_entry (FdwXactCtl out.2) (5, 700, 1, 10)
  /\ Forall (fun ev => match ev with EvResolve _ _ _ => False | _ => True end)
       (trace out.2).
Proof.
  split_and!.
  - vm_compute. set_solver.
  - split_and!; [vm_compute; set_solver | vm_compute; reflexivity | vm_compute; reflexivity |].
    exists 0%nat, (mkFdwXactOnDiskData 5 700 1 10 1001 "fx_42_700_1_10").
    split_and!; [vm_compute; reflexivity | reflexivity | vm_compute; discriminate].
  - vm_compute. reflexivity.
  - intros (p & Hp & Hk). vm_compute in Hp.
    apply list_elem_of_In in Hp. destruct Hp as [<-|[]]. vm_compute in Hk. discriminate.
  - vm_compute. repeat constructor.
Qed.

(** C1, amended.  [FdwXactPrepareForeignTransactions] calls the prepare
    callback of a participant only directly after it has inserted and
    flushed the INSERT record of the entry of that participant; when the
    function is left, for every participant whose prepare callback was
    called (whatever it returned) the entry is in the table, valid, with
    its INSERT record below the flush pointer.  From then on every entry
    point of the manager either keeps the entry so, or takes it out of the
    table in one of three ways: a resolution of it that reports success
    (the Resolver's or the one of [pg_resolve_fdw_xact]), a call of
    [pg_remove_fdw_xact] on it, or the replay of a REMOVE record for its
    key.  Left out is the call of [pg_resolve_fdw_xact] on the entry that
    returns false.  The Resolver working on the entry removes it only when
    the resolve callback reported success, a failed attempt leaves it. *)
Theorem C1_persist_then_prepare_and_keep (N : nat) (w : World) :
  tab_inv N w ->
  let db := MyDatabaseId w in
  let xid := TopTransactionId w in
  let w' := (FdwXactPrepareForeignTransactions w).2 in
  exists evs,
    trace w' = trace w ++ evs
    /\ persisted_before_prepare db xid evs
    /\ forall st r, EvPrepare st r ∈ evs ->
         exists p,
           keeps N p (db, xid, st_serverid st, st_userid st) w'
           /\ (forall op w1,
                 keeps N p (db, xid, st_serverid st, st_userid st) w1 ->
                 entry_point op ->
                 ~ failed_pg_resolve op w1 p ->
                 keeps N p (db, xid, st_serverid st, st_userid st) (run_op op w1).2
                 \/ allowed_removal op w1 p)
           /\ (forall w1,
                 keeps N p (db, xid, st_serverid st, st_userid st) w1 ->
                 match resolver_resolve_entry p w1 with
                 | (Raised _, w2) =>
                     keeps N p (db, xid, st_serverid st, st_userid st) w2
                 | (Done _, w2) => exists st' c, EvResolve st' c true ∈ trace w2
                 end).
Proof.
  intros Ht db xid w'.
  destruct (FdwXactPrepareForeignTransactions_spec N w Ht) as (Ht' & evs & Htr & Hbl & Hdur).
  exists evs. split_and!; [done | by apply blocks_persisted |].
  intros st r Hin. destruct (Hdur st r Hin) as [p Hp].
  exists p. split_and!.
  - by split.
  - intros op w1. apply keeps_or_allowed_removal.
  - intros w1. apply keeps_resolver_same.
Qed.

Lemma C1_witness :
  let w := run_ops [OpRegister 1 10 true; OpRegister 4 10 true]
             (ex_world 8 DISTRIBUTED_ATOMIC_COMMIT_PREFER) in
  exists evs,
    trace (FdwXactPrepareForeignTransactions w).2 = trace w ++ evs
    /\ persisted_before_prepare 5 700 evs.
Proof.
  intros w.
  destruct (C1_persist_then_prepare_and_keep 8 w) as (evs & Htr & Hord & _).
  - exact (tab_inv_reachable (ex_boot 8 DISTRIBUTED_ATOMIC_COMMIT_PREFER)
             [OpRegister 1 10 true; OpRegister 4 10 true]).
  - exists evs. split; assumption.
Defined.

(** * Further properties

    Properties of functions that the statements above do not reach: the
    names of the state files, the check hook, the lookups, registration,
    the end of the transaction, the oldest unresolved transaction, the
    resolution of single and of dangling entries, removal by the operator
    and the checkpoint. *)

(** ** Names of the state files *)

Lemma hex_value_hex_char d : 0 <= d < 16 -> hex_value (hex_char d) = Some d.
Proof.
  intros H.
  assert (Hd : d = 0 \/ d = 1 \/ d = 2 \/ d = 3 \/ d = 4 \/ d = 5 \/ d = 6 \/ d = 7 \/
               d = 8 \/ d = 9 \/ d = 10 \/ d = 11 \/ d = 12 \/ d = 13 \/ d = 14 \/ d = 15) by lia.
  repeat (destruct Hd as [-> | Hd]; [reflexivity |]). subst; reflexivity.
Qed.

Lemma hex_char_accepted d :
  0 <= d < 16 ->
  existsb (Ascii.eqb (hex_char d)) (list_ascii_of_string "0123456789ABCDEF_") = true.
Proof.
  intros H.
  assert (Hd : d = 0 \/ d = 1 \/ d = 2 \/ d = 3 \/ d = 4 \/ d = 5 \/ d = 6 \/ d = 7 \/
               d = 8 \/ d = 9 \/ d = 10 \/ d = 11 \/ d = 12 \/ d = 13 \/ d = 14 \/ d = 15) by lia.
  repeat (destruct Hd as [-> | Hd]; [reflexivity |]). subst; reflexivity.
Qed.

Lemma hex_char_not_underscore d : 0 <= d < 16 -> hex_value "_" = None.
Proof. reflexivity. Qed.

Lemma digit_range m k : 0 <= m / 16 ^ k mod 16 < 16.
Proof. apply Z.mod_pos_bound. lia. Qed.


Lemma hex_horner z :
  0 <= z < 2 ^ 32 ->
  (((((((0 * 16 + z / 16 ^ 7 mod 16) * 16 + z / 16 ^ 6 mod 16) * 16
        + z / 16 ^ 5 mod 16) * 16 + z / 16 ^ 4 mod 16) * 16
      + z / 16 ^ 3 mod 16) * 16 + z / 16 ^ 2 mod 16) * 16
    + z / 16 ^ 1 mod 16) * 16 + z / 16 ^ 0 mod 16 = z.
Proof.
  intros Hz.
  change (16 ^ 7) with 268435456. change (16 ^ 6) with 16777216.
  change (16 ^ 5) with 1048576. change (16 ^ 4) with 65536.
  change (16 ^ 3) with 4096. change (16 ^ 2) with 256.
  change (16 ^ 1) with 16. change (16 ^ 0) with 1.
  change (2 ^ 32) with 4294967296 in Hz.
  Z.div_mod_to_equations. lia.
Qed.

Lemma scan_fmt_08X z rest :
  0 <= z < 2 ^ 32 ->
  scan_08x (fmt_08X z +:+ rest) = Some (z, rest).
Proof.
  intros Hz. unfold fmt_08X. rewrite Z.mod_small by lia.
  cbn [map string_of_list_ascii]. unfold scan_08x.
  unfold String.app; cbn [append].
  rewrite hex_value_hex_char by apply digit_range.
  cbn [scan_hex_digits].
  rewrite !hex_value_hex_char by apply digit_range.
  by rewrite hex_horner.
Qed.

Lemma app_assoc_str (a b c : string) : (a +:+ b) +:+ c = a +:+ (b +:+ c).
Proof. unfold String.app. induction a; cbn; congruence. Qed.

Lemma strspn_fmt_08X z rest :
  strspn (fmt_08X z +:+ rest) "0123456789ABCDEF_"
  = (8 + strspn rest "0123456789ABCDEF_")%nat.
Proof.
  unfold fmt_08X. cbn [map string_of_list_ascii].
  unfold String.app; cbn [append strspn].
  by rewrite !hex_char_accepted by apply digit_range.
Qed.

Lemma length_fmt_08X z rest :
  String.length (fmt_08X z +:+ rest) = (8 + String.length rest)%nat.
Proof. reflexivity. Qed.


Lemma strspn_underscore rest :
  strspn ("_" +:+ rest) "0123456789ABCDEF_" = S (strspn rest "0123456789ABCDEF_").
Proof. reflexivity. Qed.

Lemma length_underscore rest : String.length ("_" +:+ rest) = S (String.length rest).
Proof. reflexivity. Qed.

Lemma scan_underscore_ok rest : scan_underscore ("_" +:+ rest) = Some rest.
Proof. reflexivity. Qed.

Lemma app_nil_r_str s : s +:+ EmptyString = s.
Proof. unfold String.app. induction s; cbn; congruence. Qed.

(** X12. The name [FdwXactFilePath] gives to the state file of a key of
    four 32-bit values passes the test that the directory scans apply to a
    name, and reading it with four [%08x] gives the same key back. *)
Theorem file_name_round_trip (d : Oid) (xid : TransactionId) (s u : Oid) :
  0 <= d < 2 ^ 32 -> 0 <= xid < 2 ^ 32 -> 0 <= s < 2 ^ 32 -> 0 <= u < 2 ^ 32 ->
  is_fdw_xact_file_name (FdwXactFileName (d, xid, s, u)) = true
  /\ scan_fdw_xact_file_name (FdwXactFileName (d, xid, s, u)) = Some (d, xid, s, u).
Proof.
  intros Hd Hx Hs Hu. unfold FdwXactFileName. cbn [fst snd].
  rewrite <- (app_nil_r_str (fmt_08X u)). split.
  - unfold is_fdw_xact_file_name.
    by rewrite !length_fmt_08X, !strspn_fmt_08X, !length_underscore, !strspn_underscore,
      !length_fmt_08X, !strspn_fmt_08X, !length_underscore, !strspn_underscore,
      !length_fmt_08X, !strspn_fmt_08X, !length_underscore, !strspn_underscore,
      !length_fmt_08X, !strspn_fmt_08X.
  - unfold scan_fdw_xact_file_name.
    by rewrite !scan_fmt_08X, !scan_underscore_ok, !scan_fmt_08X, !scan_underscore_ok,
      !scan_fmt_08X, !scan_underscore_ok, !scan_fmt_08X by done.
Qed.

Lemma file_name_round_trip_witness :
  is_fdw_xact_file_name (FdwXactFileName (5, 700, 1, 10)) = true
  /\ scan_fdw_xact_file_name (FdwXactFileName (5, 700, 1, 10)) = Some (5, 700, 1, 10).
Proof. apply file_name_round_trip; vm_compute; split; congruence. Defined.

(** ** The check hook *)

(** X1. [check_distributed_atomic_commit], with neither parameter negative,
    accepts a level exactly when the level is 'disabled' or both
    [max_prepared_foreign_xacts] and [max_foreign_xact_resolvers] are
    positive; and under a level the hook accepted, atomic commit is
    requested exactly when the level is not 'disabled'. *)
Theorem check_hook_accepts_iff_disabled_or_enabled (newval : DistributedAtomicCommitLevel) (w : World) :
  0 <= max_prepared_foreign_xacts w -> 0 <= max_foreign_xact_resolvers w ->
  (check_distributed_atomic_commit newval w = true
   <-> newval = DISTRIBUTED_ATOMIC_COMMIT_DISABLED \/ IsAtomicCommitEnabled w = true)
  /\ (distributed_atomic_commit w = newval ->
      check_distributed_atomic_commit newval w = true ->
      IsAtomicCommitRequested w
      = negb (bool_decide (newval = DISTRIBUTED_ATOMIC_COMMIT_DISABLED))).
Proof.
  intros Hp Hr. unfold check_distributed_atomic_commit, IsAtomicCommitRequested,
    IsAtomicCommitEnabled.
  split.
  - destruct newval; simpl;
      destruct (max_prepared_foreign_xacts w =? 0) eqn:E1;
      destruct (max_foreign_xact_resolvers w =? 0) eqn:E2; simpl;
      destruct (0 <? max_prepared_foreign_xacts w) eqn:E3;
      destruct (0 <? max_foreign_xact_resolvers w) eqn:E4; simpl;
      try (split; [intros; try discriminate; auto | intros [?|?]; try discriminate; auto]);
      lia.
  - intros ->. destruct newval; simpl;
      destruct (max_prepared_foreign_xacts w =? 0) eqn:E1;
      destruct (max_foreign_xact_resolvers w =? 0) eqn:E2; simpl;
      destruct (0 <? max_prepared_foreign_xacts w) eqn:E3;
      destruct (0 <? max_foreign_xact_resolvers w) eqn:E4; simpl;
      intros; try discriminate; try reflexivity; lia.
Qed.

Lemma check_hook_accepts_iff_disabled_or_enabled_witness :
  check_distributed_atomic_commit DISTRIBUTED_ATOMIC_COMMIT_REQUIRED
    (ex_boot 0 DISTRIBUTED_ATOMIC_COMMIT_DISABLED) = true
  <-> DISTRIBUTED_ATOMIC_COMMIT_REQUIRED = DISTRIBUTED_ATOMIC_COMMIT_DISABLED
      \/ IsAtomicCommitEnabled (ex_boot 0 DISTRIBUTED_ATOMIC_COMMIT_DISABLED) = true.
Proof.
  refine (proj1 (check_hook_accepts_iff_disabled_or_enabled DISTRIBUTED_ATOMIC_COMMIT_REQUIRED
                   (ex_boot 0 DISTRIBUTED_ATOMIC_COMMIT_DISABLED) _ _)).
  - vm_compute. discriminate.
  - vm_compute. discriminate.
Defined.

(** ** Lookup *)

Lemma remove_fdw_xact_array p w w' :
  remove_fdw_xact p w = (Done tt, w') ->
  let arr := fdw_xacts (FdwXactCtl w) in
  (search_slot p arr < length arr)%nat
  /\ fdw_xacts (FdwXactCtl w')
     = take (length arr - 1) (<[search_slot p arr := default p (last arr)]> arr)
  /\ freeFdwXacts (FdwXactCtl w') = p :: freeFdwXacts (FdwXactCtl w)
  /\ pool (FdwXactCtl w') = alter reset_entry p (pool (FdwXactCtl w)).
Proof.
  intros Hrun. cbv zeta. set (arr := fdw_xacts (FdwXactCtl w)).
  destruct (decide (p ∈ fdw_xacts (FdwXactCtl w))) as [Hin|Hnot];
    [|rewrite remove_fdw_xact_absent in Hrun by done; discriminate].
  pose proof (search_slot_found _ _ Hin) as Hlt. split; [exact Hlt|].
  revert Hrun. unfold remove_fdw_xact, bind, gets, raise. simpl.
  destruct (decide _) as [Hge|_]; [unfold numFdwXacts in Hge; lia|].
  unfold numFdwXacts. fold arr.
  destruct (lookup_lt_is_Some_2 arr (length arr - 1)) as [q Hq]; [subst arr; lia|].
  rewrite Hq.
  assert (Hlast : last arr = Some q).
  { rewrite last_lookup. rewrite <- Hq. f_equal. lia. }
  rewrite Hlast. simpl.
  destruct (RecoveryInProgress w) eqn:Hrec.
  - intros [= <-]. simpl. done.
  - intros [= <-]. simpl. done.
Qed.

Lemma filter_nomatch {A} (f : A -> bool) l :
  existsb f l = false -> List.filter f l = [].
Proof.
  induction l as [|a l IH]; simpl; [done|].
  destruct (f a); simpl; [done|]. auto.
Qed.

(** X2. After [insert_fdw_xact] has returned the entry [p] for a key whose
    four parts are valid, the lookups by that key find [p] and only [p]:
    [get_fdw_xacts] gives the one-element list, [get_one_fdw_xact] gives
    [p], [fdw_xact_exists] holds; and the entry carries the identifier and
    the user mapping that were passed. *)
Theorem insert_then_lookup (N : nat) (d : Oid) (xid : TransactionId) (s u um : Oid)
    (id : string) (w w' : World) (p : FdwXact) :
  tab_inv N w ->
  d <> InvalidOid -> xid <> InvalidTransactionId -> s <> InvalidOid -> u <> InvalidOid ->
  insert_fdw_xact d xid s u um id w = (Done p, w') ->
  get_fdw_xacts d xid s u (FdwXactCtl w') = [p]
  /\ get_one_fdw_xact d xid s u (FdwXactCtl w') = Some p
  /\ fdw_xact_exists d xid s u (FdwXactCtl w') = true
  /\ fdw_xact_id (deref (FdwXactCtl w') p) = id
  /\ umid (deref (FdwXactCtl w') p) = um.
Proof.
  intros [Hok HN] Hd Hx Hs Hu Hrun.
  destruct (insert_fdw_xact_table_ok _ _ _ _ _ _ _ _ _ Hok Hrun)
    as (Hok' & Hlen & Harr & Hfresh & Hkey & Hother).
  assert (Hget : get_fdw_xacts d xid s u (FdwXactCtl w') = [p]).
  { unfold get_fdw_xacts. rewrite Harr, List.filter_app. simpl.
    assert (Hm : fdw_xact_matches d xid s u (deref (FdwXactCtl w') p) = true)
      by (by apply fdw_xact_matches_valid).
    rewrite Hm.
    rewrite filter_nomatch; [done|].
    apply not_true_is_false. intros (q & Hq & Hmq)%existsb_exists.
    apply list_elem_of_In in Hq.
    assert (q <> p) by (intros ->; done).
    rewrite Hother in Hmq by done.
    apply fdw_xact_matches_valid in Hmq; try done.
    rewrite insert_fdw_xact_run in Hrun. cbv zeta in Hrun.
    destruct (existsb _ _) eqn:Hex in Hrun; [discriminate|].
    apply not_true_iff_false in Hex. apply Hex.
    apply existsb_exists. exists q. split; [by apply list_elem_of_In|].
    apply key_matches_spec. done. }
  unfold get_one_fdw_xact, fdw_xact_exists. rewrite Hget. split_and!; try done.
  - rewrite insert_fdw_xact_run in Hrun. cbv zeta in Hrun.
    destruct (existsb _ _); [discriminate|].
    destruct (freeFdwXacts (FdwXactCtl w)) as [|fx rest] eqn:Hfree; [discriminate|].
    injection Hrun as <- <-. simpl. unfold deref. simpl.
    assert (fx < length (pool (FdwXactCtl w)))%nat as Hlt.
    { apply (slots_partition_lt _ _ (proj1 Hok)). rewrite Hfree. set_solver. }
    destruct (lookup_lt_is_Some_2 _ _ Hlt) as [x Hx'].
    by rewrite list_lookup_alter_eq, Hx'.
  - rewrite insert_fdw_xact_run in Hrun. cbv zeta in Hrun.
    destruct (existsb _ _); [discriminate|].
    destruct (freeFdwXacts (FdwXactCtl w)) as [|fx rest] eqn:Hfree; [discriminate|].
    injection Hrun as <- <-. simpl. unfold deref. simpl.
    assert (fx < length (pool (FdwXactCtl w)))%nat as Hlt.
    { apply (slots_partition_lt _ _ (proj1 Hok)). rewrite Hfree. set_solver. }
    destruct (lookup_lt_is_Some_2 _ _ Hlt) as [x Hx'].
    by rewrite list_lookup_alter_eq, Hx'.
Qed.

Lemma insert_then_lookup_witness :
  get_fdw_xacts 5 700 1 10
    (FdwXactCtl (insert_fdw_xact 5 700 1 10 1001 "fx" (ex_world 2 DISTRIBUTED_ATOMIC_COMMIT_PREFER)).2)
  = [1%nat].
Proof.
  refine (proj1 (insert_then_lookup 2 5 700 1 10 1001 "fx"
            (ex_world 2 DISTRIBUTED_ATOMIC_COMMIT_PREFER) _ 1%nat _ _ _ _ _ _)).
  - exact (tab_inv_reachable (ex_boot 2 DISTRIBUTED_ATOMIC_COMMIT_PREFER) []).
  - vm_compute; congruence.
  - vm_compute; congruence.
  - vm_compute; congruence.
  - vm_compute; congruence.
  - reflexivity.
Defined.

(** X3. [remove_fdw_xact] undoes [insert_fdw_xact]: removing the entry
    just inserted succeeds and gives back the active array and the free
    list as they were before the insert; every other struct is untouched,
    the struct itself is in status INITIAL, and the table invariant holds. *)
Theorem insert_remove_round_trip (N : nat) (d : Oid) (xid : TransactionId)
    (s u um : Oid) (id : string) (w w1 : World) (p : FdwXact) :
  tab_inv N w ->
  insert_fdw_xact d xid s u um id w = (Done p, w1) ->
  exists w2,
    remove_fdw_xact p w1 = (Done tt, w2)
    /\ fdw_xacts (FdwXactCtl w2) = fdw_xacts (FdwXactCtl w)
    /\ freeFdwXacts (FdwXactCtl w2) = freeFdwXacts (FdwXactCtl w)
    /\ (forall q, q <> p -> deref (FdwXactCtl w2) q = deref (FdwXactCtl w) q)
    /\ status (deref (FdwXactCtl w2) p) = FDW_XACT_INITIAL
    /\ tab_inv N w2.
Proof.
  intros [Hok HN] Hrun.
  destruct (insert_fdw_xact_table_ok _ _ _ _ _ _ _ _ _ Hok Hrun)
    as (Hok' & Hlen & Harr & Hfresh & Hkey & Hother).
  assert (Hin : p ∈ fdw_xacts (FdwXactCtl w1)) by (rewrite Harr; set_solver).
  destruct (remove_fdw_xact_present _ _ Hin) as (w2 & Hrm & _).
  exists w2. split; [exact Hrm|].
  destruct (remove_fdw_xact_array _ _ _ Hrm) as (_ & Harr2 & Hfree2 & Hpool2).
  destruct (remove_fdw_xact_table_ok _ _ _ Hok' Hrm) as (Hok2 & Hlen2 & _ & _ & _ & Hother2).
  assert (Hslot : search_slot p (fdw_xacts (FdwXactCtl w) ++ [p])
                  = length (fdw_xacts (FdwXactCtl w))).
  { clear -Hfresh. induction (fdw_xacts (FdwXactCtl w)) as [|q l IH]; simpl.
    - by destruct (decide (p = p)).
    - destruct (decide (q = p)) as [->|]; [set_solver|]. f_equal. apply IH. set_solver. }
  assert (Hfree1 : freeFdwXacts (FdwXactCtl w) = p :: freeFdwXacts (FdwXactCtl w1)).
  { rewrite insert_fdw_xact_run in Hrun. cbv zeta in Hrun.
    destruct (existsb _ _); [discriminate|].
    destruct (freeFdwXacts (FdwXactCtl w)) as [|fx rest]; [discriminate|].
    by injection Hrun as <- <-. }
  split_and!.
  - rewrite Harr2, Harr, Hslot, last_snoc. simpl.
    rewrite length_app. simpl.
    replace (length (fdw_xacts (FdwXactCtl w)) + 1 - 1)%nat
      with (length (fdw_xacts (FdwXactCtl w))) by lia.
    rewrite take_insert_ge by lia. by rewrite take_app_length.
  - by rewrite Hfree2, Hfree1.
  - intros q Hq. rewrite Hother2, Hother by done. done.
  - rewrite Hpool2 || (unfold deref; rewrite Hpool2).
    assert (p < length (pool (FdwXactCtl w1)))%nat as Hlt.
    { apply (slots_partition_lt _ _ (proj1 Hok')). set_solver. }
    destruct (lookup_lt_is_Some_2 _ _ Hlt) as [x Hx'].
    by rewrite list_lookup_alter_eq, Hx'.
  - split; [done|]. lia.
Qed.

Lemma insert_remove_round_trip_witness :
  exists w2,
    remove_fdw_xact 1 (insert_fdw_xact 5 700 1 10 1001 "fx"
                         (ex_world 2 DISTRIBUTED_ATOMIC_COMMIT_PREFER)).2 = (Done tt, w2)
    /\ fdw_xacts (FdwXactCtl w2) = [].
Proof.
  destruct (insert_remove_round_trip 2 5 700 1 10 1001 "fx"
              (ex_world 2 DISTRIBUTED_ATOMIC_COMMIT_PREFER) _ 1%nat
              (tab_inv_reachable (ex_boot 2 DISTRIBUTED_ATOMIC_COMMIT_PREFER) [])
              eq_refl) as (w2 & H1 & H2 & _).
  exists w2. split; [exact H1 | exact H2].
Defined.

(** ** More on lookup *)

Lemma filter_unique_key {A K} (f : A -> K) (g : A -> bool) (k : K) (l : list A) :
  NoDup (map f l) ->
  (forall x, x ∈ l -> g x = true -> f x = k) ->
  (length (List.filter g l) <= 1)%nat.
Proof.
  induction l as [|a l IH]; simpl; [lia|].
  intros Hnd Hk. apply NoDup_cons in Hnd as [Hnotin Hnd].
  specialize (IH Hnd (fun x Hx => Hk x (list_elem_of_further _ _ _ Hx))).
  destruct (g a) eqn:Hga; [|exact IH].
  simpl. destruct (List.filter g l) as [|b l'] eqn:Hf; [simpl; lia|].
  exfalso. apply Hnotin.
  assert (Hb : In b (List.filter g l)) by (rewrite Hf; left; done).
  apply filter_In in Hb as [Hb Hgb]. apply list_elem_of_In in Hb.
  rewrite (Hk a) by (done || set_solver).
  rewrite <- (Hk b) by (done || set_solver).
  apply list_elem_of_fmap. by exists b.
Qed.

(** X4. In every state reached from the initialised shared memory, a
    lookup with four valid key parts finds at most one entry, and
    [fdw_xact_exists] holds exactly when the active array has an entry with
    that key. *)
Theorem lookup_by_key_is_unique (w0 : World) (ops : list Operation)
    (d : Oid) (xid : TransactionId) (s u : Oid) :
  d <> InvalidOid -> xid <> InvalidTransactionId -> s <> InvalidOid -> u <> InvalidOid ->
  let c := FdwXactCtl (run_ops ops (FdwXactShmemInit w0).2) in
  (length (get_fdw_xacts d xid s u c) <= 1)%nat
  /\ (fdw_xact_exists d xid s u c = true <-> has_entry c (d, xid, s, u)).
Proof.
  intros Hd Hx Hs Hu c.
  destruct (tab_inv_reachable w0 ops) as [[_ Huniq] _]. fold c in Huniq.
  split.
  - unfold get_fdw_xacts.
    rewrite <- (length_map (deref c)).
    assert (Hmap : map (deref c)
              (List.filter (fun p => fdw_xact_matches d xid s u (deref c p)) (fdw_xacts c))
            = List.filter (fdw_xact_matches d xid s u) (active_entries c)).
    { unfold active_entries. induction (fdw_xacts c) as [|p l IH]; simpl; [done|].
      destruct (fdw_xact_matches _ _ _ _ _); simpl; by rewrite IH. }
    rewrite Hmap.
    apply (filter_unique_key key_of _ (d, xid, s, u)); [exact Huniq|].
    intros x _ Hm. by apply fdw_xact_matches_valid in Hm.
  - pose proof (get_one_fdw_xact_spec d xid s u c Hd Hx Hs Hu) as Hone.
    unfold fdw_xact_exists, get_one_fdw_xact in *.
    destruct (get_fdw_xacts d xid s u c) as [|q l].
    + split; [discriminate | intros H; by destruct (Hone H)].
    + split; [intros _; exists q; exact Hone | done].
Qed.

Lemma lookup_by_key_is_unique_witness :
  le (length (get_fdw_xacts 5 700 1 10 (FdwXactCtl ex_two_prepared))) 1.
Proof.
  refine (proj1 (lookup_by_key_is_unique (ex_boot 8 DISTRIBUTED_ATOMIC_COMMIT_PREFER)
            [OpRegister 1 10 true; OpRegister 4 10 true; OpPreCommit] 5 700 1 10 _ _ _ _));
    vm_compute; congruence.
Defined.

(** ** Registration of participants *)

Lemma same_participant_spec s u fp :
  same_participant s u fp = true <-> part_key fp = (s, u).
Proof.
  unfold same_participant, part_key. rewrite andb_true_iff, !Z.eqb_eq.
  split; [intros [-> ->]; done | intros [= -> ->]; done].
Qed.

Lemma merge_modified_spec s u m l :
  match merge_modified s u m l with
  | Some l' => exists l1 fp l2,
      l = l1 ++ fp :: l2
      /\ l' = l1 ++ set_modified (modified fp || m) fp :: l2
      /\ part_key fp = (s, u)
  | None => (s, u) ∉ map part_key l
  end.
Proof.
  induction l as [|fp l IH]; simpl; [set_solver|].
  destruct (same_participant s u fp) eqn:Hsame.
  - exists [], fp, l. split_and!; try done. by apply same_participant_spec.
  - destruct (merge_modified s u m l) as [l'|]; simpl.
    + destruct IH as (l1 & fp' & l2 & -> & -> & Hk).
      exists (fp :: l1), fp', l2. done.
    + intros [Heq|Hin]%elem_of_cons; [|done].
      symmetry in Heq. apply same_participant_spec in Heq. congruence.
Qed.

(** X5. [register_fdw_xact] keeps the participants of the transaction
    distinct by server and user: with a consistent catalogue and a list
    without two participants of the same server and user, the list is so
    after the call; every earlier participant is still there, and a
    modified flag that was set stays set; when the call returns and the
    server's FDW can prepare, the list has a participant for the server and
    the user, modified if the call said so; a call that raises changes
    nothing; and no call touches the shared table, the log or the trace. *)
Theorem register_keeps_participants_distinct (w : World) (s u : Oid) (m : bool) :
  catalog_consistent (env w) ->
  NoDup (map part_key (FdwXactAtomicCommitParticipants w)) ->
  let l := FdwXactAtomicCommitParticipants w in
  let out := register_fdw_xact s u m w in
  let l' := FdwXactAtomicCommitParticipants out.2 in
  NoDup (map part_key l')
  /\ (forall fp, fp ∈ l ->
        exists fp', fp' ∈ l' /\ part_key fp' = part_key fp
                    /\ (modified fp = true -> modified fp' = true))
  /\ (out.1 = Done tt ->
      IsTwoPhaseCommitEnabled (GetFdwRoutineByServerId (env w) s) <> None ->
      exists fp', fp' ∈ l' /\ part_key fp' = (s, u)
                  /\ (m = true -> modified fp' = true))
  /\ (forall e, out.1 = Raised e -> out.2 = w)
  /\ FdwXactCtl out.2 = FdwXactCtl w /\ xlog out.2 = xlog w /\ trace out.2 = trace w.
Proof.
  intros [Hsrv Hum] Hnd l out l'. subst out l'. fold l in Hnd.
  unfold register_fdw_xact, bind, get, modify, raise. simpl.
  destruct (IsTwoPhaseCommitEnabled _) as [is2pc|] eqn:Hapi; simpl.
  2:{ split_and!; try done. intros fp Hfp. by exists fp. }
  pose proof (merge_modified_spec s u m l) as Hmerge. fold l.
  destruct (merge_modified s u m l) as [lm|]; simpl.
  - destruct Hmerge as (l1 & fp0 & l2 & Hl & -> & Hk).
    assert (Hkeys : map part_key (l1 ++ set_modified (modified fp0 || m) fp0 :: l2)
                    = map part_key l) by (rewrite Hl, !map_app; done).
    split_and!; try done.
    + by rewrite Hkeys.
    + intros fp Hfp. rewrite Hl in Hfp.
      apply elem_of_app in Hfp as [Hfp|[->|Hfp]%elem_of_cons].
      * exists fp. set_solver.
      * exists (set_modified (modified fp0 || m) fp0). split_and!; [set_solver|done|].
        simpl. intros ->. done.
      * exists fp. set_solver.
    + intros _ _. exists (set_modified (modified fp0 || m) fp0).
      split_and!; [set_solver|done|]. simpl. intros ->. apply orb_true_r.
  - destruct (PrepareForeignTransaction _) as [prep|]; simpl;
      [|split_and!; try done; intros fp Hfp; by exists fp].
    destruct (CommitForeignTransaction _) as [com|]; simpl;
      [|split_and!; try done; intros fp Hfp; by exists fp].
    destruct (RollbackForeignTransaction _) as [rb|]; simpl;
      [|split_and!; try done; intros fp Hfp; by exists fp].
    split_and!; try done.
    + rewrite map_app. simpl. apply NoDup_app. split_and!; [done| |apply NoDup_singleton].
      intros k Hk1 Hk2%list_elem_of_singleton. subst k.
      unfold part_key in Hk1. simpl in Hk1. by rewrite Hsrv, Hum in Hk1.
    + intros fp Hfp. exists fp. set_solver.
    + intros _ _. eexists. split_and!; [apply elem_of_app; right; by left| |done].
      unfold part_key. simpl. by rewrite Hsrv, Hum.
Qed.

Lemma register_keeps_participants_distinct_witness :
  NoDup (map part_key
           (FdwXactAtomicCommitParticipants
              (register_fdw_xact 1 10 true ex_required_two).2)).
Proof.
  refine (proj1 (register_keeps_participants_distinct ex_required_two 1 10 true _ _)).
  - split; reflexivity.
  - vm_compute. apply NoDup_cons_2; [|apply NoDup_singleton].
    intros H%list_elem_of_singleton. discriminate H.
Defined.

(** ** The end of the transaction *)

Lemma with_trace_nil w : with_trace (fun t => t ++ []) w = w.
Proof. destruct w. unfold with_trace. simpl. by rewrite app_nil_r. Qed.

Lemma with_trace_app e1 e2 w :
  with_trace (fun t => t ++ e2) (with_trace (fun t => t ++ e1) w)
  = with_trace (fun t => t ++ (e1 ++ e2)) w.
Proof. destruct w. unfold with_trace. simpl. by rewrite app_assoc. Qed.

Lemma with_pool_same w : with_pool (pool (FdwXactCtl w)) w = w.
Proof. destruct w as [? [] ]. reflexivity. Qed.

Lemma set_held_by_twice b x : set_held_by b (set_held_by b x) = set_held_by b x.
Proof. reflexivity. Qed.

Lemma set_held_by_same x : set_held_by (held_by x) x = x.
Proof. by destruct x. Qed.

Lemma release_cons me fp l p x :
  release me l p (release me [fp] p x) = release me (fp :: l) p x.
Proof.
  unfold release, referenced. simpl. rewrite orb_false_r.
  destruct (bool_decide (fdw_xact fp = Some p)), (existsb _ l),
    (held_by x =? me) eqn:Hme; simpl; rewrite ?Hme; simpl; try done.
  by repeat case_match.
Qed.

Lemma forget_entry_run me fp w :
  exists pl,
    forget_entry me fp w = (Done tt, with_pool pl w)
    /\ forall p, pl !! p = release me [fp] p <$> pool (FdwXactCtl w) !! p.
Proof.
  unfold forget_entry.
  assert (Hnone : forall p, fdw_xact fp <> Some p ->
            pool (FdwXactCtl w) !! p = release me [fp] p <$> pool (FdwXactCtl w) !! p).
  { intros p Hp. unfold release, referenced. simpl.
    rewrite bool_decide_eq_false_2 by done. simpl.
    by destruct (pool (FdwXactCtl w) !! p). }
  destruct (fdw_xact fp) as [q|] eqn:Hq.
  - unfold bind, gets, modify, ret. simpl.
    destruct (held_by (deref (FdwXactCtl w) q) =? me) eqn:Hme.
    + exists (alter (set_held_by InvalidBackendId) q (pool (FdwXactCtl w))).
      split; [reflexivity|]. intros p.
      destruct (decide (q = p)) as [<-|Hne].
      * rewrite list_lookup_alter_eq. unfold release, referenced. simpl.
        rewrite bool_decide_eq_true_2 by done. simpl.
        unfold deref in Hme.
        destruct (pool (FdwXactCtl w) !! q) as [x|]; simpl in *; [by rewrite Hme|done].
      * rewrite list_lookup_alter_ne by done. apply Hnone. congruence.
    + exists (pool (FdwXactCtl w)). rewrite with_pool_same. split; [reflexivity|].
      intros p. destruct (decide (q = p)) as [<-|Hne]; [|apply Hnone; congruence].
      unfold release, referenced. simpl. rewrite bool_decide_eq_true_2 by done. simpl.
      unfold deref in Hme.
      destruct (pool (FdwXactCtl w) !! q) as [x|]; simpl in *; [by rewrite Hme|done].
  - exists (pool (FdwXactCtl w)). rewrite with_pool_same. split; [reflexivity|].
    intros p. by apply Hnone.
Qed.

Lemma foreach_forget_run me l : forall w,
  exists pl,
    foreach l (forget_entry me) w = (Done tt, with_pool pl w)
    /\ forall p, pl !! p = release me l p <$> pool (FdwXactCtl w) !! p.
Proof.
  induction l as [|fp l IH]; intros w.
  - exists (pool (FdwXactCtl w)). rewrite with_pool_same. split; [reflexivity|].
    intros p. unfold release. simpl. by destruct (pool (FdwXactCtl w) !! p).
  - destruct (forget_entry_run me fp w) as (pl1 & Hrun1 & Hpl1).
    destruct (IH (with_pool pl1 w)) as (pl2 & Hrun2 & Hpl2).
    exists pl2. split.
    + simpl. unfold bind. rewrite Hrun1, Hrun2. reflexivity.
    + intros p. rewrite Hpl2. simpl. rewrite Hpl1.
      destruct (pool (FdwXactCtl w) !! p) as [x|]; simpl; [|done].
      by rewrite release_cons.
Qed.

Lemma ForgetAllFdwXactParticipants_run w :
  exists pl,
    ForgetAllFdwXactParticipants w
    = (Done tt, with_participants (fun _ => []) (with_pool pl w))
    /\ forall p, pl !! p
         = release (MyBackendId w) (FdwXactAtomicCommitParticipants w) p
             <$> pool (FdwXactCtl w) !! p.
Proof.
  destruct (foreach_forget_run (MyBackendId w) (FdwXactAtomicCommitParticipants w) w)
    as (pl & Hrun & Hpl).
  exists pl. split; [|exact Hpl].
  unfold ForgetAllFdwXactParticipants, bind, get, modify. by rewrite Hrun.
Qed.

(** X6. [ForgetAllFdwXactParticipants] never fails, empties the list of
    participants and otherwise changes only structs of the pool, each in
    one field: the hold of this backend is given up on the structs that its
    participants reference.  The active array, the free list, the log and
    the files stay as they are. *)
Theorem forget_releases_only_own_holds (w : World) :
  exists pl,
    ForgetAllFdwXactParticipants w
    = (Done tt, with_participants (fun _ => []) (with_pool pl w))
    /\ (forall p, pl !! p
          = release (MyBackendId w) (FdwXactAtomicCommitParticipants w) p
              <$> pool (FdwXactCtl w) !! p)
    /\ length pl = length (pool (FdwXactCtl w)).
Proof.
  destruct (ForgetAllFdwXactParticipants_run w) as (pl & Hrun & Hpl).
  exists pl. split_and!; [done..|].
  apply Nat.le_antisymm.
  - destruct (decide (length pl <= length (pool (FdwXactCtl w)))%nat) as [|Hgt]; [done|].
    destruct (lookup_lt_is_Some_2 pl (length (pool (FdwXactCtl w)))) as [x Hx]; [lia|].
    rewrite Hpl, lookup_ge_None_2 in Hx by lia. discriminate.
  - destruct (decide (length (pool (FdwXactCtl w)) <= length pl)%nat) as [|Hgt]; [done|].
    destruct (lookup_lt_is_Some_2 (pool (FdwXactCtl w)) (length pl)) as [x Hx]; [lia|].
    specialize (Hpl (length pl)). rewrite Hx, lookup_ge_None_2 in Hpl by lia. discriminate.
Qed.

Lemma rollback_participants_run l : forall state left_fdwxacts w,
  exists evs,
    rollback_participants l state left_fdwxacts w
    = (Done (left_fdwxacts + Z.of_nat (length (List.filter has_fdw_xact l))),
       with_trace (fun t => t ++ evs) w)
    /\ Forall (fun ev => ev = EvReport WARNING warn_could_not_abort) evs.
Proof.
  induction l as [|fp l IH]; intros state n w.
  - exists []. rewrite with_trace_nil. simpl. split; [|done].
    unfold ret. do 2 f_equal. lia.
  - simpl. unfold bind at 1. unfold gets at 1.
    assert (Hcount : forall k : Z,
              match fdw_xact fp with Some _ => k + 1 | None => k end
              + Z.of_nat (length (List.filter has_fdw_xact l))
              = k + Z.of_nat (length (if has_fdw_xact fp
                                      then fp :: List.filter has_fdw_xact l
                                      else List.filter has_fdw_xact l))).
    { intros k. unfold has_fdw_xact. destruct (fdw_xact fp); simpl length; lia. }
    destruct (entry_is_prepared (FdwXactCtl w) fp).
    + destruct (IH state (match fdw_xact fp with Some _ => n + 1 | None => n end) w)
        as (evs & Hrun & Hevs).
      exists evs. rewrite Hrun, Hcount. done.
    + unfold bind at 1.
      set (st1 := mkFdwXactState _ _ _ _ _).
      destruct (rollback_foreign_xact fp st1) as [[] st2] eqn:Hcb; simpl.
      * destruct (IH st2 (match fdw_xact fp with Some _ => n + 1 | None => n end) w)
          as (evs & Hrun & Hevs).
        exists evs. rewrite Hrun, Hcount. done.
      * unfold emit, modify.
        destruct (IH st2 (match fdw_xact fp with Some _ => n + 1 | None => n end)
                    (with_trace (fun t => t ++ [EvReport WARNING warn_could_not_abort]) w))
          as (evs & Hrun & Hevs).
        exists (EvReport WARNING warn_could_not_abort :: evs).
        rewrite Hrun, Hcount, with_trace_app. split; [done|]. by constructor.
Qed.

(** X7. [AtEOXact_FdwXacts] never fails and removes no entry: besides the
    trace it changes what [ForgetAllFdwXactParticipants] changes, and it
    resets [FdwXactAtomicCommitReady].  It reports only WARNINGs: none at
    commit, and at abort the one about in-doubt transactions exactly when
    some participant owns an entry. *)
Theorem end_of_transaction_leaves_entries (w : World) (is_commit : bool) :
  let l := FdwXactAtomicCommitParticipants w in
  exists pl evs,
    AtEOXact_FdwXacts is_commit w
    = (Done tt,
       with_FdwXactAtomicCommitReady false
         (with_participants (fun _ => [])
            (with_pool pl (with_trace (fun t => t ++ evs) w))))
    /\ (forall p, pl !! p = release (MyBackendId w) l p <$> pool (FdwXactCtl w) !! p)
    /\ Forall is_warning evs
    /\ (is_commit = true -> evs = [])
    /\ (is_commit = false ->
        (EvReport WARNING warn_left_in_doubt ∈ evs <-> exists fp, fp ∈ l /\ fdw_xact fp <> None)).
Proof.
  intros l. unfold AtEOXact_FdwXacts.
  destruct is_commit.
  - destruct (ForgetAllFdwXactParticipants_run w) as (pl & Hrun & Hpl).
    exists pl, []. rewrite with_trace_nil.
    unfold bind at 1. unfold bind at 1. unfold ret at 1. rewrite Hrun.
    split_and!; try done.
  - destruct (rollback_participants_run l create_fdw_xact_state 0 w) as (evs & Hrb & Hevs).
    set (cnt := Z.of_nat (length (List.filter has_fdw_xact l))) in *.
    set (evs' := evs ++ if 0 <? 0 + cnt then [EvReport WARNING warn_left_in_doubt] else []).
    destruct (ForgetAllFdwXactParticipants_run
                (with_trace (fun t => t ++ evs') w)) as (pl & Hrun & Hpl).
    exists pl, evs'. split_and!.
    + unfold bind at 1. unfold bind at 1. unfold bind at 1. unfold gets at 1.
      fold l. rewrite Hrb. unfold bind at 1.
      subst evs'. destruct (0 <? 0 + cnt).
      * unfold ereport, emit, modify. rewrite with_trace_app.
        cbv beta iota. rewrite Hrun. reflexivity.
      * unfold ret at 1. rewrite app_nil_r in Hrun |- *. cbv beta iota. rewrite Hrun. reflexivity.
    + exact Hpl.
    + subst evs'. apply Forall_app. split.
      * eapply Forall_impl; [exact Hevs|]. intros ? ->. by eexists.
      * destruct (0 <? 0 + cnt); [|done]. constructor; [by eexists|done].
    + done.
    + intros _. subst evs'. rewrite elem_of_app. split.
      * intros [Hin|Hin].
        { rewrite Forall_forall in Hevs. apply Hevs in Hin. discriminate Hin. }
        destruct (0 <? 0 + cnt) eqn:Hpos; [|by apply elem_of_nil in Hin].
        apply Z.ltb_lt in Hpos. subst cnt.
        destruct (List.filter has_fdw_xact l) as [|fp ?] eqn:Hf; [simpl in Hpos; lia|].
        assert (Hfp : In fp (List.filter has_fdw_xact l)) by (rewrite Hf; by left).
        apply filter_In in Hfp as [Hfp Hhas]. exists fp. split; [by apply list_elem_of_In|].
        unfold has_fdw_xact in Hhas. by destruct (fdw_xact fp).
      * intros (fp & Hfp & Hsome). right.
        assert (Hin : In fp (List.filter has_fdw_xact l)).
        { apply filter_In. split; [by apply list_elem_of_In|].
          unfold has_fdw_xact. by destruct (fdw_xact fp). }
        assert ((0 <? 0 + cnt) = true) as ->.
        { apply Z.ltb_lt. subst cnt. destruct (List.filter has_fdw_xact l); [done|simpl; lia]. }
        by left.
Qed.

(** ** The oldest unresolved transaction *)

Lemma valid_xids_cons c p l :
  map local_xid (List.filter valid (map (deref c) (p :: l)))
  = (if valid (deref c p) then [local_xid (deref c p)] else [])
    ++ map local_xid (List.filter valid (map (deref c) l)).
Proof. simpl. by destruct (valid (deref c p)). Qed.

Lemma xmin_fold precedes c l : forall agg seen,
  let xs := seen ++ map local_xid (List.filter valid (map (deref c) l)) in
  (forall a, a ∈ xs -> precedes a a = false) ->
  (forall a b d, a ∈ xs -> b ∈ xs -> d ∈ xs ->
     precedes a b = true -> precedes b d = true -> precedes a d = true) ->
  (forall a, a ∈ xs -> a <> InvalidTransactionId) ->
  (seen = [] /\ agg = InvalidTransactionId
   \/ agg ∈ seen /\ forall a, a ∈ seen -> precedes a agg = false) ->
  let r := fold_left (xmin_step precedes c) l agg in
  (xs = [] /\ r = InvalidTransactionId)
  \/ (r ∈ xs /\ forall a, a ∈ xs -> precedes a r = false).
Proof.
  induction l as [|p l IH]; intros agg seen xs Hirr Htr Hval Hinv r.
  - subst xs r. simpl in *. rewrite app_nil_r in *.
    destruct Hinv as [[-> ->]|[? ?]]; [by left | by right].
  - subst r. simpl fold_left. subst xs. rewrite valid_xids_cons in *.
    destruct (valid (deref c p)) eqn:Hv.
    2:{ assert (Hstep : xmin_step precedes c agg p = agg)
          by (unfold xmin_step; by rewrite Hv).
        rewrite Hstep. simpl app in *. by apply (IH agg seen). }
    set (x := local_xid (deref c p)) in *.
    rewrite app_assoc in Hirr, Htr, Hval |- *.
    assert (Hx : x ∈ (seen ++ [x]) ++ map local_xid (List.filter valid (map (deref c) l)))
      by (apply elem_of_app; left; apply elem_of_app; right; by apply list_elem_of_singleton).
    destruct Hinv as [[-> ->]|[Hagg Hmin]].
    + assert (Hstep : xmin_step precedes c InvalidTransactionId p = x)
        by (unfold xmin_step; by rewrite Hv).
      rewrite Hstep. apply (IH x [x]); try done.
      right. split; [by apply list_elem_of_singleton|]. intros a ->%list_elem_of_singleton. by apply Hirr.
    + assert (Hagg' : agg ∈ (seen ++ [x]) ++ map local_xid (List.filter valid (map (deref c) l)))
        by (apply elem_of_app; left; apply elem_of_app; by left).
      assert (Hnz : TransactionIdIsValid agg = true).
      { unfold TransactionIdIsValid. apply negb_true_iff, Z.eqb_neq. by apply Hval. }
      assert (Hstep : xmin_step precedes c agg p = if precedes x agg then x else agg)
        by (unfold xmin_step; by rewrite Hv, Hnz).
      rewrite Hstep.
      destruct (precedes x agg) eqn:Hpx.
      * apply (IH x (seen ++ [x])); try done.
        right. split; [apply elem_of_app; right; by apply list_elem_of_singleton|].
        intros a [Ha| ->%list_elem_of_singleton]%elem_of_app; [|by apply Hirr].
        destruct (precedes a x) eqn:Hax; [|done].
        rewrite <- (Hmin a Ha). symmetry. apply (Htr a x agg); try done.
        apply elem_of_app; left; apply elem_of_app; by left.
      * apply (IH agg (seen ++ [x])); try done.
        right. split; [apply elem_of_app; by left|].
        intros a [Ha| ->%list_elem_of_singleton]%elem_of_app; [by apply Hmin|done].
Qed.

(** X8. Where [TransactionIdPrecedes] is irreflexive and transitive on
    the transaction ids of the valid entries, and these ids are valid,
    [FdwXactComputeRequiredXmin] yields InvalidTransactionId when no entry
    is valid, and otherwise the id of a valid entry that the id of no valid
    entry precedes. *)
Theorem required_xmin_is_oldest (precedes : TransactionId -> TransactionId -> bool)
    (c : FdwXactCtlData) :
  let xs := valid_xids c in
  (forall a, a ∈ xs -> precedes a a = false) ->
  (forall a b d, a ∈ xs -> b ∈ xs -> d ∈ xs ->
     precedes a b = true -> precedes b d = true -> precedes a d = true) ->
  (forall a, a ∈ xs -> a <> InvalidTransactionId) ->
  let r := FdwXactComputeRequiredXmin precedes c in
  (xs = [] -> r = InvalidTransactionId)
  /\ (xs <> [] -> r ∈ xs /\ forall a, a ∈ xs -> precedes a r = false).
Proof.
  intros xs Hirr Htr Hval r.
  destruct (xmin_fold precedes c (fdw_xacts c) InvalidTransactionId [] Hirr Htr Hval)
    as [[Hnil Hr]|[Hin Hmin]]; [by left| |].
  - split; [done|]. intros Hne. by destruct Hne.
  - split; [|done]. intros Hnil. unfold xs, valid_xids, active_entries in Hnil.
    simpl in Hin. rewrite Hnil in Hin. by apply elem_of_nil in Hin.
Qed.

Lemma required_xmin_is_oldest_witness :
  FdwXactComputeRequiredXmin Z.ltb (FdwXactCtl ex_two_prepared)
  ∈ valid_xids (FdwXactCtl ex_two_prepared).
Proof.
  assert (Hxs : valid_xids (FdwXactCtl ex_two_prepared) = [700; 700])
    by (vm_compute; reflexivity).
  destruct (required_xmin_is_oldest Z.ltb (FdwXactCtl ex_two_prepared)) as [_ H].
  - intros a _. apply Z.ltb_irrefl.
  - intros a b d _ _ _ Hab%Z.ltb_lt Hbd%Z.ltb_lt. apply Z.ltb_lt. lia.
  - intros a Ha. rewrite Hxs in Ha. apply list_elem_of_In in Ha. simpl in Ha.
    destruct Ha as [<-|[<-|[]]]; intros Heq; discriminate Heq.
  - apply H. rewrite Hxs. intros Heq; discriminate Heq.
Defined.

(** ** Resolution at level ERROR *)

Lemma determine_fate_spec N p w :
  tab_inv N w ->
  let out := determine_fate p w in
  tab_inv N out.2
  /\ fdw_xacts (FdwXactCtl out.2) = fdw_xacts (FdwXactCtl w)
  /\ (forall q, q <> p -> deref (FdwXactCtl out.2) q = deref (FdwXactCtl w) q)
  /\ key_of (deref (FdwXactCtl out.2) p) = key_of (deref (FdwXactCtl w) p)
  /\ valid (deref (FdwXactCtl out.2) p) = valid (deref (FdwXactCtl w) p)
  /\ ondisk (deref (FdwXactCtl out.2) p) = ondisk (deref (FdwXactCtl w) p)
  /\ xlog out.2 = xlog w /\ fdw_xact_files out.2 = fdw_xact_files w
  /\ trace out.2 = trace w /\ env out.2 = env w
  /\ RecoveryInProgress out.2 = RecoveryInProgress w.
Proof.
  intros Ht out. subst out.
  assert (Hupd : forall s,
    let w1 := with_FdwXactCtl (update p (set_status s)) w in
    tab_inv N w1
    /\ fdw_xacts (FdwXactCtl w1) = fdw_xacts (FdwXactCtl w)
    /\ (forall q, q <> p -> deref (FdwXactCtl w1) q = deref (FdwXactCtl w) q)
    /\ key_of (deref (FdwXactCtl w1) p) = key_of (deref (FdwXactCtl w) p)
    /\ valid (deref (FdwXactCtl w1) p) = valid (deref (FdwXactCtl w) p)
    /\ ondisk (deref (FdwXactCtl w1) p) = ondisk (deref (FdwXactCtl w) p)
    /\ xlog w1 = xlog w /\ fdw_xact_files w1 = fdw_xact_files w
    /\ trace w1 = trace w /\ env w1 = env w
    /\ RecoveryInProgress w1 = RecoveryInProgress w).
  { intros s w1. subst w1. simpl.
    split; [apply tab_inv_update; [intros ?; reflexivity | assumption]|].
    split; [done|].
    split; [intros q Hq; by rewrite deref_update_ne|].
    rewrite !deref_update. destruct (decide (p = p)); [|done].
    unfold deref. destruct (pool (FdwXactCtl w) !! p); done. }
  unfold determine_fate, bind, get, modify, ret, raise. cbv zeta.
  repeat match goal with
  | |- context [if ?b then _ else _] => destruct b
  end; cbn [fst snd]; first [exact (Hupd _) | split_and!; done].
Qed.

Lemma remove_resolved_entry_spec N p w :
  tab_inv N w -> p ∈ fdw_xacts (FdwXactCtl w) ->
  exists w', remove_resolved_entry p w = (Done tt, w')
    /\ tab_inv N w'
    /\ (p ∉ fdw_xacts (FdwXactCtl w'))
    /\ (forall q, q <> p ->
          (q ∈ fdw_xacts (FdwXactCtl w) -> q ∈ fdw_xacts (FdwXactCtl w'))
          /\ deref (FdwXactCtl w') q = deref (FdwXactCtl w) q)
    /\ fdw_xacts (FdwXactCtl w') ⊆ fdw_xacts (FdwXactCtl w)
    /\ (ondisk (deref (FdwXactCtl w) p) = true ->
        key_of (deref (FdwXactCtl w) p) ∉ fdw_xact_files w')
    /\ env w' = env w.
Proof.
  intros Ht Hin.
  assert (Hgo : forall w0, tab_inv N w0 -> p ∈ fdw_xacts (FdwXactCtl w0) ->
            exists w', remove_fdw_xact p w0 = (Done tt, w') /\ tab_inv N w'
              /\ (p ∉ fdw_xacts (FdwXactCtl w'))
              /\ (forall q, q <> p ->
                    (q ∈ fdw_xacts (FdwXactCtl w0) -> q ∈ fdw_xacts (FdwXactCtl w'))
                    /\ deref (FdwXactCtl w') q = deref (FdwXactCtl w0) q)
              /\ fdw_xacts (FdwXactCtl w') ⊆ fdw_xacts (FdwXactCtl w0)
              /\ fdw_xact_files w' = fdw_xact_files w0
              /\ env w' = env w0).
  { intros w0 [Hok Hlen] Hin0.
    destruct (remove_fdw_xact_present p w0 Hin0)
      as (w' & Hrun & _ & _ & _ & Hsub & Henv & Hfiles & _).
    destruct (remove_fdw_xact_table_ok _ _ _ Hok Hrun)
      as (Hok' & Hl & _ & Hnotin & Hkeep & Hderef).
    exists w'. split_and!; try done; [split; [done|congruence]|].
    intros q Hq. split; [intros Hq'; by apply Hkeep | by apply Hderef]. }
  unfold remove_resolved_entry, bind, gets. cbn [fst snd].
  destruct (maybe_unlink_run (ondisk (deref (FdwXactCtl w) p))
              (key_of (deref (FdwXactCtl w) p)) true w)
    as (w0 & -> & Hc & He & _ & _ & _ & Hgone & _ & _).
  cbn [fst snd].
  assert (Ht0 : tab_inv N w0) by (unfold tab_inv; by rewrite Hc).
  assert (Hin0 : p ∈ fdw_xacts (FdwXactCtl w0)) by (by rewrite Hc).
  destruct (Hgo w0 Ht0 Hin0) as (w' & -> & H1 & H2 & H3 & H4 & H5 & H6).
  exists w'. rewrite Hc in H3, H4. split_and!; try done.
  - intros Hd. rewrite H5. by apply Hgone.
  - congruence.
Qed.

Lemma resolve_at_ERROR_spec (N : nat) (w : World)
    (state : FdwXactState) (p : FdwXact) :
  tab_inv N w -> p ∈ fdw_xacts (FdwXactCtl w) ->
  let out := FdwXactResolveForeignTransaction state p ERROR w in
  tab_inv N out.2
  /\ (forall q, q <> p -> q ∈ fdw_xacts (FdwXactCtl w) ->
        q ∈ fdw_xacts (FdwXactCtl out.2)
        /\ deref (FdwXactCtl out.2) q = deref (FdwXactCtl w) q)
  /\ fdw_xacts (FdwXactCtl out.2) ⊆ fdw_xacts (FdwXactCtl w)
  /\ match out.1 with
     | Done r =>
         r.1 = true
         /\ (p ∉ fdw_xacts (FdwXactCtl out.2))
         /\ (exists c, EvResolve state c true ∈ trace out.2)
         /\ (ondisk (deref (FdwXactCtl w) p) = true ->
             key_of (deref (FdwXactCtl w) p) ∉ fdw_xact_files out.2)
     | Raised e =>
         fdw_xacts (FdwXactCtl out.2) = fdw_xacts (FdwXactCtl w)
         /\ key_of (deref (FdwXactCtl out.2) p) = key_of (deref (FdwXactCtl w) p)
         /\ valid (deref (FdwXactCtl out.2) p) = valid (deref (FdwXactCtl w) p)
         /\ xlog out.2 = xlog w
         /\ fdw_xact_files out.2 = fdw_xact_files w
         /\ (e = err_resolve_in_progress
             \/ exists c, e = err_could_not_resolve c
                          /\ trace out.2 = trace w ++ [EvResolve state c false])
     end.
Proof.
  intros Ht Hin out. subst out. rewrite resolve_run.
  destruct (determine_fate_spec N p w Ht)
    as (Ht1 & Harr & Hoth & Hkey & Hval & Hdisk & Hlog & Hfiles & Htr & Henv & Hrec).
  destruct (determine_fate p w) as [[c|e] w1] eqn:Hfate; cbn [fst snd] in *.
  2:{ split_and!; try done.
      - intros q Hq Hq'. rewrite Harr, Hoth by done. done.
      - by rewrite Harr.
      - left. revert Hfate. unfold determine_fate, bind, get, modify, ret, raise. cbv zeta.
        repeat match goal with
        | |- context [if ?b then _ else _] => destruct b
        end; intros [= <- _]; done. }
  cbv zeta.
  destruct (ResolveForeignTransaction _ state c).1 eqn:Hcb.
  - set (w2 := with_trace _ w1).
    assert (Ht2 : tab_inv N w2) by exact Ht1.
    assert (Hin2 : p ∈ fdw_xacts (FdwXactCtl w2)) by (simpl; by rewrite Harr).
    destruct (remove_resolved_entry_spec N p w2 Ht2 Hin2)
      as (w3 & Hrm & Ht3 & Hgone & Hkeep & Hsub & Hunl & Henv3).
    unfold bind. rewrite Hrm. cbn [fst snd]. unfold ret. cbn [fst snd].
    split_and!; try done.
    + intros q Hq Hq'. destruct (Hkeep q Hq) as [Hk1 Hk2]. split.
      * apply Hk1. simpl. by rewrite Harr.
      * rewrite Hk2. simpl. by apply Hoth.
    + intros q Hq. apply Hsub in Hq. simpl in Hq. by rewrite Harr in Hq.
    + exists c.
      assert (Hpre : preserves (trace_from (trace w2)) (remove_resolved_entry p)).
      { unfold remove_resolved_entry. pres_trace. }
      specialize (Hpre w2 (reflexivity _)). rewrite Hrm in Hpre. simpl in Hpre.
      destruct Hpre as [rest ->]. simpl. rewrite Htr.
      apply elem_of_app. left. apply elem_of_app. right. by apply list_elem_of_singleton.
    + intros Hd. rewrite <- Hkey. apply Hunl. simpl. by rewrite Hdisk.
  - cbn [fst snd]. split_and!; try done.
    + intros q Hq Hq'. simpl. rewrite Harr, Hoth by done. done.
    + simpl. by rewrite Harr.
    + right. exists c. split; [done|]. simpl. by rewrite Htr.
Qed.

(** X9. [FdwXactResolveForeignTransaction] at level ERROR keeps the table
    invariant and touches no entry but its own.  When it returns, the
    callback has resolved the transaction (the verdict is true, the trace
    has the successful call), the entry has left the active array, and its
    state file, if it had one, is gone.  When it raises, the active array,
    the key and the validity of the entry, the log and the files are as
    before, and the error is either the one of a resolution in progress or
    the failure of the callback, whose call is the last event. *)
Theorem resolve_removes_exactly_on_success (N : nat) (w : World)
    (state : FdwXactState) (p : FdwXact) :
  tab_inv N w -> p ∈ fdw_xacts (FdwXactCtl w) ->
  let out := FdwXactResolveForeignTransaction state p ERROR w in
  tab_inv N out.2
  /\ (forall q, q <> p -> q ∈ fdw_xacts (FdwXactCtl w) ->
        q ∈ fdw_xacts (FdwXactCtl out.2)
        /\ deref (FdwXactCtl out.2) q = deref (FdwXactCtl w) q)
  /\ match out.1 with
     | Done r =>
         r.1 = true
         /\ (p ∉ fdw_xacts (FdwXactCtl out.2))
         /\ (exists c, EvResolve state c true ∈ trace out.2)
         /\ (ondisk (deref (FdwXactCtl w) p) = true ->
             key_of (deref (FdwXactCtl w) p) ∉ fdw_xact_files out.2)
     | Raised e =>
         fdw_xacts (FdwXactCtl out.2) = fdw_xacts (FdwXactCtl w)
         /\ key_of (deref (FdwXactCtl out.2) p) = key_of (deref (FdwXactCtl w) p)
         /\ valid (deref (FdwXactCtl out.2) p) = valid (deref (FdwXactCtl w) p)
         /\ xlog out.2 = xlog w
         /\ fdw_xact_files out.2 = fdw_xact_files w
         /\ (e = err_resolve_in_progress
             \/ exists c, e = err_could_not_resolve c
                          /\ trace out.2 = trace w ++ [EvResolve state c false])
     end.
Proof.
  intros Ht Hin.
  destruct (resolve_at_ERROR_spec N w state p Ht Hin) as (H1 & H2 & _ & H3).
  split_and!; assumption.
Qed.

Lemma resolve_removes_exactly_on_success_witness :
  tab_inv 8
    (FdwXactResolveForeignTransaction create_fdw_xact_state 7 ERROR ex_two_prepared).2.
Proof.
  refine (proj1 (resolve_removes_exactly_on_success 8 ex_two_prepared
                   create_fdw_xact_state 7%nat _ _)).
  - exact (tab_inv_reachable (ex_boot 8 DISTRIBUTED_ATOMIC_COMMIT_PREFER)
             [OpRegister 1 10 true; OpRegister 4 10 true; OpPreCommit]).
  - apply list_elem_of_In. vm_compute. tauto.
Defined.

(** ** Dangling transactions *)

Lemma resolver_resolve_entry_spec N p w :
  tab_inv N w -> p ∈ fdw_xacts (FdwXactCtl w) ->
  let out := resolver_resolve_entry p w in
  tab_inv N out.2
  /\ (forall q, q <> p -> q ∈ fdw_xacts (FdwXactCtl w) ->
        q ∈ fdw_xacts (FdwXactCtl out.2)
        /\ deref (FdwXactCtl out.2) q = deref (FdwXactCtl w) q)
  /\ fdw_xacts (FdwXactCtl out.2) ⊆ fdw_xacts (FdwXactCtl w)
  /\ (out.1 = Done tt -> p ∉ fdw_xacts (FdwXactCtl out.2)).
Proof.
  intros Ht Hin out. subst out. unfold resolver_resolve_entry, bind, gets.
  cbn [fst snd].
  match goal with |- context [FdwXactResolveForeignTransaction ?st p ERROR w] =>
    destruct (resolve_at_ERROR_spec N w st p Ht Hin) as (H1 & H2 & H3 & H4);
    destruct (FdwXactResolveForeignTransaction st p ERROR w) as [[r|e] w']
  end; cbn [fst snd ret] in *; split_and!; try done.
  intros _. by destruct H4 as (_ & ? & _).
Qed.

Lemma foreach_resolve_spec N ls : forall w,
  tab_inv N w -> NoDup ls -> ls ⊆ fdw_xacts (FdwXactCtl w) ->
  let out := foreach ls resolver_resolve_entry w in
  tab_inv N out.2
  /\ (forall q, q ∉ ls -> q ∈ fdw_xacts (FdwXactCtl w) ->
        q ∈ fdw_xacts (FdwXactCtl out.2)
        /\ deref (FdwXactCtl out.2) q = deref (FdwXactCtl w) q)
  /\ fdw_xacts (FdwXactCtl out.2) ⊆ fdw_xacts (FdwXactCtl w)
  /\ (out.1 = Done tt -> forall q, q ∈ ls -> q ∉ fdw_xacts (FdwXactCtl out.2)).
Proof.
  induction ls as [|p ls IH]; intros w Ht Hnd Hsub out; subst out.
  - simpl. split_and!; try done. intros _ q Hq. by apply elem_of_nil in Hq.
  - apply NoDup_cons in Hnd as [Hp Hnd].
    assert (Hin : p ∈ fdw_xacts (FdwXactCtl w)) by (apply Hsub; by left).
    destruct (resolver_resolve_entry_spec N p w Ht Hin) as (Ht1 & Hk1 & Hs1 & Hg1).
    simpl. unfold bind.
    destruct (resolver_resolve_entry p w) as [[[]|e] w1]; cbn [fst snd] in *.
    + assert (Hsub1 : ls ⊆ fdw_xacts (FdwXactCtl w1)).
      { intros q Hq. apply Hk1; [intros ->; done|]. apply Hsub. by right. }
      destruct (IH w1 Ht1 Hnd Hsub1) as (Ht2 & Hk2 & Hs2 & Hg2).
      split_and!; try done.
      * intros q Hq Hq'. apply not_elem_of_cons in Hq as [Hqp Hq].
        destruct (Hk1 q Hqp Hq') as [Hq1 Hd1].
        destruct (Hk2 q Hq Hq1) as [Hq2 Hd2]. split; [done|congruence].
      * intros q Hq. by apply Hs1, Hs2.
      * intros Hdone q [->|Hq]%elem_of_cons.
        -- intros Hq2. apply Hs2 in Hq2. by apply Hg1.
        -- by apply Hg2.
    + split_and!; try done.
      intros q Hq Hq'. apply not_elem_of_cons in Hq as [Hqp Hq]. by apply Hk1.
Qed.

(** X10. [FdwXactResolveAllDanglingTransactions] keeps the table
    invariant, leaves every entry that is not dangling (another database, a
    backend holding it, or a local transaction that is still prepared) in
    the active array and unchanged, adds no entry, and, when it returns,
    has removed every dangling entry. *)
Theorem dangling_resolution_touches_only_dangling (N : nat)
    (TwoPhaseExists : TransactionId -> bool) (d : Oid) (w : World) :
  tab_inv N w ->
  let out := FdwXactResolveAllDanglingTransactions TwoPhaseExists d w in
  tab_inv N out.2
  /\ (forall p, p ∈ fdw_xacts (FdwXactCtl w) ->
        is_dangling TwoPhaseExists d (deref (FdwXactCtl w) p) = false ->
        p ∈ fdw_xacts (FdwXactCtl out.2)
        /\ deref (FdwXactCtl out.2) p = deref (FdwXactCtl w) p)
  /\ fdw_xacts (FdwXactCtl out.2) ⊆ fdw_xacts (FdwXactCtl w)
  /\ (out.1 = Done tt ->
      forall p, p ∈ fdw_xacts (FdwXactCtl out.2) ->
        is_dangling TwoPhaseExists d (deref (FdwXactCtl w) p) = false).
Proof.
  intros Ht. cbv zeta.
  set (ls := List.filter (fun p => is_dangling TwoPhaseExists d (deref (FdwXactCtl w) p))
               (fdw_xacts (FdwXactCtl w))).
  assert (Heq : FdwXactResolveAllDanglingTransactions TwoPhaseExists d w
                = match ls with
                  | [] => (Done tt, w)
                  | _ => (run foreach ls resolver_resolve_entry ;;
                          ereport DEBUG2 msg_resolved_dangling) w
                  end).
  { unfold FdwXactResolveAllDanglingTransactions, bind at 1, gets. fold ls.
    by destruct ls. }
  rewrite Heq. clear Heq.
  assert (Hls : forall p, p ∈ ls <-> p ∈ fdw_xacts (FdwXactCtl w)
                /\ is_dangling TwoPhaseExists d (deref (FdwXactCtl w) p) = true).
  { intros p. subst ls. rewrite !list_elem_of_In, filter_In. done. }
  assert (Hnd : NoDup ls).
  { subst ls. apply NoDup_ListNoDup, List.NoDup_filter, NoDup_ListNoDup.
    destruct Ht as [[Hpart _] _].
    pose proof (slots_partition_NoDup _ Hpart) as Hn.
    by apply NoDup_app in Hn as [? _]. }
  assert (Hsub : ls ⊆ fdw_xacts (FdwXactCtl w)) by (intros p Hp; by apply Hls in Hp as [? _]).
  destruct (foreach_resolve_spec N ls w Ht Hnd Hsub) as (Ht1 & Hk & Hs & Hg).
  assert (Hgoal :
    let out := (run foreach ls resolver_resolve_entry ;; ereport DEBUG2 msg_resolved_dangling) w in
    tab_inv N out.2
    /\ (forall p, p ∈ fdw_xacts (FdwXactCtl w) ->
          is_dangling TwoPhaseExists d (deref (FdwXactCtl w) p) = false ->
          p ∈ fdw_xacts (FdwXactCtl out.2)
          /\ deref (FdwXactCtl out.2) p = deref (FdwXactCtl w) p)
    /\ fdw_xacts (FdwXactCtl out.2) ⊆ fdw_xacts (FdwXactCtl w)
    /\ (out.1 = Done tt ->
        forall p, p ∈ fdw_xacts (FdwXactCtl out.2) ->
          is_dangling TwoPhaseExists d (deref (FdwXactCtl w) p) = false)).
  { cbv zeta. unfold bind.
    destruct (foreach ls resolver_resolve_entry w) as [[[]|e] w1]; cbn [fst snd] in *.
    - split_and!; try done.
      + intros p Hp Hnot. apply Hk; [|done]. intros Hin%Hls. destruct Hin. congruence.
      + intros _ p Hp. apply not_true_iff_false. intros Hdang.
        apply (Hg eq_refl p); [|done]. apply Hls. split; [by apply Hs|done].
    - split_and!; try done.
      intros p Hp Hnot. apply Hk; [|done]. intros Hin%Hls. destruct Hin. congruence. }
  destruct ls as [|p0 ls'] eqn:Els; [|exact Hgoal].
  cbn [fst snd ret]. split_and!; try done.
  intros _ p Hp. apply not_true_iff_false. intros Hdang.
  assert (Hin : p ∈ @nil FdwXact) by (apply Hls; done). by apply elem_of_nil in Hin.
Qed.

Lemma dangling_resolution_touches_only_dangling_witness :
  tab_inv 8 (FdwXactResolveAllDanglingTransactions (fun _ => false) 5 ex_two_prepared).2.
Proof.
  refine (proj1 (dangling_resolution_touches_only_dangling 8 (fun _ => false) 5
                   ex_two_prepared _)).
  exact (tab_inv_reachable (ex_boot 8 DISTRIBUTED_ATOMIC_COMMIT_PREFER)
           [OpRegister 1 10 true; OpRegister 4 10 true; OpPreCommit]).
Defined.

(** ** Removal by the operator *)

Lemma get_one_fdw_xact_in d xid s u c p :
  get_one_fdw_xact d xid s u c = Some p -> p ∈ fdw_xacts c.
Proof.
  unfold get_one_fdw_xact, get_fdw_xacts.
  destruct (List.filter _ _) as [|q l] eqn:Hf; [discriminate|]. intros [= ->].
  assert (Hin : In p (List.filter (fun p => fdw_xact_matches d xid s u (deref c p))
                        (fdw_xacts c))) by (rewrite Hf; by left).
  apply filter_In in Hin as [Hin _]. by apply list_elem_of_In.
Qed.

(** X11. [pg_remove_fdw_xact], called by a superuser for an entry that
    the lookup finds, returns, takes the entry out of the active array and
    puts its struct on the free list, and leaves the state files alone: the
    files are as before and no file is unlinked, also when the entry is on
    disk. *)
Theorem pg_remove_keeps_state_file (N : nat) (w : World) (xid : TransactionId)
    (s u : Oid) (p : FdwXact) :
  tab_inv N w ->
  superuser (env w) = true ->
  get_one_fdw_xact (MyDatabaseId w) xid s u (FdwXactCtl w) = Some p ->
  exists w',
    pg_remove_fdw_xact xid s u w = (Done tt, w')
    /\ (p ∉ fdw_xacts (FdwXactCtl w'))
    /\ p ∈ freeFdwXacts (FdwXactCtl w')
    /\ fdw_xact_files w' = fdw_xact_files w
    /\ forall k, EvUnlink k ∈ trace w' -> EvUnlink k ∈ trace w.
Proof.
  intros [Hok HN] Hsu Hget.
  pose proof (get_one_fdw_xact_in _ _ _ _ _ _ Hget) as Hin.
  destruct (remove_fdw_xact_present p w Hin)
    as (w' & Hrun & _ & Hfree & _ & _ & _ & Hfiles & _ & _ & Hlog).
  destruct (remove_fdw_xact_table_ok _ _ _ Hok Hrun) as (_ & _ & _ & Hgone & _).
  exists w'. unfold pg_remove_fdw_xact, bind, get. cbn [fst snd].
  rewrite Hsu, Hget. cbn [negb]. split_and!; try done.
  - rewrite Hfree. by left.
  - intros k. destruct (RecoveryInProgress w).
    + destruct Hlog as (_ & -> & _). done.
    + destruct Hlog as (lsn & _ & -> & _). rewrite elem_of_app.
      intros [?|Hk]; [done|]. apply list_elem_of_In in Hk. simpl in Hk.
      destruct Hk as [Hk|[Hk|[]]]; discriminate Hk.
Qed.

Lemma pg_remove_keeps_state_file_witness :
  exists w',
    pg_remove_fdw_xact 700 1 10 ex_checkpointed = (Done tt, w')
    /\ fdw_xact_files w' = fdw_xact_files ex_checkpointed.
Proof.
  destruct (pg_remove_keeps_state_file 8 ex_checkpointed 700 1 10 7%nat)
    as (w' & H1 & _ & _ & H2 & _).
  - unfold ex_checkpointed. apply tab_inv_run_ops.
    exact (tab_inv_reachable (ex_boot 8 DISTRIBUTED_ATOMIC_COMMIT_PREFER)
             [OpRegister 1 10 true; OpRegister 4 10 true; OpPreCommit]).
  - vm_compute. reflexivity.
  - vm_compute. reflexivity.
  - exists w'. split; assumption.
Defined.

(** ** The checkpoint *)



Lemma checkpoint_entry_unreadable h p w :
  needs_file h (deref (FdwXactCtl w) p) = true ->
  ~ insert_readable w (deref (FdwXactCtl w) p) ->
  checkpoint_entry h p w = (Raised err_xlog_read, w).
Proof.
  intros Hn Hno. unfold checkpoint_entry, bind, gets. cbn [fst snd].
  unfold needs_file in Hn. rewrite Hn.
  unfold XlogReadFdwXactData, bind, get. cbn [fst snd].
  destruct (1 <=? insert_start_lsn (deref (FdwXactCtl w) p)) eqn:Hpos; [|done].
  destruct (xlog w !! _) as [[d| |]|] eqn:Hd; try done.
  exfalso. apply Hno. split; [by apply Z.leb_le | by exists d].
Qed.


Lemma key_of_spilled x : key_of (spilled x) = key_of x.
Proof. reflexivity. Qed.




